(** * hezar: configuration objects and registry lookup

    A shallow embedding of [hezar/configs.py] and [hezar/utils/config_utils.py].

    Python values are modelled by a small tree type; Python [dict]s are
    insertion-ordered association lists with unique keys; the dict objects
    that the code mutates in place (an instance's [__dict__], a mapping passed
    by the caller) live in a store and are addressed by location, so that
    aliasing is visible.  Effects (store, logger, file system, hub) are
    threaded through a state-and-exception monad in which a raised exception
    keeps the state reached so far, as in Python.  The containers of
    omegaconf that [flatten_dict] builds are modelled with what reading and
    assigning their nodes does. *)

From Stdlib Require Import ZArith Lia Ascii String.
From stdpp Require Import base list strings.

Local Open Scope string_scope.
Local Set Warnings "-register-all".

(** ** Python values *)

(** Values that appear in configuration mappings.  A float is carried by a
    decimal literal of it ([inf], [-inf] and [nan] apart), of which it has
    many; a nested configuration object is carried by its class name and
    its attributes. *)
Inductive value : Type :=
| VNone
| VBool (b : bool)
| VInt (z : Z)
| VFloat (repr : string)
| VStr (s : string)
| VList (l : list value)
| VDict (d : list (string * value))
| VConfig (cls : string) (d : list (string * value)).

Abbreviation pydict := (list (string * value)) (only parsing).

Definition is_none (v : value) : bool :=
  match v with VNone => true | _ => false end.

(** [isinstance(v, (Dict, DictConfig))] *)
Definition is_dict (v : value) : bool :=
  match v with VDict _ => true | _ => false end.

(** ** Float literals *)

Definition digit (c : ascii) : option Z :=
  let n := Z.of_nat (nat_of_ascii c) in
  if (48 <=? n)%Z && (n <=? 57)%Z then Some (n - 48)%Z else None.

(** Reads digits, with underscores between them, after [n] digits of value
    [m]; what is left of the string is returned too. *)
Fixpoint read_digits (s : string) (m n : Z) : Z * Z * string :=
  match s with
  | EmptyString => (m, n, s)
  | String c tl =>
      match digit c with
      | Some x => read_digits tl (10 * m + x)%Z (n + 1)%Z
      | None => if Ascii.eqb c "_"%char then read_digits tl m n else (m, n, s)
      end
  end.

Definition read_sign (s : string) : bool * string :=
  match s with
  | EmptyString => (false, s)
  | String c tl =>
      if Ascii.eqb c "-"%char then (true, tl)
      else if Ascii.eqb c "+"%char then (false, tl)
      else (false, s)
  end.

(** The decimal number [m * 10 ^ x] that a literal such as [-12.5e-3]
    denotes, as the pair [(m, x)]; nothing for [inf] and [nan]. *)
Definition decimal (r : string) : option (Z * Z) :=
  let '(neg, s) := read_sign r in
  let '(i, ni, s) := read_digits s 0 0 in
  let '(m, nf, s) :=
    match s with
    | EmptyString => (i, 0%Z, s)
    | String c tl =>
        if Ascii.eqb c "."%char then read_digits tl i 0 else (i, 0%Z, s)
    end in
  let m := if neg then (- m)%Z else m in
  if (ni + nf =? 0)%Z then None
  else
    match s with
    | EmptyString => Some (m, (- nf)%Z)
    | String c tl =>
        if Ascii.eqb c "e"%char || Ascii.eqb c "E"%char then
          let '(eneg, t) := read_sign tl in
          let '(e, ne, t) := read_digits t 0 0 in
          if (0 <? ne)%Z && String.eqb t ""
          then Some (m, ((if eneg then - e else e) - nf)%Z)
          else None
        else None
    end.

(** Is the float of a literal zero?  A decimal number rounds to zero when
    it is no more than [2 ^ -1075], half of the least positive double. *)
Definition float_is_zero (r : string) : bool :=
  match decimal r with
  | Some (m, x) =>
      (m =? 0)%Z
      || ((x <? 0)%Z && (Z.abs m * 2 ^ 1075 <=? 10 ^ (- x))%Z)
  | None => false
  end.

(** Two literals of one decimal number are literals of one float.  (Two
    numbers that only round to the same float are not recognised, and
    [nan] differs from itself.) *)
Definition same_float (r1 r2 : string) : bool :=
  match decimal r1, decimal r2 with
  | Some (m1, x1), Some (m2, x2) =>
      let x := Z.min x1 x2 in
      (m1 * 10 ^ (x1 - x) =? m2 * 10 ^ (x2 - x))%Z
  | None, None =>
      String.eqb r1 r2 && (String.eqb r1 "inf" || String.eqb r1 "-inf")
  | _, _ => false
  end.

(** ** Insertion-ordered dictionaries *)

Module Dict.
Section Ops.
Context {V : Type}.

(** [d[k]] / [k in d] *)
Fixpoint get (d : list (string * V)) (k : string) : option V :=
  match d with
  | [] => None
  | (k', v) :: tl => if String.eqb k' k then Some v else get tl k
  end.

Definition mem (d : list (string * V)) (k : string) : bool :=
  match get d k with Some _ => true | None => false end.

(** [d[k] = v]: an existing key keeps its position, a new key goes last. *)
Fixpoint set (d : list (string * V)) (k : string) (v : V) : list (string * V) :=
  match d with
  | [] => [(k, v)]
  | (k', v') :: tl =>
      if String.eqb k' k then (k', v) :: tl else (k', v') :: set tl k v
  end.

(** [d.update(e)] *)
Definition update (d e : list (string * V)) : list (string * V) :=
  fold_left (fun acc kv => set acc (fst kv) (snd kv)) e d.

(** [del d[k]] when present, no change otherwise. *)
Fixpoint remove (d : list (string * V)) (k : string) : list (string * V) :=
  match d with
  | [] => []
  | (k', v) :: tl =>
      if String.eqb k' k then tl else (k', v) :: remove tl k
  end.

Definition keys (d : list (string * V)) : list string := map fst d.

(** The value of the last pair with key [k] in a sequence of writes. *)
Fixpoint last_write (l : list (string * V)) (k : string) : option V :=
  match l with
  | [] => None
  | (k', v) :: tl =>
      match last_write tl k with
      | Some w => Some w
      | None => if String.eqb k' k then Some v else None
      end
  end.
End Ops.
End Dict.

(** ** Nested mappings *)

(** The leaf pairs of a nested mapping in iteration order. *)
Fixpoint leaves_value (v : value) : list (string * value) :=
  match v with
  | VDict items =>
      (fix go (items : list (string * value)) : list (string * value) :=
         match items with
         | [] => []
         | (k, x) :: rest =>
             app (match x with
                  | VDict _ => leaves_value x
                  | _ => [(k, x)]
                  end) (go rest)
         end) items
  | _ => []
  end.

Definition leaves (dict_config : pydict) : list (string * value) :=
  leaves_value (VDict dict_config).

(** ** Classes *)

(** A dataclass: its fields in definition order, each with its class-level
    default when it has one, the other attributes found on the class and its
    bases (methods, generated dunders, what [object] provides), and the
    attributes found on the class object alone (what [type] provides). *)
Record pyclass : Type := {
  cls_name : string;
  cls_fields : list (string * option value);
  cls_attrs : list string;
  cls_meta_attrs : list string
}.

Definition is_field (cls : pyclass) (k : string) : bool :=
  Dict.mem (cls_fields cls) k.

(** A field with a default is a class attribute holding that default. *)
Definition class_default (cls : pyclass) (k : string) : option value :=
  match Dict.get (cls_fields cls) k with
  | Some (Some v) => Some v
  | _ => None
  end.

Definition str_in (k : string) (l : list string) : bool :=
  existsb (String.eqb k) l.

(** What an instance sees on its class. *)
Definition class_provides (cls : pyclass) (k : string) : bool :=
  match class_default cls k with
  | Some _ => true
  | None => str_in k (cls_attrs cls)
  end.

(** [hasattr(cls, k)] *)
Definition hasattr_class (cls : pyclass) (k : string) : bool :=
  class_provides cls k || str_in k (cls_meta_attrs cls).

(** Attributes every instance inherits from [object] (CPython 3.11), and the
    ones the [dataclass] decorator generates. *)
Definition object_attrs : list string :=
  ["__class__"; "__dict__"; "__doc__"; "__module__"; "__weakref__";
   "__init__"; "__new__"; "__repr__"; "__str__"; "__eq__"; "__ne__";
   "__lt__"; "__le__"; "__gt__"; "__ge__"; "__hash__"; "__format__";
   "__getattribute__"; "__setattr__"; "__delattr__"; "__dir__";
   "__sizeof__"; "__reduce__"; "__reduce_ex__"; "__getstate__";
   "__init_subclass__"; "__subclasshook__"; "__annotations__";
   "__dataclass_fields__"; "__dataclass_params__"; "__match_args__"].

(** Attributes found on the class object alone.  [__abstractmethods__] is
    listed by [dir(type)] but reading it on a class that is not abstract
    raises, so [hasattr] is false for it and it is not here. *)
Definition type_attrs : list string :=
  ["__name__"; "__qualname__"; "__bases__"; "__base__"; "__mro__"; "mro";
   "__subclasses__"; "__call__"; "__instancecheck__"; "__subclasscheck__";
   "__basicsize__"; "__itemsize__"; "__flags__"; "__dictoffset__";
   "__weakrefoffset__"; "__prepare__"; "__text_signature__";
   "__or__"; "__ror__"].

(** The methods of [Config] (configs.py, lines 31-150). *)
Definition config_methods : list string :=
  ["keys"; "pop"; "__getitem__"; "__len__"; "__iter__"; "dict"; "get";
   "update"; "load"; "from_dict"; "save"; "push_to_hub"].

Definition mk_config_class (name : string)
    (fields : list (string * option value)) : pyclass :=
  {| cls_name := name; cls_fields := fields;
     cls_attrs := app config_methods object_attrs;
     cls_meta_attrs := type_attrs |}.

Definition Config : pyclass :=
  mk_config_class "Config"
    [("name", None); ("config_type", Some (VStr "base"))].

Definition ModelConfig : pyclass :=
  mk_config_class "ModelConfig"
    [("name", Some VNone); ("config_type", Some (VStr "model"))].

Definition PreprocessorConfig : pyclass :=
  mk_config_class "PreprocessorConfig"
    [("name", Some VNone); ("config_type", Some (VStr "preprocessor"))].

Definition DatasetConfig : pyclass :=
  mk_config_class "DatasetConfig"
    [("name", Some VNone); ("config_type", Some (VStr "dataset"));
     ("task", Some VNone)].

Definition CriterionConfig : pyclass :=
  mk_config_class "CriterionConfig"
    [("name", Some VNone); ("config_type", Some (VStr "criterion"));
     ("weight", Some VNone); ("reduce", Some VNone);
     ("ignore_index", Some (VInt (-100)))].


Definition OptimizerConfig : pyclass :=
  mk_config_class "OptimizerConfig"
    [("name", Some VNone); ("config_type", Some (VStr "optimizer"));
     ("lr", Some VNone); ("weight_decay", Some VNone)].

Definition TrainConfig : pyclass :=
  mk_config_class "TrainConfig"
    [("name", Some VNone); ("config_type", Some (VStr "train"));
     ("device", Some (VStr "cuda")); ("optimizer", Some VNone);
     ("batch_size", Some VNone); ("metrics", Some VNone);
     ("metrics_kwargs", Some VNone); ("num_train_epochs", Some VNone);
     ("checkpoints_dir", Some VNone)].

(** ** Registries *)

Record entry : Type := { module_class : string; config_class : pyclass }.

(** The per-kind tables of [hezar/registry.py], which the two lookup
    functions import. *)
Record registries : Type := {
  models_registry : list (string * entry);
  preprocessors_registry : list (string * entry);
  datasets_registry : list (string * entry);
  embeddings_registry : list (string * entry);
  metrics_registry : list (string * entry)
}.

(** Modelled from the spec: [hezar/constants.py] is not among the sources;
    the members of [ConfigType] used by the lookup functions carry the kind
    names of the spec, which are also the [config_type] defaults of the
    classes of configs.py. *)
Module ConfigType.
Definition MODEL : string := "model".
Definition PREPROCESSOR : string := "preprocessor".
Definition DATASET : string := "dataset".
Definition EMBEDDING : string := "embedding".
Definition METRIC : string := "metric".
End ConfigType.

(** [v == ConfigType.X] for a string-valued enum member. *)
Definition eq_str (v : value) (s : string) : bool :=
  match v with VStr s' => String.eqb s' s | _ => false end.

(** ** Exceptions and results *)

Inductive exn : Type :=
| KeyError (key : value)
| ValueError (what : string) (v : value)
| TypeError (msg : string)
| AttributeError (msg : string)
| EnvironmentError (msg : string)
| FileNotFoundError (path : string)
| FileExistsError (path : string)
| IsADirectoryError (path : string)
| HubDownloadError (repo subfolder filename : string)
| YAMLError (path : string)
| NotADirectoryError (path : string)
| MissingMandatoryValue
| GrammarParseError
| InterpolationKeyError
| ValidationError
| RecursionError
| SystemError.

Inductive result (A : Type) : Type :=
| Ok (a : A)
| Raise (e : exn).
Arguments Ok {A} a.
Arguments Raise {A} e.

Definition is_ok {A} (r : result A) : bool :=
  match r with Ok _ => true | Raise _ => false end.

Definition rbind {A B} (r : result A) (k : A -> result B) : result B :=
  match r with
  | Ok a => k a
  | Raise e => Raise e
  end.

(** ** OmegaConf containers *)

(** ["${" in s] *)
Fixpoint has_interpolation (s : string) : bool :=
  match s with
  | EmptyString => false
  | String c tl =>
      (Ascii.eqb c "$"%char
       && match tl with
          | String c' _ => Ascii.eqb c' "{"%char
          | EmptyString => false
          end)
      || has_interpolation tl
  end.

(** A [DictConfig] is modelled by the mapping of its keys to what its nodes
    hold: a nested [VDict] is a nested [DictConfig], a [VList] a
    [ListConfig].  A string node [???] is a mandatory value that is missing
    and a string node with [${] in it is an interpolation; both are stored
    as written and take effect when the node is read.  The grammar of
    interpolations, their resolution against the container at the top, and
    the conversion of a dataclass object into a structured config are
    omegaconf's own and are taken as they are. *)
Section OmegaConf.
Variable interpolation_grammar : string -> bool.
Variable resolve_interpolation : pydict -> string -> result value.
Variable structured_config : string -> pydict -> result pydict.

(** The node that an assigned value becomes. *)
Fixpoint wrap (v : value) : result value :=
  match v with
  | VStr s =>
      if has_interpolation s && negb (interpolation_grammar s)
      then Raise GrammarParseError else Ok v
  | VList l =>
      rbind ((fix go (l : list value) : result (list value) :=
                match l with
                | [] => Ok []
                | x :: tl =>
                    rbind (wrap x) (fun x' =>
                    rbind (go tl) (fun tl' => Ok (x' :: tl')))
                end) l)
        (fun l' => Ok (VList l'))
  | VDict d =>
      rbind ((fix go (d : list (string * value)) : result pydict :=
                match d with
                | [] => Ok []
                | (k, x) :: tl =>
                    rbind (wrap x) (fun x' =>
                    rbind (go tl) (fun tl' => Ok ((k, x') :: tl')))
                end) d)
        (fun d' => Ok (VDict d'))
  | VConfig cls d => rbind (structured_config cls d) (fun d' => Ok (VDict d'))
  | _ => Ok v
  end.

(** [config[k] = v] *)
Definition DictConfig_setitem (config : pydict) (k : string) (v : value)
    : result pydict :=
  rbind (wrap v) (fun node => Ok (Dict.set config k node)).

(** Reading the node of a key of a container whose top is [root]. *)
Definition DictConfig_read (root : pydict) (node : value) : result value :=
  match node with
  | VStr s =>
      if String.eqb s "???" then Raise MissingMandatoryValue
      else if has_interpolation s then resolve_interpolation root s
      else Ok node
  | _ => Ok node
  end.

(** [config.items()]: every node is read before the first pair is handed
    out. *)
Fixpoint DictConfig_items (root : pydict) (config : pydict) : result pydict :=
  match config with
  | [] => Ok []
  | (k, node) :: rest =>
      rbind (DictConfig_read root node) (fun v =>
      rbind (DictConfig_items root rest) (fun tl => Ok ((k, v) :: tl)))
  end.

(** [config.update(other)], which is [MutableMapping.update]: for each key
    of [other], [config[key] = other[key]]. *)
Fixpoint DictConfig_update_from (other : pydict) (items : pydict)
    (config : pydict) : result pydict :=
  match items with
  | [] => Ok config
  | (k, node) :: rest =>
      rbind (DictConfig_read other node) (fun v =>
      rbind (DictConfig_setitem config k v) (fun config' =>
      DictConfig_update_from other rest config'))
  end.

Definition DictConfig_update (config other : pydict) : result pydict :=
  DictConfig_update_from other other config.

(** *** [flatten_dict] (config_utils.py, lines 25-43) *)

(** The body of the loop, [flatten] being the recursive call. *)
Definition flatten_item (flatten : pydict -> result pydict) (config : pydict)
    (kv : string * value) : result pydict :=
  match snd kv with
  | VDict d => rbind (flatten d) (fun r => DictConfig_update config r)
  | v => DictConfig_setitem config (fst kv) v
  end.

Fixpoint flatten_loop (flatten : pydict -> result pydict)
    (items : pydict) (config : pydict) : result pydict :=
  match items with
  | [] => Ok config
  | kv :: rest =>
      rbind (flatten_item flatten config kv) (flatten_loop flatten rest)
  end.

(** [flatten_dict(dict_config)] with room for [depth] nested calls on the
    interpreter's stack.  [is_config] tells whether the argument is a
    [DictConfig], whose [items()] reads the nodes against [root], the
    container at the top, or a plain dict, whose items are handed out as
    they are; the nested mappings of a [DictConfig] are [DictConfig]s and
    those of a plain dict are taken to be plain dicts.  The accumulator
    [config] is a [DictConfig] in both cases. *)
Fixpoint flatten_from (depth : nat) (root : pydict) (is_config : bool)
    (dict_config : pydict) : result pydict :=
  match depth with
  | O => Raise RecursionError
  | S depth' =>
      rbind (if is_config then DictConfig_items root dict_config
             else Ok dict_config)
        (fun items =>
           flatten_loop (flatten_from depth' root is_config) items [])
  end.

Definition flatten_dict (depth : nat) (is_config : bool) (dict_config : pydict)
    : result pydict :=
  flatten_from depth dict_config is_config dict_config.

End OmegaConf.

(** [registry[name]]: a list or a dict is unhashable, any other key that is
    not a registered string is missing. *)
Definition registry_getitem (registry : list (string * entry)) (name : value)
    : result entry :=
  match name with
  | VStr s =>
      match Dict.get registry s with
      | Some e => Ok e
      | None => Raise (KeyError name)
      end
  | VList _ | VDict _ => Raise (TypeError "unhashable type")
  | _ => Raise (KeyError name)
  end.

(** [get_module_config_class] (config_utils.py, lines 76-107) *)
Definition get_module_config_class (R : registries) (name : value)
    (config_type : value) : result pyclass :=
  match
    (if eq_str config_type ConfigType.MODEL then Ok (models_registry R)
     else if eq_str config_type ConfigType.PREPROCESSOR then Ok (preprocessors_registry R)
     else if eq_str config_type ConfigType.DATASET then Ok (datasets_registry R)
     else if eq_str config_type ConfigType.EMBEDDING then Ok (embeddings_registry R)
     else Raise (ValueError "Invalid `config_type`" config_type))
  with
  | Raise e => Raise e
  | Ok registry =>
      match registry_getitem registry name with
      | Ok e => Ok (config_class e)
      | Raise e => Raise e
      end
  end.

(** ** The world: store, logger, file system, hub *)

Abbreviation loc := nat (only parsing).

Inductive log_record : Type :=
| Warning (msg : string)
| Info (msg : string).

(** Paths are compared as written.  A file holds the bytes last written. *)
Record filesys (bytes : Type) : Type := {
  fs_dirs : list string;
  fs_files : list (string * bytes)
}.
Arguments fs_dirs {bytes} f.
Arguments fs_files {bytes} f.

Record world (bytes : Type) : Type := {
  w_heap : list pydict;
  w_log : list log_record;
  w_fs : filesys bytes;
  w_hub : list (string * string * string * bytes);
  w_hub_calls : list (string * string * string);
  w_registry : registries
}.
Arguments w_heap {bytes} w.
Arguments w_log {bytes} w.
Arguments w_fs {bytes} w.
Arguments w_hub {bytes} w.
Arguments w_hub_calls {bytes} w.
Arguments w_registry {bytes} w.

(** An object: its class and the location of its [__dict__]. *)
Record instance : Type := { inst_class : pyclass; inst_dict : loc }.


Section Program.
Context {bytes : Type}.

(** The collaborators whose code is outside the sources: the path
    normaliser of [hezar.utils], the key normaliser of [common_utils], the
    YAML writer and reader behind [OmegaConf.save] and [OmegaConf.load]
    ([None] when the library raises), and the cache layout of the hub client. *)
Variable resolve_pretrained_path : filesys bytes -> string -> string.
Variable snake_case : string -> string.
Variable yaml_dump : pydict -> result bytes.
Variable yaml_load : bytes -> option pydict.
Variable HEZAR_TMP_DIR : string.
Variable hub_cache_path : string -> string -> string -> string -> string.

Definition with_heap (h : list pydict) (w : world bytes) : world bytes :=
  {| w_heap := h; w_log := w_log w; w_fs := w_fs w; w_hub := w_hub w;
     w_hub_calls := w_hub_calls w; w_registry := w_registry w |}.

Definition with_log (l : list log_record) (w : world bytes) : world bytes :=
  {| w_heap := w_heap w; w_log := l; w_fs := w_fs w; w_hub := w_hub w;
     w_hub_calls := w_hub_calls w; w_registry := w_registry w |}.

Definition with_fs (f : filesys bytes) (w : world bytes) : world bytes :=
  {| w_heap := w_heap w; w_log := w_log w; w_fs := f; w_hub := w_hub w;
     w_hub_calls := w_hub_calls w; w_registry := w_registry w |}.

Definition with_hub_calls (c : list (string * string * string))
    (w : world bytes) : world bytes :=
  {| w_heap := w_heap w; w_log := w_log w; w_fs := w_fs w; w_hub := w_hub w;
     w_hub_calls := c; w_registry := w_registry w |}.

(** *** The monad *)

Definition M (A : Type) : Type := world bytes -> result A * world bytes.

Definition ret {A} (a : A) : M A := fun w => (Ok a, w).

Definition raise {A} (e : exn) : M A := fun w => (Raise e, w).

Definition bind {A B} (m : M A) (f : A -> M B) : M B :=
  fun w =>
    match m w with
    | (Ok a, w') => f a w'
    | (Raise e, w') => (Raise e, w')
    end.

Definition lift {A} (r : result A) : M A := fun w => (r, w).

Local Notation "'let*' x ':=' c 'in' k" := (bind c (fun x => k))
  (at level 10, x name, c at level 100, k at level 200).
Local Notation "c ';;' k" := (bind c (fun _ => k))
  (at level 100, k at level 200, right associativity).

(** *** Store *)

Definition deref (l : loc) : M pydict :=
  fun w =>
    match w_heap w !! l with
    | Some d => (Ok d, w)
    | None => (Raise SystemError, w)
    end.

Definition store (l : loc) (d : pydict) : M unit :=
  fun w => (Ok tt, with_heap (<[l := d]> (w_heap w)) w).

Definition alloc (d : pydict) : M loc :=
  fun w => (Ok (length (w_heap w)), with_heap (w_heap w ++ [d])%list w).

(** [d.update(e)] on the dict object at [l] *)
Definition dict_update (l : loc) (e : pydict) : M unit :=
  let* d := deref l in store l (Dict.update d e).

(** [d.pop(key, default)] on the dict object at [l] *)
Definition dict_pop (l : loc) (key : string) (default : value) : M value :=
  let* d := deref l in
  match Dict.get d key with
  | Some v => store l (Dict.remove d key) ;; ret v
  | None => ret default
  end.

(** *** Logger *)

Definition logger_warning (msg : string) : M unit :=
  fun w => (Ok tt, with_log (w_log w ++ [Warning msg])%list w).

Definition logger_info (msg : string) : M unit :=
  fun w => (Ok tt, with_log (w_log w ++ [Info msg])%list w).

(** *** Attribute access *)

(** [hasattr(self, k)] *)
Definition hasattr (self : instance) (k : string) : M bool :=
  let* d := deref (inst_dict self) in
  ret (Dict.mem d k || class_provides (inst_class self) k).

(** [getattr(self, k)] for an attribute that holds a configuration value:
    the instance attribute, else the class-level default. *)
Definition getattr (self : instance) (k : string) : M value :=
  let* d := deref (inst_dict self) in
  match Dict.get d k with
  | Some v => ret v
  | None =>
      match class_default (inst_class self) k with
      | Some v => ret v
      | None => raise (AttributeError k)
      end
  end.

(** [setattr(self, k, v)].  The three names below are data descriptors of
    every such object: [__dict__] rebinds the attribute dictionary and
    accepts only a dict, [__class__] accepts only a class, which no value
    of a mapping is, and [__weakref__] is read-only.  Any other name is
    written to the instance's [__dict__].  The object after the call is
    returned.

    The dict that [__dict__] is bound to is the assigned dict object
    itself.  The store keeps a dict nested in a mapping inside that
    mapping, so the assigned dict gets a place of its own here, and the
    caller that still holds it inside a mapping writes it back there (see
    [update_loop]). *)
Definition setattr (self : instance) (k : string) (v : value) : M instance :=
  if String.eqb k "__dict__" then
    match v with
    | VDict d' =>
        let* l := alloc d' in
        ret {| inst_class := inst_class self; inst_dict := l |}
    | _ => raise (TypeError "__dict__ must be set to a dictionary")
    end
  else if String.eqb k "__class__" then
    raise (TypeError "__class__ must be set to a class")
  else if String.eqb k "__weakref__" then
    raise (AttributeError "attribute '__weakref__' is not writable")
  else
    let* d := deref (inst_dict self) in
    store (inst_dict self) (Dict.set d k v) ;;
    ret self.

(** ** [Config] (configs.py) *)

(** [Config.dict]: the attribute dictionary itself, not a copy. *)
Definition Config_dict (self : instance) : loc := inst_dict self.

Definition Config_keys (self : instance) : M (list string) :=
  let* d := deref (Config_dict self) in ret (Dict.keys d).

Definition Config_pop (self : instance) (key : string) (default : value)
    : M value :=
  dict_pop (Config_dict self) key default.

Definition Config_getitem (self : instance) (item : string) : M value :=
  let* d := deref (Config_dict self) in
  match Dict.get d item with
  | Some v => ret v
  | None => raise (ValueError "has no attribute" (VStr item))
  end.

Definition Config_len (self : instance) : M nat :=
  let* d := deref (Config_dict self) in ret (length d).


Definition unknown_parameter_message (self : instance) (k : string) : string :=
  cls_name (inst_class self) +:+ " does not take `" +:+ k
    +:+ "` as a config parameter!".

(** The attribute dictionary of [self] is the dict object that the mapping
    [d] holds under [__dict__]: what it holds now is what [d] holds there. *)
Definition write_through (d : loc) (self : instance) : M unit :=
  let* attrs := deref (inst_dict self) in
  let* items := deref d in
  store d (Dict.set items "__dict__" (VDict attrs)).

(** The [for k, v in d.items()] loop of [Config.update] over the items of
    the dict object [d].  Once the item [__dict__] has been assigned
    ([adopted]), the attribute dictionary of the object is the dict that
    [d] holds under that key, and every later assignment is seen through
    [d] as well. *)
Fixpoint update_loop (d : loc) (adopted : bool) (self : instance)
    (items : pydict) : M instance :=
  match items with
  | [] => ret self
  | (k, v) :: rest =>
      let* known := hasattr self k in
      (if known then ret tt
       else logger_warning (unknown_parameter_message self k)) ;;
      let* self' := setattr self k v in
      (if adopted then write_through d self' else ret tt) ;;
      update_loop d (adopted || String.eqb k "__dict__") self' rest
  end.

(** [Config.update(self, d, **kwargs)]; [d] is the caller's dict object and
    [kwargs] the keyword dictionary as bound in the body. *)
Definition Config_update (self : instance) (d : loc) (kwargs : pydict)
    : M instance :=
  dict_update d kwargs ;;
  let* items := deref d in
  update_loop d false self items.

(** The generated [__init__] of a dataclass, called with keywords only: a
    keyword that is not a field is rejected, a field without keyword takes
    its default, a field with neither is missing; the attributes are then
    assigned in field order. *)
Fixpoint init_fields (fields : list (string * option value)) (kw acc : pydict)
    : result pydict :=
  match fields with
  | [] => Ok acc
  | (f, default) :: rest =>
      match (match Dict.get kw f with Some v => Some v | None => default end) with
      | Some v => init_fields rest kw (Dict.set acc f v)
      | None => Raise (TypeError "missing required argument")
      end
  end.

Definition dataclass_new (cls : pyclass) (kw : pydict) : M instance :=
  if forallb (is_field cls) (Dict.keys kw) then
    let* d := lift (init_fields (cls_fields cls) kw []) in
    let* l := alloc d in
    ret {| inst_class := cls; inst_dict := l |}
  else raise (TypeError "unexpected keyword argument").

(** [Config.from_dict(cls, dict_config, **kwargs)]; [strict] is popped from
    the keywords and not used afterwards. *)
Definition Config_from_dict (cls : pyclass) (dict_config : loc)
    (kwargs : pydict) : M instance :=
  let strict :=
    match Dict.get kwargs "strict" with Some v => v | None => VBool true end in
  let kwargs := Dict.remove kwargs "strict" in
  dict_update dict_config kwargs ;;
  let* items := deref dict_config in
  dataclass_new cls (List.filter (fun kv => hasattr_class cls (fst kv)) items).

(** *** Paths and files *)

Definition starts_with_sep (p : string) : bool :=
  match p with String "/"%char _ => true | _ => false end.

Fixpoint ends_with_sep (p : string) : bool :=
  match p with
  | EmptyString => false
  | String c EmptyString => Ascii.eqb c "/"%char
  | String _ tl => ends_with_sep tl
  end.

(** [posixpath.join] of two components, and of a head and more components. *)
Definition join2 (path b : string) : string :=
  if starts_with_sep b then b
  else if String.eqb path "" || ends_with_sep path then path +:+ b
  else path +:+ "/" +:+ b.

Definition path_join (a : string) (p : list string) : string :=
  fold_left join2 p a.

(** A directory name without its trailing separators. *)
Fixpoint strip_sep (p : string) : string :=
  match p with
  | EmptyString => EmptyString
  | String c tl =>
      match strip_sep tl with
      | EmptyString =>
          if Ascii.eqb c "/"%char then EmptyString else String c EmptyString
      | tl' => String c tl'
      end
  end.

Definition dir_key (p : string) : string :=
  if starts_with_sep p && String.eqb (strip_sep p) "" then "/" else strip_sep p.

Definition isfile (fs : filesys bytes) (p : string) : bool :=
  Dict.mem (fs_files fs) p.

Definition isdir (fs : filesys bytes) (p : string) : bool :=
  str_in (dir_key p) (fs_dirs fs).

Definition os_path_isfile (p : string) : M bool :=
  fun w => (Ok (isfile (w_fs w) p), w).

Definition os_path_isdir (p : string) : M bool :=
  fun w => (Ok (isdir (w_fs w) p), w).

(** The directories above a path: what is before each of its separators. *)
Fixpoint ancestors_from (acc p : string) : list string :=
  match p with
  | EmptyString => []
  | String c tl =>
      if Ascii.eqb c "/"%char then
        app (if String.eqb acc "" then [] else [dir_key acc])
            (ancestors_from (acc +:+ "/") tl)
      else ancestors_from (acc +:+ String c EmptyString) tl
  end.

Definition ancestors (p : string) : list string := ancestors_from "" p.

Definition add_dir (dirs : list string) (q : string) : list string :=
  if str_in q dirs then dirs else (dirs ++ [q])%list.

(** [os.makedirs(p, exist_ok=True)]: the empty path is no path; a regular
    file in the place of the directory or of a directory above it makes the
    call fail; otherwise the directory exists afterwards, and so do the
    ones above it. *)
Definition os_makedirs (p : string) : M unit :=
  fun w =>
    let q := dir_key p in
    if String.eqb q "" then (Raise (FileNotFoundError p), w)
    else if isfile (w_fs w) q then (Raise (FileExistsError p), w)
    else if existsb (isfile (w_fs w)) (ancestors q) then
      (Raise (NotADirectoryError p), w)
    else if isdir (w_fs w) p then (Ok tt, w)
    else (Ok tt,
          with_fs {| fs_dirs := fold_left add_dir (ancestors q ++ [q])%list
                                  (fs_dirs (w_fs w));
                     fs_files := fs_files (w_fs w) |} w).

(** The hub client putting a downloaded file into its cache. *)
Definition write_file (p : string) (b : bytes) : M unit :=
  fun w =>
    if isdir (w_fs w) p then (Raise (IsADirectoryError p), w)
    else (Ok tt,
          with_fs {| fs_dirs := fs_dirs (w_fs w);
                     fs_files := Dict.set (fs_files (w_fs w)) p b |} w).

(** [posixpath.dirname]: what is before the last separator, without its
    trailing separators. *)
Fixpoint last_ancestor (l : list string) : string :=
  match l with
  | [] => ""
  | [x] => x
  | _ :: tl => last_ancestor tl
  end.

Definition dirname (p : string) : string :=
  if starts_with_sep p && String.eqb (last_ancestor (ancestors p)) ""
  then "/" else last_ancestor (ancestors p).

(** [open(p, "w")] and a write: the path must not name a directory, and the
    directory it lies in must exist (the working directory and the root
    always do). *)
Definition open_write (p : string) (b : bytes) : M unit :=
  fun w =>
    if isdir (w_fs w) p || ends_with_sep p then (Raise (IsADirectoryError p), w)
    else if existsb (isfile (w_fs w)) (ancestors p) then
      (Raise (NotADirectoryError p), w)
    else if String.eqb (dirname p) "" || String.eqb (dirname p) "/"
            || isdir (w_fs w) (dirname p)
    then (Ok tt,
          with_fs {| fs_dirs := fs_dirs (w_fs w);
                     fs_files := Dict.set (fs_files (w_fs w)) p b |} w)
    else (Raise (FileNotFoundError p), w).

Definition read_file (p : string) : M bytes :=
  fun w =>
    match Dict.get (fs_files (w_fs w)) p with
    | Some b => (Ok b, w)
    | None =>
        if isdir (w_fs w) p then (Raise (IsADirectoryError p), w)
        else (Raise (FileNotFoundError p), w)
    end.

(** [OmegaConf.save(config, path)]: the text is produced before the file is
    opened. *)
Definition OmegaConf_save (config : pydict) (path : string) : M unit :=
  match yaml_dump config with
  | Ok b => open_write path b
  | Raise e => raise e
  end.

(** [OmegaConf.to_container(OmegaConf.load(path))] *)
Definition OmegaConf_load (path : string) : M pydict :=
  let* b := read_file path in
  match yaml_load b with
  | Some d => ret d
  | None => raise (YAMLError path)
  end.

Fixpoint hub_lookup (hub : list (string * string * string * bytes))
    (repo subfolder filename : string) : option bytes :=
  match hub with
  | [] => None
  | (r, s, f, b) :: rest =>
      if String.eqb r repo && String.eqb s subfolder && String.eqb f filename
      then Some b
      else hub_lookup rest repo subfolder filename
  end.

(** [hf_hub_download(repo, filename=, subfolder=, cache_dir=)]: the request
    is recorded, the file is placed in the cache and its path returned. *)
Definition hf_hub_download (repo filename subfolder cache_dir : string)
    : M string :=
  (fun w => (Ok tt,
             with_hub_calls
               (w_hub_calls w ++ [(repo, subfolder, filename)])%list w)) ;;
  let* b :=
    (fun w =>
       match hub_lookup (w_hub w) repo subfolder filename with
       | Some b => (Ok b, w)
       | None => (Raise (HubDownloadError repo subfolder filename), w)
       end) in
  let path := hub_cache_path cache_dir repo subfolder filename in
  write_file path b ;;
  ret path.

(** [d[k]] on a plain dict *)
Definition dict_getitem (d : pydict) (k : string) : M value :=
  match Dict.get d k with
  | Some v => ret v
  | None => raise (KeyError (VStr k))
  end.

(** The call [config_cls.from_dict(config, strict=False, **kwargs)] cannot
    be made when the keywords repeat [strict] or name one of the two
    positional parameters of [from_dict].  ([kwargs] is the keyword
    dictionary as bound in the body of [load], which has taken the
    keywords that name parameters of [load] itself.) *)
Definition keyword_collision (kwargs : pydict) : option string :=
  if Dict.mem kwargs "strict"
  then Some "got multiple values for keyword argument 'strict'"
  else if Dict.mem kwargs "cls"
  then Some "got multiple values for argument 'cls'"
  else if Dict.mem kwargs "dict_config"
  then Some "got multiple values for argument 'dict_config'"
  else None.

(** [Config.load(cls, hub_or_local_path, filename, subfolder, **kwargs)];
    the parsed container is a fresh dict object, and the keywords are
    looked at when [from_dict] is called, after the class has been
    resolved. *)
Definition Config_load (cls : pyclass) (hub_or_local_path : string)
    (filename subfolder : string) (kwargs : pydict) : M instance :=
  let* hub_or_local_path :=
    (fun w => (Ok (resolve_pretrained_path (w_fs w) hub_or_local_path), w)) in
  let config_path := path_join hub_or_local_path [subfolder; filename] in
  let* is_local := os_path_isfile config_path in
  let* is_dir := os_path_isdir hub_or_local_path in
  if is_dir && negb is_local then
    raise (EnvironmentError
             ("Path `" +:+ hub_or_local_path
                +:+ "` exists locally but the config file " +:+ filename
                +:+ " is missing!"))
  else
    let* config_path :=
      (if negb is_local
       then hf_hub_download hub_or_local_path filename subfolder HEZAR_TMP_DIR
       else ret config_path) in
    let* config := OmegaConf_load config_path in
    let* name := dict_getitem config "name" in
    let* config_type := dict_getitem config "config_type" in
    let* config_cls :=
      (fun w => (get_module_config_class (w_registry w) name config_type, w)) in
    let* l := alloc config in
    match keyword_collision kwargs with
    | Some msg => raise (TypeError msg)
    | None => Config_from_dict config_cls l (("strict", VBool false) :: kwargs)
    end.

(** [Config.save(self, save_dir, filename, subfolder)] *)
Definition Config_save (self : instance) (save_dir : string)
    (filename subfolder : string) : M string :=
  let* config := deref (Config_dict self) in
  let config := List.filter (fun kv => negb (is_none (snd kv))) config in
  os_makedirs (path_join save_dir [subfolder]) ;;
  let save_path := path_join save_dir [subfolder; filename] in
  OmegaConf_save config save_path ;;
  logger_info ("Saved config to `" +:+ save_path +:+ "`") ;;
  ret save_path.

(** [get_module_class] (config_utils.py, lines 110-144) *)
Definition get_module_class (R : registries) (name : string)
    (module_type : value) : result string :=
  match
    (if eq_str module_type ConfigType.MODEL then Ok (models_registry R)
     else if eq_str module_type ConfigType.PREPROCESSOR then Ok (preprocessors_registry R)
     else if eq_str module_type ConfigType.DATASET then Ok (datasets_registry R)
     else if eq_str module_type ConfigType.EMBEDDING then Ok (embeddings_registry R)
     else if eq_str module_type ConfigType.METRIC then Ok (metrics_registry R)
     else Raise (ValueError "Invalid `module_type`" module_type))
  with
  | Raise e => Raise e
  | Ok registry =>
      let name := snake_case name in
      match registry_getitem registry (VStr name) with
      | Ok e => Ok (module_class e)
      | Raise e => Raise e
      end
  end.

End Program.

(** ** Callers of the mapping protocol *)

Section Callers.
Context {bytes : Type}.

Local Notation "'let*' x ':=' c 'in' k" := (bind (bytes := bytes) c (fun x => k))
  (at level 10, x name, c at level 100, k at level 200).
Local Notation "c ';;' k" := (bind (bytes := bytes) c (fun _ => k))
  (at level 100, k at level 200, right associativity).

(** [self[k]] for every [k] of a list of keys, in order. *)
Fixpoint getitems (self : instance) (ks : list string) : @M bytes pydict :=
  match ks with
  | [] => ret []
  | k :: rest =>
      let* v := Config_getitem self k in
      let* tl := getitems self rest in
      ret ((k, v) :: tl)
  end.

(** The keyword dictionary that a call with [self] unpacked by a double
    star builds: [self.keys()], then
    [self[k]] for each key.  This is how [hezar_config_to_hf_config]
    (config_utils.py, line 72) and [_build_inner_config] hand a config to a
    constructor of the transformers library. *)
Definition unpack_mapping (self : instance) : @M bytes pydict :=
  let* ks := Config_keys self in
  getitems self ks.

(** Truth value of a value in a condition; a config object has [__len__]
    and no [__bool__], so it is true when it has attributes. *)
Definition truthy (v : value) : bool :=
  match v with
  | VNone => false
  | VBool b => b
  | VInt z => negb (Z.eqb z 0)
  | VFloat r => negb (float_is_zero r)
  | VStr s => negb (String.eqb s "")
  | VList l => match l with [] => false | _ => true end
  | VDict d => match d with [] => false | _ => true end
  | VConfig _ d => match d with [] => false | _ => true end
  end.

(** [len(v)] *)
Definition len (v : value) : @M bytes Z :=
  match v with
  | VStr s => ret (Z.of_nat (String.length s))
  | VList l => ret (Z.of_nat (length l))
  | VDict d => ret (Z.of_nat (length d))
  | VConfig _ d => ret (Z.of_nat (length d))
  | _ => raise (TypeError "object has no len()")
  end.

(** [DistilBertTextClassification._build_inner_config]
    (distilbert_text_classification.py, lines 30-36) on the model's
    [self.config].  The result is the keyword dictionary passed to
    [DistilBertConfig]. *)
Definition DistilBertTextClassification_build_inner_config
    (config : instance) : @M bytes pydict :=
  let* num_labels := getattr config "num_labels" in
  (if is_none num_labels then
     let* id2label := getattr config "id2label" in
     if is_none id2label then
       raise (ValueError
                "Both `num_labels` and `id2label` are None. Please provide at least one of them!"
                VNone)
     else ret tt
   else ret tt) ;;
  let* id2label := getattr config "id2label" in
  let* config :=
    (if truthy id2label then
       let* num_labels := getattr config "num_labels" in
       if is_none num_labels then
         let* id2label := getattr config "id2label" in
         let* n := len id2label in
         setattr config "num_labels" (VInt n)
       else ret config
     else ret config) in
  unpack_mapping config.

End Callers.

(** ** Vocabulary of the statements *)

(** A value without a missing-value mark, an interpolation or a dataclass
    object anywhere in it. *)
Fixpoint ordinary (v : value) : bool :=
  match v with
  | VStr s => negb (String.eqb s "???") && negb (has_interpolation s)
  | VList l => forallb ordinary l
  | VDict d =>
      (fix all (d : list (string * value)) : bool :=
         match d with
         | [] => true
         | (_, x) :: rest => ordinary x && all rest
         end) d
  | VConfig _ _ => false
  | _ => true
  end.

(** How many mappings lie inside one another. *)
Fixpoint nesting (v : value) : nat :=
  match v with
  | VDict d =>
      S ((fix deepest (d : list (string * value)) : nat :=
            match d with
            | [] => O
            | (_, x) :: rest => Nat.max (nesting x) (deepest rest)
            end) d)
  | _ => O
  end.

(** What the loop of [flatten_dict] accumulates when every read and every
    assignment stores the value as it is. *)
Definition collect_step (collect : value -> pydict) (config : pydict)
    (kv : string * value) : pydict :=
  match snd kv with
  | VDict _ => Dict.update config (collect (snd kv))
  | _ => Dict.set config (fst kv) (snd kv)
  end.

Fixpoint collect_value (v : value) : pydict :=
  match v with
  | VDict items =>
      (fix loop (items : list (string * value)) (config : pydict) : pydict :=
         match items with
         | [] => config
         | (k, x) :: rest =>
             loop rest
               (match x with
                | VDict _ => Dict.update config (collect_value x)
                | _ => Dict.set config k x
                end)
         end) items []
  | _ => []
  end.

Definition collect (dict_config : pydict) : pydict :=
  collect_value (VDict dict_config).

(** A sufficient condition for [a == b] in Python: the same kind of value
    with equal contents, mappings in the same order. *)
Fixpoint same_value (a b : value) : bool :=
  match a, b with
  | VNone, VNone => true
  | VBool x, VBool y => Bool.eqb x y
  | VInt x, VInt y => Z.eqb x y
  | VFloat x, VFloat y => same_float x y
  | VStr x, VStr y => String.eqb x y
  | VList l, VList l' =>
      (fix all (l l' : list value) : bool :=
         match l, l' with
         | [], [] => true
         | x :: tl, y :: tl' => same_value x y && all tl tl'
         | _, _ => false
         end) l l'
  | VDict d, VDict d' =>
      (fix all (d d' : list (string * value)) : bool :=
         match d, d' with
         | [], [] => true
         | (k, x) :: tl, (k', y) :: tl' =>
             String.eqb k k' && same_value x y && all tl tl'
         | _, _ => false
         end) d d'
  | VConfig c d, VConfig c' d' =>
      String.eqb c c'
      && (fix all (d d' : list (string * value)) : bool :=
            match d, d' with
            | [], [] => true
            | (k, x) :: tl, (k', y) :: tl' =>
                String.eqb k k' && same_value x y && all tl tl'
            | _, _ => false
            end) d d'
  | _, _ => false
  end.

Definition same_attribute (a b : option value) : bool :=
  match a, b with
  | Some x, Some y => same_value x y
  | None, None => true
  | _, _ => false
  end.

(** The registries of the kinds that have config classes, by kind. *)
Definition config_registries (R : registries)
    : list (string * list (string * entry)) :=
  [(ConfigType.MODEL, models_registry R);
   (ConfigType.PREPROCESSOR, preprocessors_registry R);
   (ConfigType.DATASET, datasets_registry R);
   (ConfigType.EMBEDDING, embeddings_registry R)].

(** The leaf pairs that one item of a mapping contributes. *)
Definition leaf_step (kv : string * value) : list (string * value) :=
  match snd kv with
  | VDict _ => leaves_value (snd kv)
  | _ => [kv]
  end.

(** The names [setattr] does not store in the attribute dictionary. *)
Definition descriptor_name (k : string) : bool :=
  String.eqb k "__dict__" || String.eqb k "__class__"
  || String.eqb k "__weakref__".

Definition plain_keys (items : pydict) : bool :=
  forallb (fun kv => negb (descriptor_name (fst kv))) items.

(** The warnings of one run of the loop over [items], for an object whose
    attribute dictionary is [sd] when the loop starts. *)
Fixpoint update_warnings (self : instance) (sd items : pydict)
    : list log_record :=
  match items with
  | [] => []
  | (k, v) :: rest =>
      app (if Dict.mem sd k || class_provides (inst_class self) k then []
           else [Warning (unknown_parameter_message self k)])
          (update_warnings self (Dict.set sd k v) rest)
  end.

(** A class can be built from the items of a mapping by keywords when all
    its fields have defaults and every key of the mapping that the class
    has as an attribute is one of its fields. *)
Definition has_default (fd : string * option value) : bool :=
  match snd fd with Some _ => true | None => false end.

Definition constructible (cls : pyclass) (items : pydict) : bool :=
  forallb has_default (cls_fields cls)
  && forallb (fun kv => implb (hasattr_class cls (fst kv)) (is_field cls (fst kv)))
       items.

(** Where [load] gets the bytes of the config file from, and the world once
    it has them: the local file, or the hub when the path is neither a local
    file nor a local directory. *)
Inductive config_source {bytes} (HEZAR_TMP_DIR : string)
    (hub_cache_path : string -> string -> string -> string -> string)
    (w : world bytes) (p filename subfolder : string)
    : string -> bytes -> world bytes -> Prop :=
| source_local b :
    Dict.get (fs_files (w_fs w)) (path_join p [subfolder; filename]) = Some b ->
    config_source HEZAR_TMP_DIR hub_cache_path w p filename subfolder
      (path_join p [subfolder; filename]) b w
| source_hub b :
    isfile (w_fs w) (path_join p [subfolder; filename]) = false ->
    isdir (w_fs w) p = false ->
    hub_lookup (w_hub w) p subfolder filename = Some b ->
    isdir (w_fs w) (hub_cache_path HEZAR_TMP_DIR p subfolder filename) = false ->
    config_source HEZAR_TMP_DIR hub_cache_path w p filename subfolder
      (hub_cache_path HEZAR_TMP_DIR p subfolder filename) b
      (with_fs
         {| fs_dirs := fs_dirs (w_fs w);
            fs_files :=
              Dict.set (fs_files (w_fs w))
                (hub_cache_path HEZAR_TMP_DIR p subfolder filename) b |}
         (with_hub_calls (w_hub_calls w ++ [(p, subfolder, filename)]) w)).

(** A computation leaves an observation of the world as it was, whatever
    its outcome. *)
Definition frames {bytes A X} (obs : world bytes -> X) (m : @M bytes A) : Prop :=
  forall w, obs (snd (m w)) = obs w.

(** An entry is registered under a key in one of the kinds that both lookup
    functions know. *)
Definition registered_entry (R : registries) (name : string) (e : entry) : Prop :=
  Dict.get (models_registry R) name = Some e
  \/ Dict.get (preprocessors_registry R) name = Some e
  \/ Dict.get (datasets_registry R) name = Some e
  \/ Dict.get (embeddings_registry R) name = Some e.

(** A field-less mapping: no value is a mapping and no key occurs twice. *)
Definition flat_dict (d : pydict) : Prop :=
  Forall (fun kv => is_dict (snd kv) = false) d /\ NoDup (Dict.keys d).

(** An observation that does not look at the store. *)
Definition heap_blind {bytes X} (obs : world bytes -> X) : Prop :=
  forall h w, obs (with_heap h w) = obs w.

(** What [load] does with the parsed mapping: peek at [name] and
    [config_type], resolve the class, build the instance. *)
Definition load_parsed {bytes} (config kwargs : pydict) : @M bytes instance :=
  bind (dict_getitem config "name")
    (fun name =>
       bind (dict_getitem config "config_type")
         (fun config_type =>
            bind (fun w0 : world bytes =>
                    (get_module_config_class (w_registry w0) name config_type, w0))
              (fun config_cls =>
                 bind (alloc config)
                   (fun l =>
                      match keyword_collision kwargs with
                      | Some msg => raise (TypeError msg)
                      | None => Config_from_dict config_cls l
                                  (("strict", VBool false) :: kwargs)
                      end)))).

(** A key normaliser for concrete runs: ASCII letters to lower case and
    hyphens to underscores. *)
Definition sample_snake_case_char (c : ascii) : ascii :=
  let n := nat_of_ascii c in
  if Ascii.eqb c "-"%char then "_"%char
  else if (65 <=? n)%nat && (n <=? 90)%nat then ascii_of_nat (n + 32)
  else c.

Fixpoint sample_snake_case (s : string) : string :=
  match s with
  | EmptyString => EmptyString
  | String c tl => String (sample_snake_case_char c) (sample_snake_case tl)
  end.

(** ** Sample data for concrete runs *)

(** The config class that the sources register under the model key
    [distilbert_text_classification].  Its defining file is not among the
    sources; the fields listed after [name] and [config_type] are two that
    the model reads. *)
Definition DistilBertTextClassificationConfig : pyclass :=
  mk_config_class "DistilBertTextClassificationConfig"
    [("name", Some (VStr "distilbert_text_classification"));
     ("config_type", Some (VStr "model"));
     ("num_labels", Some VNone); ("id2label", Some VNone)].

Definition sample_registries : registries :=
  {| models_registry :=
       [("distilbert_text_classification",
         {| module_class := "DistilBertTextClassification";
            config_class := DistilBertTextClassificationConfig |})];
     preprocessors_registry := [];
     datasets_registry := [];
     embeddings_registry := [];
     metrics_registry := [] |}.

(** A world whose files hold mappings, with the given store and files. *)
Definition sample_world (heap : list pydict) (dirs : list string)
    (files : list (string * pydict)) : world pydict :=
  {| w_heap := heap; w_log := [];
     w_fs := {| fs_dirs := dirs; fs_files := files |};
     w_hub := [(("hezarai/distilbert", "", "config.yaml"),
                [("name", VStr "distilbert_text_classification");
                 ("config_type", VStr "model")])];
     w_hub_calls := [];
     w_registry := sample_registries |}.

Definition sample_model_dict : pydict :=
  [("name", VStr "distilbert_text_classification");
   ("config_type", VStr "model");
   ("num_labels", VInt 2);
   ("id2label", VDict [("0", VStr "neg"); ("1", VStr "pos")])].

Definition sample_optimizer_dict : pydict :=
  [("name", VStr "adam"); ("config_type", VStr "optimizer");
   ("lr", VFloat "2e-5"); ("weight_decay", VFloat "0.01")].

Definition sample_train_dict : pydict :=
  [("name", VStr "train"); ("config_type", VStr "train");
   ("device", VStr "cuda");
   ("optimizer", VConfig "OptimizerConfig" sample_optimizer_dict);
   ("batch_size", VInt 128); ("metrics", VNone); ("metrics_kwargs", VNone);
   ("num_train_epochs", VInt 3); ("checkpoints_dir", VStr "checkpoints/")].

Arguments path_join : simpl never.

(** * Properties *)

(** ** Dictionaries *)

Section DictFacts.
Context {V : Type}.
Implicit Types (d e l : list (string * V)) (k : string) (v : V).

Lemma get_set d k v k' :
  Dict.get (Dict.set d k v) k' = if String.eqb k k' then Some v else Dict.get d k'.
Proof.
  induction d as [|[k0 v0] d IH]; simpl.
  - reflexivity.
  - destruct (String.eqb_spec k0 k) as [->|Hne]; simpl.
    + destruct (String.eqb k k'); reflexivity.
    + rewrite IH. destruct (String.eqb_spec k0 k') as [->|Hne'].
      * destruct (String.eqb_spec k k'); congruence.
      * reflexivity.
Qed.

Lemma get_set_eq d k v : Dict.get (Dict.set d k v) k = Some v.
Proof. rewrite get_set, String.eqb_refl. reflexivity. Qed.

Lemma get_set_ne d k v k' :
  k <> k' -> Dict.get (Dict.set d k v) k' = Dict.get d k'.
Proof.
  intros Hne. rewrite get_set.
  destruct (String.eqb_spec k k'); [contradiction | reflexivity].
Qed.


Lemma keys_set_mem d k v :
  Dict.mem d k = true -> Dict.keys (Dict.set d k v) = Dict.keys d.
Proof.
  unfold Dict.mem, Dict.keys.
  induction d as [|[k0 v0] d IH]; simpl; [discriminate|].
  destruct (String.eqb k0 k); simpl; intros H.
  - reflexivity.
  - f_equal. apply IH, H.
Qed.

Lemma keys_set_new d k v :
  Dict.mem d k = false -> Dict.keys (Dict.set d k v) = (Dict.keys d ++ [k])%list.
Proof.
  unfold Dict.mem, Dict.keys.
  induction d as [|[k0 v0] d IH]; simpl; [reflexivity|].
  destruct (String.eqb k0 k); simpl; intros H.
  - discriminate.
  - f_equal. apply IH, H.
Qed.

Lemma mem_keys d k : Dict.mem d k = true <-> k ∈ Dict.keys d.
Proof.
  unfold Dict.mem. induction d as [|[k0 v0] d IH]; simpl.
  - split; [discriminate | intros H; inversion H].
  - destruct (String.eqb_spec k0 k) as [->|Hne].
    + split; [intros _; left | reflexivity].
    + rewrite IH. split; [intros H; right; exact H|].
      intros H. inversion H; subst; [contradiction | assumption].
Qed.

Lemma mem_false_keys d k : Dict.mem d k = false <-> k ∉ Dict.keys d.
Proof.
  rewrite <- mem_keys.
  destruct (Dict.mem d k); split; intros H;
    try discriminate; try reflexivity.
  exfalso. apply H. reflexivity.
Qed.

Lemma NoDup_keys_set d k v :
  NoDup (Dict.keys d) -> NoDup (Dict.keys (Dict.set d k v)).
Proof.
  intros Hnd. destruct (Dict.mem d k) eqn:Hm.
  - rewrite keys_set_mem by assumption. exact Hnd.
  - rewrite keys_set_new by assumption.
    apply NoDup_app. split; [exact Hnd|]. split.
    + intros x Hx Hin. apply list_elem_of_singleton in Hin. subst x.
      apply mem_false_keys in Hm. contradiction.
    + apply NoDup_singleton.
Qed.

Lemma NoDup_keys_update d e :
  NoDup (Dict.keys d) -> NoDup (Dict.keys (Dict.update d e)).
Proof.
  unfold Dict.update. revert d.
  induction e as [|[k v] e IH]; intros d Hnd; simpl; [exact Hnd|].
  apply IH, NoDup_keys_set, Hnd.
Qed.

Lemma last_write_app (l1 l2 : list (string * V)) k :
  Dict.last_write (l1 ++ l2) k =
  match Dict.last_write l2 k with
  | Some w => Some w
  | None => Dict.last_write l1 k
  end.
Proof.
  induction l1 as [|[k0 v0] l1 IH]; simpl.
  - destruct (Dict.last_write l2 k); reflexivity.
  - rewrite IH. destruct (Dict.last_write l2 k); reflexivity.
Qed.

Lemma get_update d e k :
  Dict.get (Dict.update d e) k =
  match Dict.last_write e k with
  | Some w => Some w
  | None => Dict.get d k
  end.
Proof.
  unfold Dict.update. revert d.
  induction e as [|[k0 v0] e IH]; intros d; simpl; [reflexivity|].
  rewrite IH. destruct (Dict.last_write e k); [reflexivity|].
  rewrite get_set. destruct (String.eqb k0 k); reflexivity.
Qed.

Lemma last_write_None l k :
  Dict.last_write l k = None <-> k ∉ Dict.keys l.
Proof.
  induction l as [|[k0 v0] l IH]; simpl.
  - split; [intros _ H; inversion H | reflexivity].
  - destruct (Dict.last_write l k).
    + split; [discriminate|]. intros H. exfalso.
      apply H. right. destruct (decide (k ∈ Dict.keys l)) as [Hin|Hin]; [exact Hin|].
      apply IH in Hin. discriminate.
    + destruct (String.eqb_spec k0 k) as [->|Hne].
      * split; [discriminate|]. intros H. exfalso. apply H. left.
      * split; [|reflexivity]. intros _ H.
        inversion H; subst; [contradiction|]. apply (proj1 IH); auto.
Qed.

Lemma last_write_NoDup l k :
  NoDup (Dict.keys l) -> Dict.last_write l k = Dict.get l k.
Proof.
  induction l as [|[k0 v0] l IH]; simpl; [reflexivity|].
  intros Hnd. inversion Hnd as [|? ? Hnotin Hnd']; subst.
  rewrite IH by assumption.
  destruct (String.eqb_spec k0 k) as [->|Hne].
  - rewrite <- (IH Hnd'). apply last_write_None in Hnotin. rewrite Hnotin. reflexivity.
  - destruct (Dict.get l k); reflexivity.
Qed.


Lemma get_remove_ne d k k' :
  k <> k' -> Dict.get (Dict.remove d k) k' = Dict.get d k'.
Proof.
  intros Hne. induction d as [|[k0 v0] d IH]; simpl; [reflexivity|].
  destruct (String.eqb_spec k0 k) as [->|Hne0]; simpl.
  - destruct (String.eqb_spec k k'); [contradiction | reflexivity].
  - rewrite IH. reflexivity.
Qed.

End DictFacts.

(** ** [flatten_dict] *)

(** Induction on values that reaches the values stored in lists and
    mappings. *)
Lemma value_nested_ind (P : value -> Prop) :
  P VNone -> (forall b, P (VBool b)) -> (forall z, P (VInt z)) ->
  (forall r, P (VFloat r)) -> (forall s, P (VStr s)) ->
  (forall l, Forall P l -> P (VList l)) ->
  (forall d, Forall (fun kv => P (snd kv)) d -> P (VDict d)) ->
  (forall c d, Forall (fun kv => P (snd kv)) d -> P (VConfig c d)) ->
  forall v, P v.
Proof.
  intros HN HB HI HF HS HL HD HC.
  fix IH 1. intros [| b | z | r | s | l | d | c d].
  - exact HN.
  - apply HB.
  - apply HI.
  - apply HF.
  - apply HS.
  - apply HL. induction l as [|x l IHl]; constructor; [apply IH | exact IHl].
  - apply HD. induction d as [|[k x] d IHd]; constructor; [apply IH | exact IHd].
  - apply HC. induction d as [|[k x] d IHd]; constructor; [apply IH | exact IHd].
Qed.

Lemma collect_fold (d : pydict) :
  collect d = fold_left (collect_step collect_value) d [].
Proof.
  unfold collect. simpl. generalize (@nil (string * value)) as config.
  induction d as [|[k x] d IH]; intros config; simpl; [reflexivity|].
  rewrite IH. unfold collect_step. simpl. destruct x; reflexivity.
Qed.

Lemma leaves_flat_map (d : pydict) : leaves d = flat_map leaf_step d.
Proof.
  unfold leaves. simpl.
  induction d as [|[k x] d IH]; simpl; [reflexivity|].
  rewrite IH. unfold leaf_step. simpl. destruct x; reflexivity.
Qed.

Lemma collect_value_dict (d : pydict) : collect_value (VDict d) = collect d.
Proof. reflexivity. Qed.

Lemma leaves_value_dict (d : pydict) : leaves_value (VDict d) = leaves d.
Proof. reflexivity. Qed.

Lemma Forall_set (P : value -> Prop) (d : pydict) k v :
  P v ->
  Forall (fun kv => P (snd kv)) d ->
  Forall (fun kv => P (snd kv)) (Dict.set d k v).
Proof.
  intros Hv. induction 1 as [|[k0 v0] d Hx Hd IH]; simpl.
  - constructor; [exact Hv | constructor].
  - destruct (String.eqb k0 k); constructor; assumption.
Qed.

Lemma Forall_update (P : value -> Prop) (d e : pydict) :
  Forall (fun kv => P (snd kv)) e ->
  Forall (fun kv => P (snd kv)) d ->
  Forall (fun kv => P (snd kv)) (Dict.update d e).
Proof.
  unfold Dict.update. intros He. revert d.
  induction He as [|[k v] e Hx He IH]; intros d Hd; simpl; [exact Hd|].
  apply IH, Forall_set; assumption.
Qed.

(** What the loop computes from any accumulator when values are stored as
    they are. *)
Lemma collect_spec (v : value) :
  forall d, v = VDict d ->
  forall config : pydict,
    let out := fold_left (collect_step collect_value) d config in
    (forall k, Dict.get out k =
               match Dict.last_write (flat_map leaf_step d) k with
               | Some w => Some w
               | None => Dict.get config k
               end)
    /\ (NoDup (Dict.keys config) -> NoDup (Dict.keys out))
    /\ (Forall (fun kv => is_dict (snd kv) = false) config ->
        Forall (fun kv => is_dict (snd kv) = false) out).
Proof.
  induction v as [| | | | | | items IH | ] using value_nested_ind;
    intros d0 Hd0; try discriminate.
  injection Hd0 as <-.
  induction IH as [|[k x] items Hx _ IHitems]; intros config; simpl.
  - split; [reflexivity | split; auto].
  - specialize (IHitems
      (collect_step collect_value config (k, x))).
    simpl in IHitems. destruct IHitems as (Hget & Hnd & Hflat).
    assert (Hstep :
      (forall k', Dict.get (collect_step collect_value config (k, x)) k' =
                  match Dict.last_write (leaf_step (k, x)) k' with
                  | Some w => Some w
                  | None => Dict.get config k'
                  end)
      /\ (NoDup (Dict.keys config) ->
          NoDup (Dict.keys (collect_step collect_value config (k, x))))
      /\ (Forall (fun kv => is_dict (snd kv) = false) config ->
          Forall (fun kv => is_dict (snd kv) = false)
                 (collect_step collect_value config (k, x)))).
    { unfold collect_step, leaf_step. simpl in *.
      destruct x as [| b | z | r | s | l | d' | c d'];
        try (split; [intros k'; rewrite get_set; simpl;
                       destruct (String.eqb k k'); reflexivity
                    | split; [apply NoDup_keys_set
                             | intros H;
                               apply (Forall_set (fun v => is_dict v = false));
                                 [reflexivity | exact H]]]).
      destruct (Hx d' eq_refl []) as (Hget' & Hnd' & Hflat').
      rewrite collect_value_dict, leaves_value_dict,
        collect_fold, leaves_flat_map.
      split; [|split].
      - intros k'. rewrite get_update.
        rewrite last_write_NoDup by (apply Hnd'; constructor).
        rewrite Hget'. simpl.
        destruct (Dict.last_write (flat_map leaf_step d') k'); reflexivity.
      - apply NoDup_keys_update.
      - apply (Forall_update (fun v => is_dict v = false)), Hflat'.
        constructor. }
    destruct Hstep as (Hget1 & Hnd1 & Hflat1).
    split; [|split].
    + intros k'. rewrite Hget, last_write_app, Hget1.
      destruct (Dict.last_write (flat_map leaf_step items) k'); reflexivity.
    + intros H. apply Hnd, Hnd1, H.
    + intros H. apply Hflat, Hflat1, H.
Qed.

Lemma collect_facts (d : pydict) :
  Forall (fun kv => is_dict (snd kv) = false) (collect d)
  /\ NoDup (Dict.keys (collect d))
  /\ (forall k, Dict.get (collect d) k = Dict.last_write (leaves d) k).
Proof.
  destruct (collect_spec (VDict d) d eq_refl []) as (Hget & Hnd & Hflat).
  simpl in Hget, Hnd, Hflat.
  rewrite collect_fold, leaves_flat_map.
  split; [apply Hflat; constructor|].
  split; [apply Hnd; constructor|].
  intros k. rewrite Hget.
  destruct (Dict.last_write (flat_map leaf_step d) k); reflexivity.
Qed.

Lemma last_write_In {V} (l : list (string * V)) k v :
  Dict.last_write l k = Some v -> In (k, v) l.
Proof.
  induction l as [|[k0 v0] l IH]; simpl; [discriminate|].
  destruct (Dict.last_write l k) as [x|] eqn:E.
  - intros H. right. apply IH. exact H.
  - destruct (String.eqb_spec k0 k) as [->|]; [|discriminate].
    intros H. injection H as ->. left. reflexivity.
Qed.

Lemma get_Some_In {V} (d : list (string * V)) k v :
  Dict.get d k = Some v -> In (k, v) d.
Proof.
  induction d as [|[k0 v0] d IH]; simpl; [discriminate|].
  destruct (String.eqb_spec k0 k) as [->|].
  - intros H. injection H as ->. left. reflexivity.
  - intros H. right. apply IH, H.
Qed.

Lemma In_get_NoDup {V} (d : list (string * V)) k v :
  NoDup (Dict.keys d) -> In (k, v) d -> Dict.get d k = Some v.
Proof.
  induction d as [|[k0 v0] d IH]; intros Hnd Hin; [destruct Hin|].
  inversion Hnd as [|? ? Hnotin Hnd']; subst. simpl.
  destruct Hin as [Heq|Hin].
  - injection Heq as -> ->. rewrite String.eqb_refl. reflexivity.
  - destruct (String.eqb_spec k0 k) as [->|Hne]; [|auto].
    exfalso. apply Hnotin. unfold Dict.keys.
    apply list_elem_of_fmap. exists (k, v).
    split; [reflexivity | apply list_elem_of_In, Hin].
Qed.

(** The pairs of the accumulated mapping are leaf pairs. *)
Lemma collect_In_leaves (d : pydict) k v :
  In (k, v) (collect d) -> In (k, v) (leaves d).
Proof.
  destruct (collect_facts d) as (_ & Hnd & Hget). intros Hin.
  apply last_write_In. rewrite <- Hget. apply In_get_NoDup; assumption.
Qed.

(** *** Ordinary values *)

Lemma ordinary_cons k (x : value) (d : pydict) :
  ordinary (VDict ((k, x) :: d)) = ordinary x && ordinary (VDict d).
Proof. reflexivity. Qed.

Lemma nesting_cons k (x : value) (d : pydict) :
  nesting (VDict ((k, x) :: d))
  = S (Nat.max (nesting x) (Nat.pred (nesting (VDict d)))).
Proof. reflexivity. Qed.

Lemma leaves_ordinary (v : value) :
  forall d, v = VDict d -> ordinary v = true ->
  Forall (fun kv => ordinary (snd kv) = true) (leaves d).
Proof.
  induction v as [| | | | | | items IH | ] using value_nested_ind;
    intros d0 Hd0; try discriminate.
  injection Hd0 as <-. rewrite leaves_flat_map.
  induction IH as [|[k x] items Hx _ IHitems]; intros Hord; simpl.
  - constructor.
  - rewrite ordinary_cons in Hord. apply andb_true_iff in Hord as [Hox Hrest].
    apply Forall_app. split; [|apply IHitems, Hrest].
    unfold leaf_step. simpl in *.
    destruct x as [| b | z | r | s | l | d' | c d'];
      try (constructor; [exact Hox | constructor]).
    rewrite leaves_value_dict. apply (Hx d' eq_refl Hox).
Qed.

Lemma collect_ordinary (d : pydict) :
  ordinary (VDict d) = true ->
  Forall (fun kv => ordinary (snd kv) = true) (collect d).
Proof.
  intros Hord. apply Forall_forall. intros [k v] Hin.
  pose proof (leaves_ordinary (VDict d) d eq_refl Hord) as Hl.
  rewrite Forall_forall in Hl.
  apply (Hl (k, v)), list_elem_of_In, collect_In_leaves, list_elem_of_In, Hin.
Qed.

Lemma ordinary_items (d : pydict) :
  ordinary (VDict d) = true <-> Forall (fun kv => ordinary (snd kv) = true) d.
Proof.
  induction d as [|[k x] d IH].
  - split; [constructor | reflexivity].
  - rewrite ordinary_cons, andb_true_iff, IH. split.
    + intros [H1 H2]. constructor; assumption.
    + intros H. inversion H; subst. split; assumption.
Qed.

Section OmegaConfFacts.
Variable interpolation_grammar : string -> bool.
Variable resolve_interpolation : pydict -> string -> result value.
Variable structured_config : string -> pydict -> result pydict.

Local Abbreviation wrap' := (wrap interpolation_grammar structured_config).
Local Abbreviation setitem' :=
  (DictConfig_setitem interpolation_grammar structured_config).
Local Abbreviation read' := (DictConfig_read resolve_interpolation).
Local Abbreviation items' := (DictConfig_items resolve_interpolation).
Local Abbreviation update' :=
  (DictConfig_update interpolation_grammar resolve_interpolation
     structured_config).
Local Abbreviation flatten' :=
  (flatten_from interpolation_grammar resolve_interpolation structured_config).

(** An ordinary value is stored as it is and read as it is. *)
Lemma wrap_ordinary (v : value) : ordinary v = true -> wrap' v = Ok v.
Proof.
  induction v as [| b | z | r | s | l IH | d IH | c d IH]
    using value_nested_ind; intros Hord; try reflexivity.
  - simpl in Hord. apply andb_true_iff in Hord as [_ Hi].
    apply negb_true_iff in Hi. simpl. rewrite Hi. reflexivity.
  - simpl in *.
    assert (Hl : (fix go (l : list value) : result (list value) :=
                    match l with
                    | [] => Ok []
                    | x :: tl =>
                        rbind (wrap' x) (fun x' =>
                        rbind (go tl) (fun tl' => Ok (x' :: tl')))
                    end) l = Ok l).
    { induction IH as [|x l Hx _ IHl]; [reflexivity|].
      simpl in Hord. apply andb_true_iff in Hord as [Hox Hol].
      rewrite (Hx Hox). simpl. rewrite (IHl Hol). reflexivity. }
    rewrite Hl. reflexivity.
  - assert (Hd : (fix go (d : list (string * value)) : result pydict :=
                    match d with
                    | [] => Ok []
                    | (k, x) :: tl =>
                        rbind (wrap' x) (fun x' =>
                        rbind (go tl) (fun tl' => Ok ((k, x') :: tl')))
                    end) d = Ok d).
    { induction IH as [|[k x] d Hx _ IHd]; [reflexivity|].
      rewrite ordinary_cons in Hord.
      apply andb_true_iff in Hord as [Hox Hod].
      simpl in Hx. rewrite (Hx Hox). simpl. rewrite (IHd Hod). reflexivity. }
    simpl. simpl in Hd. rewrite Hd. reflexivity.
  - discriminate.
Qed.

Lemma read_ordinary (root : pydict) (v : value) :
  ordinary v = true -> read' root v = Ok v.
Proof.
  destruct v; try reflexivity. simpl. intros H.
  apply andb_true_iff in H as [H1 H2].
  apply negb_true_iff in H1, H2. rewrite H1, H2. reflexivity.
Qed.

Lemma setitem_ordinary (config : pydict) k (v : value) :
  ordinary v = true -> setitem' config k v = Ok (Dict.set config k v).
Proof.
  intros H. unfold DictConfig_setitem. rewrite (wrap_ordinary v H).
  reflexivity.
Qed.

Lemma items_ordinary (root d : pydict) :
  Forall (fun kv => ordinary (snd kv) = true) d ->
  items' root d = Ok d.
Proof.
  induction 1 as [|[k v] d Hv _ IH]; [reflexivity|].
  simpl in *. rewrite (read_ordinary root v Hv). simpl. rewrite IH.
  reflexivity.
Qed.

Lemma update_ordinary (other : pydict) :
  forall config : pydict,
    Forall (fun kv => ordinary (snd kv) = true) other ->
    update' config other = Ok (Dict.update config other).
Proof.
  intros config H. unfold DictConfig_update.
  assert (Hgen : forall root items config,
    Forall (fun kv => ordinary (snd kv) = true) items ->
    DictConfig_update_from interpolation_grammar resolve_interpolation
      structured_config root items config
    = Ok (Dict.update config items)).
  { clear. intros root items config H. revert config.
    induction H as [|[k v] items Hv _ IH]; intros config; [reflexivity|].
    simpl in *. rewrite (read_ordinary root v Hv). simpl.
    rewrite (setitem_ordinary config k v Hv). simpl. apply IH. }
  apply Hgen, H.
Qed.

(** On an ordinary mapping, with room for its nesting, [flatten_dict]
    returns what the loop accumulates. *)
Lemma flatten_from_ordinary (depth : nat) :
  forall (root : pydict) (is_config : bool) (d : pydict),
    ordinary (VDict d) = true ->
    (nesting (VDict d) <= depth)%nat ->
    flatten' depth root is_config d = Ok (collect d).
Proof.
  induction depth as [|n IH]; intros root is_config d Hord Hdepth.
  - simpl in Hdepth. lia.
  - cbn [flatten_from].
    assert (Hitems : (if is_config then items' root d else Ok d)
                     = Ok d).
    { destruct is_config; [|reflexivity].
      apply items_ordinary, ordinary_items, Hord. }
    rewrite Hitems. cbn [rbind]. rewrite collect_fold.
    generalize (@nil (string * value)) as config.
    induction d as [|[k x] d IHd]; intros config; [reflexivity|].
    rewrite ordinary_cons in Hord. apply andb_true_iff in Hord as [Hox Hod].
    rewrite nesting_cons in Hdepth.
    assert (Hnx : (nesting x <= n)%nat) by lia.
    assert (Hnd : (nesting (VDict d) <= S n)%nat) by lia.
    assert (Hstep : flatten_item interpolation_grammar resolve_interpolation
                      structured_config (flatten' n root is_config)
                      config (k, x)
                    = Ok (collect_step collect_value config (k, x))).
    { unfold flatten_item, collect_step. cbn [fst snd].
      destruct x as [| b | z | r | s | l | d' | c d'];
        try (apply setitem_ordinary; exact Hox).
      rewrite (IH root is_config d' Hox Hnx). cbn [rbind].
      rewrite collect_value_dict.
      apply update_ordinary, collect_ordinary, Hox. }
    cbn [flatten_loop fold_left]. rewrite Hstep. cbn [rbind].
    apply IHd; [exact Hod | exact Hnd |].
    destruct is_config; [|reflexivity].
    apply items_ordinary, ordinary_items, Hod.
Qed.

End OmegaConfFacts.




(** Two nested mappings with a field of the same name, and an empty one. *)
Example flatten_dict_collision :
  flatten_dict (fun _ => true) (fun _ _ => Raise InterpolationKeyError)
    (fun _ _ => Raise ValidationError) 1000 false
    [("a", VDict [("lr", VInt 1)]); ("b", VDict [("lr", VInt 2); ("c", VDict [])]); ("d", VInt 3)]
  = Ok [("lr", VInt 2); ("d", VInt 3)].
Proof. vm_compute. reflexivity. Qed.

(** The same mark at the top of a plain dict is stored and not read; in a
    [DictConfig] it is read by [items()]. *)
Example flatten_dict_missing_value_at_top :
  flatten_dict (fun _ => true) (fun _ _ => Raise InterpolationKeyError)
    (fun _ _ => Raise ValidationError) 1000 false [("b", VStr "???")]
  = Ok [("b", VStr "???")]
  /\ flatten_dict (fun _ => true) (fun _ _ => Raise InterpolationKeyError)
       (fun _ _ => Raise ValidationError) 1000 true [("b", VStr "???")]
     = Raise MissingMandatoryValue.
Proof. split; vm_compute; reflexivity. Qed.

(** A dataclass object is stored as a structured config, which is a
    mapping: the result is not single-level, and flattening it again
    flattens the object. *)
Example flatten_dict_dataclass_leaf :
  flatten_dict (fun _ => true) (fun _ _ => Raise InterpolationKeyError)
    (fun _ d => Ok d) 1000 false
    [("optimizer", VConfig "OptimizerConfig" [("lr", VFloat "2e-5")])]
  = Ok [("optimizer", VDict [("lr", VFloat "2e-5")])]
  /\ flatten_dict (fun _ => true) (fun _ _ => Raise InterpolationKeyError)
       (fun _ d => Ok d) 1000 true
       [("optimizer", VDict [("lr", VFloat "2e-5")])]
     = Ok [("lr", VFloat "2e-5")].
Proof. split; vm_compute; reflexivity. Qed.

(** ** Running the primitives *)

Implicit Types (self : instance) (d sd : pydict) (k : string) (l : loc).

Lemma bind_ok {bytes A B} (m : @M bytes A) (f : A -> M B) w a w' :
  m w = (Ok a, w') -> bind m f w = f a w'.
Proof. unfold bind. intros ->. reflexivity. Qed.

Lemma bind_raise {bytes A B} (m : @M bytes A) (f : A -> M B) w e w' :
  m w = (Raise e, w') -> bind m f w = (Raise e, w').
Proof. unfold bind. intros ->. reflexivity. Qed.

Lemma bind_bind {bytes A B C} (m : @M bytes A) (f : A -> M B) (g : B -> M C) w :
  bind (bind m f) g w = bind m (fun a => bind (f a) g) w.
Proof. unfold bind. destruct (m w) as [[a|e] w']; reflexivity. Qed.

Lemma bind_ret {bytes A B} (a : A) (f : A -> @M bytes B) w :
  bind (ret a) f w = f a w.
Proof. reflexivity. Qed.

Lemma bind_alloc {bytes A} d (f : nat -> @M bytes A) w :
  bind (alloc d) f w = f (length (w_heap w)) (with_heap (w_heap w ++ [d]) w).
Proof. reflexivity. Qed.

Lemma bind_store {bytes A} l d (f : unit -> @M bytes A) w :
  bind (store l d) f w = f tt (with_heap (<[l := d]> (w_heap w)) w).
Proof. reflexivity. Qed.

Lemma deref_ok {bytes} (w : world bytes) l d :
  w_heap w !! l = Some d -> deref l w = (Ok d, w).
Proof. unfold deref. intros ->. reflexivity. Qed.

Lemma hasattr_ok {bytes} (w : world bytes) self sd k :
  w_heap w !! inst_dict self = Some sd ->
  hasattr self k w = (Ok (Dict.mem sd k || class_provides (inst_class self) k), w).
Proof.
  intros H. unfold hasattr. rewrite (bind_ok _ _ _ _ _ (deref_ok _ _ _ H)).
  reflexivity.
Qed.

Lemma dict_update_ok {bytes} (w : world bytes) l d e :
  w_heap w !! l = Some d ->
  dict_update l e w = (Ok tt, with_heap (<[l := Dict.update d e]> (w_heap w)) w).
Proof.
  intros H. unfold dict_update. rewrite (bind_ok _ _ _ _ _ (deref_ok _ _ _ H)).
  reflexivity.
Qed.

Lemma lookup_store {bytes} (w : world bytes) l d d' :
  w_heap w !! l = Some d -> <[l := d']> (w_heap w) !! l = Some d'.
Proof. intros H. apply list_lookup_insert_eq. eapply lookup_lt_Some, H. Qed.



(** ** [Config.update] *)

Lemma descriptor_name_false k :
  descriptor_name k = false ->
  String.eqb k "__dict__" = false /\ String.eqb k "__class__" = false
  /\ String.eqb k "__weakref__" = false.
Proof.
  unfold descriptor_name. intros H.
  apply orb_false_iff in H as [H H3]. apply orb_false_iff in H as [H1 H2].
  auto.
Qed.

Lemma setattr_plain_ok {bytes} (w : world bytes) self sd k (v : value) :
  descriptor_name k = false ->
  w_heap w !! inst_dict self = Some sd ->
  setattr self k v w
  = (Ok self, with_heap (<[inst_dict self := Dict.set sd k v]> (w_heap w)) w).
Proof.
  intros Hk Hsd. apply descriptor_name_false in Hk as (H1 & H2 & H3).
  unfold setattr. rewrite H1, H2, H3.
  rewrite (bind_ok _ _ _ _ _ (deref_ok _ _ _ Hsd)). reflexivity.
Qed.

Lemma world_eta {bytes} (w : world bytes) :
  with_log (w_log w) (with_heap (w_heap w) w) = w.
Proof. destruct w. reflexivity. Qed.

(** With ordinary keys only, the loop assigns every item in order, keeps the
    object, and logs one warning per key unknown at its turn. *)
Lemma update_loop_plain {bytes} (dl : loc) (items : pydict) :
  forall self (w : world bytes) sd,
    w_heap w !! inst_dict self = Some sd ->
    plain_keys items = true ->
    update_loop dl false self items w
    = (Ok self,
       with_log (w_log w ++ update_warnings self sd items)
         (with_heap (<[inst_dict self := Dict.update sd items]> (w_heap w)) w)).
Proof.
  induction items as [|[k v] rest IH]; intros self w sd Hsd Hplain.
  - cbn [update_loop update_warnings]. unfold ret, Dict.update.
    cbn [fold_left].
    rewrite app_nil_r, (list_insert_id _ _ _ Hsd), world_eta. reflexivity.
  - simpl in Hplain. apply andb_true_iff in Hplain as [Hk Hrest].
    apply negb_true_iff in Hk. simpl in Hk.
    cbn [update_loop].
    rewrite (bind_ok _ _ _ _ _ (hasattr_ok _ _ _ k Hsd)).
    set (known := Dict.mem sd k || class_provides (inst_class self) k).
    set (w1 := if known then w
               else with_log (w_log w ++ [Warning (unknown_parameter_message self k)]) w).
    assert (Hw1 : (if known then ret tt
                   else logger_warning (unknown_parameter_message self k)) w
                  = (Ok tt, w1)).
    { subst w1. destruct known; reflexivity. }
    rewrite (bind_ok _ _ _ _ _ Hw1).
    assert (Hsd1 : w_heap w1 !! inst_dict self = Some sd).
    { subst w1. destruct known; exact Hsd. }
    rewrite (bind_ok _ _ _ _ _ (setattr_plain_ok _ _ _ _ v Hk Hsd1)).
    rewrite bind_ret.
    rewrite (proj1 (descriptor_name_false k Hk)). cbn [orb].
    rewrite (IH self _ (Dict.set sd k v)); [|eapply lookup_store, Hsd1 | exact Hrest].
    f_equal. cbn [update_warnings]. fold known.
    subst w1. destruct w as [h lg fs hub calls reg]. simpl.
    destruct known; simpl; unfold with_log, with_heap; simpl;
      rewrite list_insert_insert_eq; rewrite <- ?app_assoc; reflexivity.
Qed.

Lemma update_warnings_unknown self (items : pydict) :
  forall sd k,
    Dict.mem sd k = false ->
    class_provides (inst_class self) k = false ->
    k ∈ Dict.keys items ->
    Warning (unknown_parameter_message self k) ∈ update_warnings self sd items.
Proof.
  induction items as [|[k0 v0] rest IH]; intros sd k Hm Hc Hin; simpl.
  - inversion Hin.
  - destruct (String.eqb_spec k0 k) as [->|Hne].
    + rewrite Hm, Hc. simpl. left.
    + apply list_elem_of_In, in_or_app. right. apply list_elem_of_In, IH.
      * unfold Dict.mem. rewrite get_set_ne by exact Hne. exact Hm.
      * exact Hc.
      * simpl in Hin. inversion Hin; subst; [contradiction | assumption].
Qed.

(** [Config.update] with ordinary keys: the mapping is extended by the
    keywords, then every item is assigned to the object. *)
Lemma Config_update_plain {bytes} (w : world bytes) self (d : loc) dv sd kwargs :
  w_heap w !! d = Some dv ->
  w_heap w !! inst_dict self = Some sd ->
  d <> inst_dict self ->
  plain_keys (Dict.update dv kwargs) = true ->
  Config_update self d kwargs w
  = (Ok self,
     with_log (w_log w ++ update_warnings self sd (Dict.update dv kwargs))
       (with_heap
          (<[inst_dict self := Dict.update sd (Dict.update dv kwargs)]>
             (<[d := Dict.update dv kwargs]> (w_heap w))) w)).
Proof.
  intros Hd Hsd Hne Hplain. unfold Config_update.
  rewrite (bind_ok _ _ _ _ _ (dict_update_ok _ _ _ kwargs Hd)).
  erewrite bind_ok; cycle 1.
  { apply deref_ok. simpl. eapply lookup_store, Hd. }
  erewrite update_loop_plain; [reflexivity | | exact Hplain].
  simpl. rewrite list_lookup_insert_ne by exact Hne. exact Hsd.
Qed.

Lemma getattr_instance {bytes} (w : world bytes) self sd k (v : value) :
  w_heap w !! inst_dict self = Some sd ->
  Dict.get sd k = Some v ->
  getattr self k w = (Ok v, w).
Proof.
  intros Hsd Hk. unfold getattr.
  rewrite (bind_ok _ _ _ _ _ (deref_ok _ _ _ Hsd)), Hk. reflexivity.
Qed.

Lemma getattr_same_view {bytes} (w w' : world bytes) self sd sd' k :
  w_heap w !! inst_dict self = Some sd ->
  w_heap w' !! inst_dict self = Some sd' ->
  Dict.get sd' k = Dict.get sd k ->
  fst (getattr self k w') = fst (getattr self k w).
Proof.
  intros Hsd Hsd' Hk. unfold getattr.
  rewrite (bind_ok _ _ _ _ _ (deref_ok _ _ _ Hsd)),
    (bind_ok _ _ _ _ _ (deref_ok _ _ _ Hsd')), Hk.
  destruct (Dict.get sd k); [reflexivity|].
  destruct (class_default (inst_class self) k); reflexivity.
Qed.


(** Whatever the keys and whatever the outcome, the loop leaves alone an
    attribute that is not among the items, as long as no item rebinds
    [__dict__]. *)
Lemma update_loop_keeps_attr {bytes} (dl : loc) (items : pydict) (a : string) :
  forall self (w : world bytes) sd,
    w_heap w !! inst_dict self = Some sd ->
    Dict.mem items a = false ->
    Dict.mem items "__dict__" = false ->
    exists sd',
      w_heap (snd (update_loop dl false self items w)) !! inst_dict self
      = Some sd'
      /\ Dict.get sd' a = Dict.get sd a.
Proof.
  induction items as [|[k v] rest IH]; intros self w sd Hsd Ha Hd.
  - exists sd. split; [exact Hsd | reflexivity].
  - unfold Dict.mem in Ha, Hd. simpl in Ha, Hd.
    destruct (String.eqb_spec k a) as [|Hka]; [discriminate|].
    destruct (String.eqb_spec k "__dict__") as [|Hkd]; [discriminate|].
    cbn [update_loop].
    rewrite (bind_ok _ _ _ _ _ (hasattr_ok _ _ _ k Hsd)).
    set (known := Dict.mem sd k || class_provides (inst_class self) k).
    set (w1 := if known then w
               else with_log (w_log w ++ [Warning (unknown_parameter_message self k)]) w).
    assert (Hw1 : (if known then ret tt
                   else logger_warning (unknown_parameter_message self k)) w
                  = (Ok tt, w1)).
    { subst w1. destruct known; reflexivity. }
    rewrite (bind_ok _ _ _ _ _ Hw1).
    assert (Hsd1 : w_heap w1 !! inst_dict self = Some sd).
    { subst w1. destruct known; exact Hsd. }
    clearbody w1. clear Hw1.
    destruct (descriptor_name k) eqn:Hdesc.
    + (* [__class__] or [__weakref__]: the assignment raises *)
      assert (Hraise : exists e, setattr self k v w1 = (Raise e, w1)).
      { unfold descriptor_name in Hdesc. unfold setattr.
        destruct (String.eqb_spec k "__dict__"); [contradiction|].
        destruct (String.eqb k "__class__"); [eexists; reflexivity|].
        destruct (String.eqb k "__weakref__"); [eexists; reflexivity|].
        discriminate. }
      destruct Hraise as [e He]. rewrite (bind_raise _ _ _ _ _ He). simpl.
      exists sd. split; [exact Hsd1 | reflexivity].
    + rewrite (bind_ok _ _ _ _ _ (setattr_plain_ok _ _ _ _ v Hdesc Hsd1)).
      rewrite bind_ret.
      rewrite (proj1 (descriptor_name_false k Hdesc)). cbn [orb].
      destruct (IH self
                  (with_heap (<[inst_dict self := Dict.set sd k v]> (w_heap w1)) w1)
                  (Dict.set sd k v)) as (sd' & Hsd' & Hget).
      * eapply lookup_store, Hsd1.
      * unfold Dict.mem. exact Ha.
      * unfold Dict.mem. exact Hd.
      * exists sd'. split; [exact Hsd'|].
        rewrite Hget. apply get_set_ne. exact Hka.
Qed.



Lemma Config_update_plain_getattr {bytes} (w : world bytes) self (d : loc)
    dv sd kwargs k (v : value) :
  w_heap w !! d = Some dv ->
  w_heap w !! inst_dict self = Some sd ->
  d <> inst_dict self ->
  NoDup (Dict.keys dv) ->
  plain_keys (Dict.update dv kwargs) = true ->
  Dict.get (Dict.update dv kwargs) k = Some v ->
  fst (getattr self k (snd (Config_update self d kwargs w))) = Ok v.
Proof.
  intros Hd Hsd Hne Hnd Hplain Hk.
  rewrite (Config_update_plain w self d dv sd kwargs Hd Hsd Hne Hplain).
  cbn [snd].
  erewrite getattr_instance; [reflexivity | |].
  - simpl. apply list_lookup_insert_eq. rewrite length_insert.
    eapply lookup_lt_Some, Hsd.
  - rewrite get_update, last_write_NoDup by (apply NoDup_keys_update, Hnd).
    rewrite Hk. reflexivity.
Qed.

(** C1 (amended). [Config.update] has no strict mode.  For every Config
    instance and every mapping (a dict object other than the instance's own
    attribute dictionary, none of whose keys is [__dict__], [__class__] or
    [__weakref__]) that holds a key unknown to the instance, the call
    succeeds whether or not a [strict] keyword is passed, returns the
    instance, sets the field to the supplied value and logs a warning that
    names the key; a [strict] keyword is itself assigned as a field. *)
Theorem update_unknown_field_is_set_with_warning {bytes} (w : world bytes)
    self (d : loc) dv sd kwargs k (v : value) :
  w_heap w !! d = Some dv ->
  w_heap w !! inst_dict self = Some sd ->
  d <> inst_dict self ->
  NoDup (Dict.keys dv) ->
  plain_keys (Dict.update dv kwargs) = true ->
  Dict.get (Dict.update dv kwargs) k = Some v ->
  Dict.mem sd k = false ->
  class_provides (inst_class self) k = false ->
  exists w',
    Config_update self d kwargs w = (Ok self, w')
    /\ fst (getattr self k w') = Ok v
    /\ Warning (unknown_parameter_message self k) ∈ w_log w'
    /\ (forall strict, Dict.last_write kwargs "strict" = Some strict ->
          fst (getattr self "strict" w') = Ok strict).
Proof.
  intros Hd Hsd Hne Hnd Hplain Hk Hm Hc.
  pose proof (Config_update_plain w self d dv sd kwargs Hd Hsd Hne Hplain) as Hrun.
  eexists. split; [exact Hrun|].
  split.
  { pose proof (Config_update_plain_getattr w self d dv sd kwargs k v
                  Hd Hsd Hne Hnd Hplain Hk) as H.
    rewrite Hrun in H. exact H. }
  split.
  { simpl. apply list_elem_of_In, in_or_app. right. apply list_elem_of_In.
    apply update_warnings_unknown; [exact Hm | exact Hc |].
    apply mem_keys. unfold Dict.mem. rewrite Hk. reflexivity. }
  intros strict Hstrict.
  pose proof (Config_update_plain_getattr w self d dv sd kwargs "strict" strict
                Hd Hsd Hne Hnd Hplain) as H.
  rewrite Hrun in H. apply H. rewrite get_update, Hstrict. reflexivity.
Qed.

Lemma update_unknown_field_is_set_with_warning_witness :
  exists w' : world pydict,
    Config_update {| inst_class := ModelConfig; inst_dict := 0 |} 1
      [("strict", VBool false)]
      (sample_world [[("name", VStr "m"); ("config_type", VStr "model")];
                     [("bogus_field", VInt 1)]] [] [])
    = (Ok {| inst_class := ModelConfig; inst_dict := 0 |}, w')
    /\ fst (getattr {| inst_class := ModelConfig; inst_dict := 0 |}
              "bogus_field" w') = Ok (VInt 1)
    /\ Warning (unknown_parameter_message
                  {| inst_class := ModelConfig; inst_dict := 0 |} "bogus_field")
         ∈ w_log w'
    /\ (forall strict,
          Dict.last_write [("strict", VBool false)] "strict" = Some strict ->
          fst (getattr {| inst_class := ModelConfig; inst_dict := 0 |}
                 "strict" w') = Ok strict).
Proof.
  apply (update_unknown_field_is_set_with_warning
           (sample_world [[("name", VStr "m"); ("config_type", VStr "model")];
                          [("bogus_field", VInt 1)]] [] [])
           {| inst_class := ModelConfig; inst_dict := 0 |} 1
           [("bogus_field", VInt 1)]
           [("name", VStr "m"); ("config_type", VStr "model")]
           [("strict", VBool false)] "bogus_field" (VInt 1)).
  - reflexivity.
  - reflexivity.
  - simpl. lia.
  - apply (bool_decide_unpack _). vm_compute. exact I.
  - reflexivity.
  - reflexivity.
  - reflexivity.
  - reflexivity.
Defined.

(** C1, as stated, fails: with [strict=True] and a key that is no field,
    neither [update] nor [from_dict] raises.  [update] sets both
    [bogus_field] and [strict] on the instance; [from_dict] builds the
    instance and drops the key. *)
Lemma update_strict_true_does_not_reject :
  Dict.mem [("name", VStr "m"); ("config_type", VStr "model")] "bogus_field" = false
  /\ hasattr_class ModelConfig "bogus_field" = false
  /\ (exists w' : world pydict,
        Config_update {| inst_class := ModelConfig; inst_dict := 0 |} 1
          [("strict", VBool true)]
          (sample_world [[("name", VStr "m"); ("config_type", VStr "model")];
                         [("bogus_field", VInt 1)]] [] [])
        = (Ok {| inst_class := ModelConfig; inst_dict := 0 |}, w')
        /\ w_heap w' !! 0
           = Some [("name", VStr "m"); ("config_type", VStr "model");
                   ("bogus_field", VInt 1); ("strict", VBool true)])
  /\ (exists w' : world pydict,
        Config_from_dict ModelConfig 0 [("strict", VBool true)]
          (sample_world [[("name", VStr "m"); ("bogus_field", VInt 1)]] [] [])
        = (Ok {| inst_class := ModelConfig; inst_dict := 1 |}, w')
        /\ w_heap w' !! 1
           = Some [("name", VStr "m"); ("config_type", VStr "model")]
        /\ w_log w' = []).
Proof.
  split; [reflexivity|]. split; [reflexivity|].
  split; eexists; repeat split; vm_compute; reflexivity.
Qed.




Lemma get_update_None {V} (d e : list (string * V)) k :
  Dict.mem (Dict.update d e) k = false -> Dict.get d k = None.
Proof.
  unfold Dict.mem. rewrite get_update.
  destruct (Dict.last_write e k); [discriminate|].
  destruct (Dict.get d k); [discriminate | reflexivity].
Qed.

(** C7 (amended). [config_type] is an ordinary attribute.  [update] leaves
    it as it was, whatever the outcome of the call, when neither the mapping
    nor the keywords hold the key [config_type] or the key [__dict__], and
    [pop] leaves it as it was for every other key; a mapping that holds
    [config_type] overwrites it. *)
Theorem update_keeps_config_type_unless_named {bytes} (w : world bytes)
    self (d : loc) dv sd kwargs k (default : value) :
  w_heap w !! d = Some dv ->
  w_heap w !! inst_dict self = Some sd ->
  Dict.mem (Dict.update dv kwargs) "config_type" = false ->
  Dict.mem (Dict.update dv kwargs) "__dict__" = false ->
  k <> "config_type" ->
  fst (getattr self "config_type" (snd (Config_update self d kwargs w)))
  = fst (getattr self "config_type" w)
  /\ fst (getattr self "config_type" (snd (Config_pop self k default w)))
     = fst (getattr self "config_type" w).
Proof.
  intros Hd Hsd Hct Hdict Hk. split.
  - unfold Config_update.
    rewrite (bind_ok _ _ _ _ _ (dict_update_ok _ _ _ kwargs Hd)).
    erewrite bind_ok; cycle 1.
    { apply deref_ok. simpl. eapply lookup_store, Hd. }
    set (w1 := with_heap (<[d := Dict.update dv kwargs]> (w_heap w)) w).
    assert (Hsd1 : exists sd1, w_heap w1 !! inst_dict self = Some sd1
                     /\ Dict.get sd1 "config_type" = Dict.get sd "config_type").
    { subst w1. simpl. destruct (decide (d = inst_dict self)) as [Heq|Hne].
      - rewrite <- Heq in *.
        exists (Dict.update dv kwargs). split; [eapply lookup_store, Hd|].
        rewrite Hd in Hsd. injection Hsd as <-.
        rewrite (get_update_None _ _ _ Hct).
        unfold Dict.mem in Hct.
        destruct (Dict.get (Dict.update dv kwargs) "config_type");
          [discriminate | reflexivity].
      - exists sd. split; [|reflexivity].
        rewrite list_lookup_insert_ne by exact Hne. exact Hsd. }
    destruct Hsd1 as (sd1 & Hsd1 & Hget1).
    destruct (update_loop_keeps_attr d (Dict.update dv kwargs) "config_type"
                self w1 sd1 Hsd1 Hct Hdict) as (sd' & Hsd' & Hget').
    eapply getattr_same_view; [exact Hsd | exact Hsd' | congruence].
  - unfold Config_pop, dict_pop, Config_dict.
    rewrite (bind_ok _ _ _ _ _ (deref_ok _ _ _ Hsd)).
    destruct (Dict.get sd k) as [x|]; [|reflexivity].
    rewrite bind_store. unfold ret. cbn [snd].
    eapply getattr_same_view; [exact Hsd | eapply lookup_store, Hsd |].
    apply get_remove_ne. exact Hk.
Qed.

Lemma update_keeps_config_type_unless_named_witness :
  fst (getattr {| inst_class := ModelConfig; inst_dict := 0 |} "config_type"
         (snd (Config_update {| inst_class := ModelConfig; inst_dict := 0 |} 1
                 [("num_labels", VInt 3)]
                 (sample_world [[("name", VStr "m"); ("config_type", VStr "model")];
                                [("name", VStr "n")]] [] []))))
  = fst (getattr {| inst_class := ModelConfig; inst_dict := 0 |} "config_type"
           (sample_world [[("name", VStr "m"); ("config_type", VStr "model")];
                          [("name", VStr "n")]] [] []))
  /\ fst (getattr {| inst_class := ModelConfig; inst_dict := 0 |} "config_type"
            (snd (Config_pop {| inst_class := ModelConfig; inst_dict := 0 |}
                    "name" VNone
                    (sample_world [[("name", VStr "m"); ("config_type", VStr "model")];
                                   [("name", VStr "n")]] [] []))))
     = fst (getattr {| inst_class := ModelConfig; inst_dict := 0 |} "config_type"
              (sample_world [[("name", VStr "m"); ("config_type", VStr "model")];
                             [("name", VStr "n")]] [] [])).
Proof.
  apply (update_keeps_config_type_unless_named
           (sample_world [[("name", VStr "m"); ("config_type", VStr "model")];
                          [("name", VStr "n")]] [] [])
           {| inst_class := ModelConfig; inst_dict := 0 |} 1
           [("name", VStr "n")]
           [("name", VStr "m"); ("config_type", VStr "model")]
           [("num_labels", VInt 3)] "name" VNone).
  - reflexivity.
  - reflexivity.
  - reflexivity.
  - reflexivity.
  - discriminate.
Defined.

(** C7, as stated, fails: [update] with a mapping that holds [config_type]
    changes the field from the value set at construction. *)
Lemma update_changes_config_type :
  fst (getattr {| inst_class := ModelConfig; inst_dict := 0 |} "config_type"
         (sample_world [[("name", VStr "m"); ("config_type", VStr "model")];
                        [("config_type", VStr "dataset")]] [] []))
  = Ok (VStr "model")
  /\ exists w' : world pydict,
       Config_update {| inst_class := ModelConfig; inst_dict := 0 |} 1 []
         (sample_world [[("name", VStr "m"); ("config_type", VStr "model")];
                        [("config_type", VStr "dataset")]] [] [])
       = (Ok {| inst_class := ModelConfig; inst_dict := 0 |}, w')
       /\ fst (getattr {| inst_class := ModelConfig; inst_dict := 0 |}
                 "config_type" w') = Ok (VStr "dataset").
Proof.
  split; [reflexivity|].
  eexists. split; [vm_compute; reflexivity | reflexivity].
Qed.

(** ** Mutation of the caller's mapping *)




(** A mapping with the key [__dict__]: the object takes the dict held under
    that key as its attribute dictionary, and the assignment of the item
    after it is seen in the caller's mapping. *)
Example update_writes_through_adopted_dict :
  exists (c : instance) (w' : world pydict),
    Config_update {| inst_class := ModelConfig; inst_dict := 0 |} 1 []
      (sample_world [[("name", VStr "m")];
                     [("name", VStr "n"); ("__dict__", VDict [("z", VInt 1)]);
                      ("config_type", VStr "model")]] [] [])
    = (Ok c, w')
    /\ w_heap w' !! inst_dict c
       = Some [("z", VInt 1); ("config_type", VStr "model")]
    /\ w_heap w' !! 1
       = Some [("name", VStr "n");
               ("__dict__", VDict [("z", VInt 1); ("config_type", VStr "model")]);
               ("config_type", VStr "model")]
    /\ w_heap w' !! 0 = Some [("name", VStr "n")].
Proof. eexists _, _. split; [vm_compute; reflexivity|]. repeat split. Qed.

(** ** Registry lookups *)

(** C3. The two class-resolution paths do not normalise alike:
    [get_module_class] looks up [snake_case(name)], [get_module_config_class]
    looks up [name] as given.  For a spelling that only matches a registered
    key after normalisation, the module class resolves and the config class
    lookup raises [KeyError]. *)
Theorem config_class_lookup_skips_snake_case (snake_case : string -> string)
    (R : registries) (name : string) (e : entry) :
  Dict.get (models_registry R) (snake_case name) = Some e ->
  Dict.get (models_registry R) name = None ->
  get_module_class snake_case R name (VStr ConfigType.MODEL)
  = Ok (module_class e)
  /\ get_module_config_class R (VStr name) (VStr ConfigType.MODEL)
     = Raise (KeyError (VStr name)).
Proof.
  intros Hnorm Hraw. unfold get_module_class, get_module_config_class.
  simpl. rewrite Hnorm, Hraw. split; reflexivity.
Qed.

Lemma config_class_lookup_skips_snake_case_witness :
  get_module_class sample_snake_case sample_registries
    "DistilBERT-Text-Classification" (VStr ConfigType.MODEL)
  = Ok "DistilBertTextClassification"
  /\ get_module_config_class sample_registries
       (VStr "DistilBERT-Text-Classification") (VStr ConfigType.MODEL)
     = Raise (KeyError (VStr "DistilBERT-Text-Classification")).
Proof.
  apply (config_class_lookup_skips_snake_case sample_snake_case
           sample_registries "DistilBERT-Text-Classification"
           {| module_class := "DistilBertTextClassification";
              config_class := DistilBertTextClassificationConfig |}).
  - reflexivity.
  - reflexivity.
Defined.

(** X16. The kinds differ as well: a registered metric resolves as a module
    class, and [metric] is an invalid [config_type] for the config class
    lookup, which raises [ValueError] whatever the name. *)
Lemma metric_kind_has_no_config_class (snake_case : string -> string)
    (R : registries) (name : string) (e : entry) :
  Dict.get (metrics_registry R) (snake_case name) = Some e ->
  get_module_class snake_case R name (VStr ConfigType.METRIC)
  = Ok (module_class e)
  /\ get_module_config_class R (VStr name) (VStr ConfigType.METRIC)
     = Raise (ValueError "Invalid `config_type`" (VStr ConfigType.METRIC)).
Proof.
  intros H. unfold get_module_class, get_module_config_class.
  simpl. rewrite H. split; reflexivity.
Qed.

(** ** [Config.load] *)

(** C5. When the resolved path is an existing local directory and the
    expected config file is not in it, [load] raises the
    config-file-missing error and changes nothing: no request is made to
    the hub, whatever the hub holds under that name. *)
Theorem load_local_directory_without_config_is_fatal {bytes}
    (resolve_pretrained_path : filesys bytes -> string -> string)
    (yaml_load : bytes -> option pydict) (HEZAR_TMP_DIR : string)
    (hub_cache_path : string -> string -> string -> string -> string)
    (w : world bytes) (cls : pyclass) (path filename subfolder : string)
    (kwargs : pydict) :
  isdir (w_fs w) (resolve_pretrained_path (w_fs w) path) = true ->
  isfile (w_fs w)
    (path_join (resolve_pretrained_path (w_fs w) path) [subfolder; filename])
  = false ->
  Config_load resolve_pretrained_path yaml_load HEZAR_TMP_DIR hub_cache_path
    cls path filename subfolder kwargs w
  = (Raise (EnvironmentError
              ("Path `" +:+ resolve_pretrained_path (w_fs w) path
                 +:+ "` exists locally but the config file " +:+ filename
                 +:+ " is missing!")), w)
  /\ w_hub_calls
       (snd (Config_load resolve_pretrained_path yaml_load HEZAR_TMP_DIR
               hub_cache_path cls path filename subfolder kwargs w))
     = w_hub_calls w.
Proof.
  intros Hdir Hfile.
  assert (Hrun :
    Config_load resolve_pretrained_path yaml_load HEZAR_TMP_DIR hub_cache_path
      cls path filename subfolder kwargs w
    = (Raise (EnvironmentError
                ("Path `" +:+ resolve_pretrained_path (w_fs w) path
                   +:+ "` exists locally but the config file " +:+ filename
                   +:+ " is missing!")), w)).
  { unfold Config_load, bind, os_path_isfile, os_path_isdir.
    rewrite Hfile, Hdir. reflexivity. }
  split; [exact Hrun | rewrite Hrun; reflexivity].
Qed.

Lemma load_local_directory_without_config_is_fatal_witness :
  hub_lookup (w_hub (sample_world [] ["hezarai/distilbert"] []))
    "hezarai/distilbert" "" "config.yaml"
  = Some [("name", VStr "distilbert_text_classification");
          ("config_type", VStr "model")]
  /\ Config_load (fun _ p => p) Some "/tmp/hezar" (fun c r s f => path_join c [r; s; f])
       Config "hezarai/distilbert" "config.yaml" "" []
       (sample_world [] ["hezarai/distilbert"] [])
     = (Raise (EnvironmentError
                 ("Path `" +:+ "hezarai/distilbert"
                    +:+ "` exists locally but the config file " +:+ "config.yaml"
                    +:+ " is missing!")),
        sample_world [] ["hezarai/distilbert"] [])
  /\ w_hub_calls
       (snd (Config_load (fun _ p => p) Some "/tmp/hezar"
               (fun c r s f => path_join c [r; s; f])
               Config "hezarai/distilbert" "config.yaml" "" []
               (sample_world [] ["hezarai/distilbert"] [])))
     = w_hub_calls (sample_world [] ["hezarai/distilbert"] []).
Proof.
  split; [reflexivity|].
  apply (load_local_directory_without_config_is_fatal
           (fun _ p => p) Some "/tmp/hezar"
           (fun c r s f => path_join c [r; s; f])
           (sample_world [] ["hezarai/distilbert"] [])
           Config "hezarai/distilbert" "config.yaml" "" []).
  - reflexivity.
  - reflexivity.
Defined.

Lemma get_filter_key {V} (p : string -> bool) (d : list (string * V)) k :
  Dict.get (List.filter (fun kv => p (fst kv)) d) k
  = if p k then Dict.get d k else None.
Proof.
  induction d as [|[k0 v0] d IH]; simpl.
  - destruct (p k); reflexivity.
  - destruct (p k0) eqn:Hp0; simpl.
    + destruct (String.eqb_spec k0 k) as [->|Hne].
      * rewrite Hp0. reflexivity.
      * exact IH.
    + destruct (String.eqb_spec k0 k) as [->|Hne].
      * rewrite IH, Hp0. reflexivity.
      * exact IH.
Qed.

Lemma filter_all {A} (p : A -> bool) (l : list A) :
  forallb p l = true -> List.filter p l = l.
Proof.
  induction l as [|x l IH]; simpl; [reflexivity|].
  intros H. apply andb_true_iff in H as [Hx Hl].
  rewrite Hx, IH by exact Hl. reflexivity.
Qed.

(** The attribute dictionary the generated [__init__] builds. *)
Lemma init_fields_spec (fields : list (string * option value)) (kw : pydict) :
  forallb has_default fields = true ->
  NoDup (Dict.keys fields) ->
  forall acc, exists out,
    init_fields fields kw acc = Ok out
    /\ forall k,
         Dict.get out k
         = match Dict.get fields k with
           | Some default =>
               match Dict.get kw k with Some v => Some v | None => default end
           | None => Dict.get acc k
           end.
Proof.
  induction fields as [|[f default] rest IH]; intros Hdef Hnd acc.
  - exists acc. split; reflexivity.
  - simpl in Hdef. apply andb_true_iff in Hdef as [Hf Hrest].
    unfold has_default in Hf. simpl in Hf.
    destruct default as [dv|]; [|discriminate].
    inversion Hnd as [|? ? Hnotin Hnd']; subst.
    cbn [init_fields].
    set (v := match Dict.get kw f with Some v => v | None => dv end).
    assert (Hv : match Dict.get kw f with Some v0 => Some v0 | None => Some dv end
                 = Some v).
    { subst v. destruct (Dict.get kw f); reflexivity. }
    rewrite Hv.
    destruct (IH Hrest Hnd' (Dict.set acc f v)) as (out & Hout & Hget).
    exists out. split; [exact Hout|].
    intros k. rewrite Hget. simpl.
    destruct (String.eqb_spec f k) as [<-|Hne].
    + apply mem_false_keys in Hnotin. unfold Dict.mem in Hnotin.
      destruct (Dict.get rest f); [discriminate|].
      rewrite get_set_eq. subst v. destruct (Dict.get kw f); reflexivity.
    + destruct (Dict.get rest k); [reflexivity|].
      apply get_set_ne. exact Hne.
Qed.

Lemma is_field_default cls f :
  forallb has_default (cls_fields cls) = true ->
  is_field cls f = true ->
  exists v, Dict.get (cls_fields cls) f = Some (Some v)
            /\ hasattr_class cls f = true.
Proof.
  unfold is_field, Dict.mem, hasattr_class, class_provides, class_default.
  intros Hdef Hf.
  induction (cls_fields cls) as [|[f0 d0] rest IH]; simpl in *; [discriminate|].
  apply andb_true_iff in Hdef as [Hd0 Hrest].
  destruct (String.eqb f0 f).
  - unfold has_default in Hd0. simpl in Hd0.
    destruct d0 as [v|]; [|discriminate]. exists v. split; reflexivity.
  - apply IH; assumption.
Qed.

(** [from_dict] on a constructible class: the mapping is extended by the
    keywords and every field takes its value from the mapping, or its
    default when the mapping has none. *)
Lemma Config_from_dict_ok {bytes} (w : world bytes) cls (l : loc) dv kwargs :
  w_heap w !! l = Some dv ->
  NoDup (Dict.keys (cls_fields cls)) ->
  constructible cls (Dict.update dv (Dict.remove kwargs "strict")) = true ->
  exists out,
    Config_from_dict cls l kwargs w
    = (Ok {| inst_class := cls; inst_dict := length (w_heap w) |},
       with_heap
         (<[l := Dict.update dv (Dict.remove kwargs "strict")]> (w_heap w)
            ++ [out]) w)
    /\ forall f, is_field cls f = true ->
         Dict.get out f
         = match Dict.get (Dict.update dv (Dict.remove kwargs "strict")) f with
           | Some v => Some v
           | None => class_default cls f
           end.
Proof.
  intros Hl Hnd Hc. unfold constructible in Hc.
  apply andb_true_iff in Hc as [Hdef Hkeys].
  set (items := Dict.update dv (Dict.remove kwargs "strict")) in *.
  set (kw := List.filter (fun kv => hasattr_class cls (fst kv)) items).
  destruct (init_fields_spec (cls_fields cls) kw Hdef Hnd []) as (out & Hout & Hget).
  exists out. split.
  - unfold Config_from_dict.
    rewrite (bind_ok _ _ _ _ _ (dict_update_ok _ _ _ _ Hl)).
    erewrite bind_ok; cycle 1.
    { apply deref_ok. simpl. eapply lookup_store, Hl. }
    fold items. fold kw. unfold dataclass_new.
    assert (Hall : forallb (is_field cls) (Dict.keys kw) = true).
    { apply forallb_forall. intros k Hin. unfold Dict.keys in Hin.
      apply in_map_iff in Hin as ([k' v'] & <- & Hin). simpl.
      subst kw. apply filter_In in Hin as [Hin Hhas]. simpl in Hhas.
      rewrite forallb_forall in Hkeys. specialize (Hkeys _ Hin).
      simpl in Hkeys. rewrite Hhas in Hkeys. exact Hkeys. }
    rewrite Hall. unfold lift, bind at 1. rewrite Hout.
    rewrite bind_alloc. unfold ret. simpl. rewrite length_insert. reflexivity.
  - intros f Hf.
    destruct (is_field_default cls f Hdef Hf) as (v & Hfv & Hhas).
    rewrite Hget, Hfv. subst kw. rewrite get_filter_key, Hhas.
    unfold class_default. rewrite Hfv. reflexivity.
Qed.

Lemma hf_hub_download_ok {bytes}
    (hub_cache_path : string -> string -> string -> string -> string)
    (w : world bytes) (repo filename subfolder cache_dir : string) b :
  hub_lookup (w_hub w) repo subfolder filename = Some b ->
  isdir (w_fs w) (hub_cache_path cache_dir repo subfolder filename) = false ->
  hf_hub_download hub_cache_path repo filename subfolder cache_dir w
  = (Ok (hub_cache_path cache_dir repo subfolder filename),
     with_fs
       {| fs_dirs := fs_dirs (w_fs w);
          fs_files :=
            Dict.set (fs_files (w_fs w))
              (hub_cache_path cache_dir repo subfolder filename) b |}
       (with_hub_calls (w_hub_calls w ++ [(repo, subfolder, filename)]) w)).
Proof.
  intros Hhub Hcache. unfold hf_hub_download, bind, write_file, ret. simpl.
  rewrite Hhub. simpl. rewrite Hcache. reflexivity.
Qed.

Lemma OmegaConf_load_ok {bytes} (yaml_load : bytes -> option pydict)
    (w : world bytes) (path : string) b m :
  Dict.get (fs_files (w_fs w)) path = Some b ->
  yaml_load b = Some m ->
  OmegaConf_load yaml_load path w = (Ok m, w).
Proof.
  intros Hfile Hyaml. unfold OmegaConf_load, bind, read_file, ret.
  rewrite Hfile, Hyaml. reflexivity.
Qed.

Lemma dict_getitem_ok {bytes} (w : world bytes) (d : pydict) k (v : value) :
  Dict.get d k = Some v -> dict_getitem d k w = (Ok v, w).
Proof. intros H. unfold dict_getitem. rewrite H. reflexivity. Qed.

(** Once the bytes are there, [load] parses them, peeks at [name] and
    [config_type], resolves the class and hands the parsed mapping to the
    [from_dict] of that class. *)
Lemma Config_load_resolved {bytes}
    (resolve_pretrained_path : filesys bytes -> string -> string)
    (yaml_load : bytes -> option pydict) (HEZAR_TMP_DIR : string)
    (hub_cache_path : string -> string -> string -> string -> string)
    (w : world bytes) (cls0 : pyclass) (path filename subfolder : string)
    (kwargs : pydict) cpath b w1 m (name ct : value) cls :
  config_source HEZAR_TMP_DIR hub_cache_path w
    (resolve_pretrained_path (w_fs w) path) filename subfolder cpath b w1 ->
  yaml_load b = Some m ->
  Dict.get m "name" = Some name ->
  Dict.get m "config_type" = Some ct ->
  get_module_config_class (w_registry w) name ct = Ok cls ->
  keyword_collision kwargs = None ->
  Config_load resolve_pretrained_path yaml_load HEZAR_TMP_DIR hub_cache_path
    cls0 path filename subfolder kwargs w
  = Config_from_dict cls (length (w_heap w1)) (("strict", VBool false) :: kwargs)
      (with_heap (w_heap w1 ++ [m]) w1).
Proof.
  intros Hsrc Hyaml Hname Hct Hcls Hstrict.
  unfold Config_load.
  erewrite bind_ok by reflexivity.
  erewrite bind_ok by reflexivity.
  erewrite bind_ok by reflexivity.
  assert (Htail : forall w2 : world bytes,
    w_registry w2 = w_registry w ->
    bind (dict_getitem m "name")
      (fun name0 =>
         bind (dict_getitem m "config_type")
           (fun config_type =>
              bind (fun w0 : world bytes =>
                      (get_module_config_class (w_registry w0) name0 config_type, w0))
                (fun config_cls =>
                   bind (alloc m)
                     (fun l =>
                        match keyword_collision kwargs with
                        | Some msg => raise (TypeError msg)
                        | None => Config_from_dict config_cls l
                                    (("strict", VBool false) :: kwargs)
                        end)))) w2
    = Config_from_dict cls (length (w_heap w2))
        (("strict", VBool false) :: kwargs)
        (with_heap (w_heap w2 ++ [m]) w2)).
  { intros w2 Hreg.
    rewrite (bind_ok _ _ _ _ _ (dict_getitem_ok _ _ _ _ Hname)).
    rewrite (bind_ok _ _ _ _ _ (dict_getitem_ok _ _ _ _ Hct)).
    erewrite bind_ok; cycle 1.
    { rewrite Hreg, Hcls. reflexivity. }
    rewrite bind_alloc, Hstrict. reflexivity. }
  revert Hyaml.
  destruct Hsrc as [b Hfile | b Hnofile Hnodir Hhub Hcache]; intros Hyaml.
  - assert (His : isfile (w_fs w)
                    (path_join (resolve_pretrained_path (w_fs w) path)
                       [subfolder; filename]) = true).
    { unfold isfile, Dict.mem. rewrite Hfile. reflexivity. }
    rewrite His, andb_false_r. cbn [negb].
    rewrite bind_ret.
    rewrite (bind_ok _ _ _ _ _ (OmegaConf_load_ok _ _ _ _ _ Hfile Hyaml)).
    apply Htail. reflexivity.
  - rewrite Hnofile, Hnodir. cbn [negb andb].
    rewrite (bind_ok _ _ _ _ _
               (hf_hub_download_ok _ _ _ _ _ HEZAR_TMP_DIR _ Hhub Hcache)).
    erewrite bind_ok; cycle 1.
    { apply OmegaConf_load_ok with (b := b); [|exact Hyaml].
      simpl. apply get_set_eq. }
    apply Htail. reflexivity.
Qed.

(** [get_module_config_class] returns the config class of the entry that
    the registry of the kind holds under the name. *)
Lemma get_module_config_class_registered (R : registries) (n ct : string)
    (reg : list (string * entry)) (e : entry) :
  Dict.get (config_registries R) ct = Some reg ->
  Dict.get reg n = Some e ->
  get_module_config_class R (VStr n) (VStr ct) = Ok (config_class e).
Proof.
  unfold config_registries, get_module_config_class, eq_str, registry_getitem.
  cbn [Dict.get]. intros Hreg He.
  rewrite (String.eqb_sym ct ConfigType.MODEL).
  destruct (String.eqb ConfigType.MODEL ct).
  { injection Hreg as <-. rewrite He. reflexivity. }
  rewrite (String.eqb_sym ct ConfigType.PREPROCESSOR).
  destruct (String.eqb ConfigType.PREPROCESSOR ct).
  { injection Hreg as <-. rewrite He. reflexivity. }
  rewrite (String.eqb_sym ct ConfigType.DATASET).
  destruct (String.eqb ConfigType.DATASET ct).
  { injection Hreg as <-. rewrite He. reflexivity. }
  rewrite (String.eqb_sym ct ConfigType.EMBEDDING).
  destruct (String.eqb ConfigType.EMBEDDING ct).
  { injection Hreg as <-. rewrite He. reflexivity. }
  discriminate.
Qed.




(** ** Saving and loading *)

(** What a successful [save] leaves behind. *)
Lemma Config_save_inv {bytes} (yaml_dump : pydict -> result bytes)
    (w : world bytes) (c : instance) d (save_dir filename subfolder : string)
    p w1 :
  w_heap w !! inst_dict c = Some d ->
  Config_save yaml_dump c save_dir filename subfolder w = (Ok p, w1) ->
  exists b,
    yaml_dump (List.filter (fun kv => negb (is_none (snd kv))) d) = Ok b
    /\ p = path_join save_dir [subfolder; filename]
    /\ Dict.get (fs_files (w_fs w1)) (path_join save_dir [subfolder; filename])
       = Some b
    /\ w_heap w1 = w_heap w
    /\ w_registry w1 = w_registry w.
Proof.
  intros Hd. unfold Config_save, Config_dict.
  rewrite (bind_ok _ _ _ _ _ (deref_ok _ _ _ Hd)).
  unfold bind, os_makedirs, OmegaConf_save, open_write, logger_info, ret, raise.
  destruct (yaml_dump (List.filter (fun kv => negb (is_none (snd kv))) d))
    as [b|err] eqn:Hdump;
    repeat match goal with
           | |- context [if ?c then _ else _] => destruct c eqn:?
           end;
    intros H; try discriminate; injection H as <- <-;
    exists b; simpl; rewrite get_set_eq; auto.
Qed.

Lemma same_value_str (x : value) (n : string) :
  same_value x (VStr n) = true -> x = VStr n.
Proof.
  destruct x; try discriminate. simpl. intros H.
  apply String.eqb_eq in H. congruence.
Qed.

Lemma same_attribute_Some (a : option value) (v : value) :
  same_attribute a (Some v) = true ->
  exists v', a = Some v' /\ same_value v' v = true.
Proof. destruct a as [v'|]; [|discriminate]. intros H. exists v'. auto. Qed.

Lemma same_attribute_refl (d : pydict) :
  Forall (fun kv => same_value (snd kv) (snd kv) = true) d ->
  forall k, same_attribute (Dict.get d k) (Dict.get d k) = true.
Proof.
  induction 1 as [|[k0 v0] d Hv _ IH]; intros k; simpl; [reflexivity|].
  destruct (String.eqb k0 k); [exact Hv | apply IH].
Qed.

(** A class that can be built from a mapping can be built from a mapping
    with no other keys. *)
Lemma constructible_keys cls (d d' : pydict) :
  (forall k, Dict.mem d' k = true -> Dict.mem d k = true) ->
  constructible cls d = true -> constructible cls d' = true.
Proof.
  unfold constructible. intros Hsub H.
  apply andb_true_iff in H as [Hdef Hkeys]. rewrite Hdef. simpl.
  rewrite forallb_forall in *. intros [k v'] Hin.
  assert (Hm : Dict.mem d k = true).
  { apply Hsub, mem_keys. unfold Dict.keys. apply list_elem_of_fmap.
    exists (k, v'). split; [reflexivity | apply list_elem_of_In, Hin]. }
  unfold Dict.mem in Hm. destruct (Dict.get d k) as [v|] eqn:Hg; [|discriminate].
  apply (Hkeys (k, v)), get_Some_In, Hg.
Qed.

(** C2 (amended). Let c be a Config instance whose attributes are all
    non-None, whose [name] and [config_type] name an entry of the registry
    of one of the four kinds with config classes, with c's own class as its
    config class, and whose class can be built by keywords from c's
    attributes.  Let [save] succeed, let [resolve_pretrained_path] leave the
    save directory as it is afterwards, and let the YAML reader, on what
    the writer wrote for c, return a mapping with the keys of c's
    attributes and, under each key, a value equal to the attribute.  Then
    [load] from the same place returns an instance of c's class, and every
    field of it is equal to that field of c (or is the same class
    default). *)
Theorem save_then_load_round_trip {bytes}
    (resolve_pretrained_path : filesys bytes -> string -> string)
    (yaml_dump : pydict -> result bytes) (yaml_load : bytes -> option pydict)
    (HEZAR_TMP_DIR : string)
    (hub_cache_path : string -> string -> string -> string -> string)
    (w : world bytes) (c : instance) (cls0 : pyclass) (d d' : pydict)
    (save_dir filename subfolder : string) (n ct : string)
    (reg : list (string * entry)) (e : entry) :
  w_heap w !! inst_dict c = Some d ->
  forallb (fun kv => negb (is_none (snd kv))) d = true ->
  Dict.get d "name" = Some (VStr n) ->
  Dict.get d "config_type" = Some (VStr ct) ->
  Dict.get (config_registries (w_registry w)) ct = Some reg ->
  Dict.get reg n = Some e ->
  config_class e = inst_class c ->
  NoDup (Dict.keys (cls_fields (inst_class c))) ->
  constructible (inst_class c) d = true ->
  is_ok (fst (Config_save yaml_dump c save_dir filename subfolder w)) = true ->
  resolve_pretrained_path
    (w_fs (snd (Config_save yaml_dump c save_dir filename subfolder w)))
    save_dir = save_dir ->
  (forall b, yaml_dump d = Ok b -> yaml_load b = Some d') ->
  (forall k, same_attribute (Dict.get d' k) (Dict.get d k) = true) ->
  exists c' w2,
    Config_load resolve_pretrained_path yaml_load HEZAR_TMP_DIR hub_cache_path
      cls0 save_dir filename subfolder []
      (snd (Config_save yaml_dump c save_dir filename subfolder w))
    = (Ok c', w2)
    /\ inst_class c' = inst_class c
    /\ forall f, is_field (inst_class c) f = true ->
         fst (getattr c' f w2) = fst (getattr c f w)
         \/ exists v' v,
              fst (getattr c' f w2) = Ok v'
              /\ fst (getattr c f w) = Ok v
              /\ same_value v' v = true.
Proof.
  intros Hd Hnone Hname Hct Hreg He Hcls Hnd Hc Hsave Hres Hyaml Hsame.
  destruct (Config_save yaml_dump c save_dir filename subfolder w)
    as [[p|err] w1] eqn:Hrun; [|discriminate]. clear Hsave. cbn [snd] in *.
  destruct (Config_save_inv _ _ _ _ _ _ _ _ _ Hd Hrun)
    as (b & Hdump & -> & Hfile & Hheap & Hregw).
  rewrite (filter_all _ _ Hnone) in Hdump.
  pose proof (Hyaml _ Hdump) as Hload.
  assert (Hsrc : config_source HEZAR_TMP_DIR hub_cache_path w1
                   (resolve_pretrained_path (w_fs w1) save_dir) filename
                   subfolder
                   (path_join (resolve_pretrained_path (w_fs w1) save_dir)
                      [subfolder; filename]) b w1).
  { apply source_local. rewrite Hres. exact Hfile. }
  assert (Hname' : Dict.get d' "name" = Some (VStr n)).
  { pose proof (Hsame "name") as H. rewrite Hname in H.
    apply same_attribute_Some in H as (x & Hx & Hv).
    rewrite Hx, (same_value_str _ _ Hv). reflexivity. }
  assert (Hct' : Dict.get d' "config_type" = Some (VStr ct)).
  { pose proof (Hsame "config_type") as H. rewrite Hct in H.
    apply same_attribute_Some in H as (x & Hx & Hv).
    rewrite Hx, (same_value_str _ _ Hv). reflexivity. }
  assert (Hc' : constructible (inst_class c) d' = true).
  { apply (constructible_keys _ d); [|exact Hc].
    intros k. unfold Dict.mem. pose proof (Hsame k) as H.
    destruct (Dict.get d' k); [|discriminate].
    destruct (Dict.get d k); [reflexivity | discriminate]. }
  rewrite <- Hregw in Hreg.
  pose proof (get_module_config_class_registered _ _ _ _ _ Hreg He) as Hlookup.
  rewrite Hcls in Hlookup.
  rewrite (Config_load_resolved _ _ _ _ w1 cls0 save_dir filename subfolder []
             _ _ _ _ _ _ _ Hsrc Hload Hname' Hct' Hlookup eq_refl).
  destruct (Config_from_dict_ok (with_heap (w_heap w1 ++ [d']) w1) (inst_class c)
              (length (w_heap w1)) d' [("strict", VBool false)])
    as (out & Hfrom & Hfields).
  - simpl. apply list_lookup_middle. reflexivity.
  - exact Hnd.
  - exact Hc'.
  - simpl in Hfrom, Hfields. rewrite Hfrom.
    eexists _, _. split; [reflexivity|]. split; [reflexivity|].
    intros f Hf.
    assert (Hout : Dict.get out f
                   = match Dict.get d' f with
                     | Some v => Some v
                     | None => class_default (inst_class c) f
                     end) by (apply Hfields, Hf).
    unfold constructible in Hc. apply andb_true_iff in Hc as [Hdef _].
    destruct (is_field_default _ _ Hdef Hf) as (dv & Hdv & _).
    unfold getattr at 2 4.
    rewrite (bind_ok _ _ _ _ _ (deref_ok _ _ _ Hd)).
    unfold getattr.
    erewrite bind_ok; cycle 1.
    { apply deref_ok. simpl. apply list_lookup_middle.
      rewrite length_insert. reflexivity. }
    rewrite Hout. unfold class_default. rewrite Hdv.
    pose proof (Hsame f) as Hsf.
    destruct (Dict.get d' f) as [v'|], (Dict.get d f) as [v|];
      try discriminate; [right | left; reflexivity].
    exists v', v. auto.
Qed.

Lemma save_then_load_round_trip_witness :
  exists c' (w2 : world pydict),
    Config_load (fun _ p => p) Some "/tmp/hezar"
      (fun c r s f => path_join c [r; s; f])
      Config "out" "config.yaml" "" []
      (snd (Config_save Ok
              {| inst_class := DistilBertTextClassificationConfig; inst_dict := 0 |}
              "out" "config.yaml" "" (sample_world [sample_model_dict] [] [])))
    = (Ok c', w2)
    /\ inst_class c'
       = inst_class {| inst_class := DistilBertTextClassificationConfig; inst_dict := 0 |}
    /\ forall f,
         is_field (inst_class {| inst_class := DistilBertTextClassificationConfig;
                                 inst_dict := 0 |}) f = true ->
         fst (getattr c' f w2)
         = fst (getattr {| inst_class := DistilBertTextClassificationConfig;
                           inst_dict := 0 |} f
                  (sample_world [sample_model_dict] [] []))
         \/ exists v' v,
              fst (getattr c' f w2) = Ok v'
              /\ fst (getattr {| inst_class := DistilBertTextClassificationConfig;
                                 inst_dict := 0 |} f
                        (sample_world [sample_model_dict] [] [])) = Ok v
              /\ same_value v' v = true.
Proof.
  apply (save_then_load_round_trip (fun _ p => p) Ok Some "/tmp/hezar"
           (fun c r s f => path_join c [r; s; f])
           (sample_world [sample_model_dict] [] [])
           {| inst_class := DistilBertTextClassificationConfig; inst_dict := 0 |}
           Config sample_model_dict sample_model_dict "out" "config.yaml" ""
           "distilbert_text_classification" "model"
           (models_registry sample_registries)
           {| module_class := "DistilBertTextClassification";
              config_class := DistilBertTextClassificationConfig |}).
  - reflexivity.
  - reflexivity.
  - reflexivity.
  - reflexivity.
  - reflexivity.
  - reflexivity.
  - reflexivity.
  - apply (bool_decide_unpack _). vm_compute. exact I.
  - reflexivity.
  - reflexivity.
  - reflexivity.
  - intros b H. injection H as <-. reflexivity.
  - apply same_attribute_refl. repeat constructor.
Defined.

(** C2, as stated, fails: an optimizer config all of whose fields are
    non-None numbers and strings is saved, and loading the file raises,
    since [optimizer] is not a [config_type] that [get_module_config_class]
    resolves. *)
Lemma optimizer_config_does_not_round_trip :
  forallb (fun kv => negb (is_none (snd kv))) sample_optimizer_dict = true
  /\ fst (Config_save Ok {| inst_class := OptimizerConfig; inst_dict := 0 |}
            "out" "config.yaml" "" (sample_world [sample_optimizer_dict] [] []))
     = Ok "out/config.yaml"
  /\ fst (Config_load (fun _ p => p) Some "/tmp/hezar"
            (fun c r s f => path_join c [r; s; f])
            OptimizerConfig "out" "config.yaml" "" []
            (snd (Config_save Ok
                    {| inst_class := OptimizerConfig; inst_dict := 0 |}
                    "out" "config.yaml" ""
                    (sample_world [sample_optimizer_dict] [] []))))
     = Raise (ValueError "Invalid `config_type`" (VStr "optimizer")).
Proof. repeat split; vm_compute; reflexivity. Qed.

(** * Further properties *)

(** ** [pop], [get] and indexing *)





(** ** More on [Config.update] *)

Lemma update_warnings_known self (items : pydict) :
  forall sd,
    (forall k, k ∈ Dict.keys items ->
       Dict.mem sd k || class_provides (inst_class self) k = true) ->
    update_warnings self sd items = [].
Proof.
  induction items as [|[k v] rest IH]; intros sd Hknown; [reflexivity|].
  cbn [update_warnings]. rewrite (Hknown k) by left. simpl.
  apply IH. intros k' Hin.
  specialize (Hknown k' ltac:(right; exact Hin)).
  apply orb_true_iff in Hknown as [Hm|Hc]; [|rewrite Hc; apply orb_true_r].
  unfold Dict.mem in *. rewrite get_set.
  destruct (String.eqb k k'); [reflexivity|].
  destruct (Dict.get sd k'); [reflexivity | discriminate].
Qed.



Lemma dict_ext {V} (d d' : list (string * V)) :
  Dict.keys d = Dict.keys d' ->
  (forall k, Dict.get d k = Dict.get d' k) ->
  NoDup (Dict.keys d) ->
  d = d'.
Proof.
  revert d'. induction d as [|[k v] t IH]; intros [|[k' v'] t'] Hkeys Hget Hnd;
    try discriminate; [reflexivity|].
  simpl in Hkeys. injection Hkeys as <- Hkeys.
  inversion Hnd as [|? ? Hnotin Hnd']; subst.
  pose proof (Hget k) as Hk. simpl in Hk. rewrite String.eqb_refl in Hk.
  injection Hk as <-. f_equal.
  apply IH; [exact Hkeys | | exact Hnd'].
  intros k0. specialize (Hget k0). simpl in Hget.
  destruct (String.eqb_spec k k0) as [Heq|Hne]; [|exact Hget].
  subst k0. clear Hget.
  pose proof Hnotin as Hnotin'. unfold Dict.keys in Hkeys.
  apply mem_false_keys in Hnotin. unfold Dict.keys in Hnotin'.
  rewrite Hkeys in Hnotin'. apply mem_false_keys in Hnotin'.
  unfold Dict.mem in *.
  destruct (Dict.get t k), (Dict.get t' k); congruence.
Qed.

Lemma mem_set {V} (d : list (string * V)) k v k' :
  Dict.mem (Dict.set d k v) k' = String.eqb k k' || Dict.mem d k'.
Proof.
  unfold Dict.mem. rewrite get_set. destruct (String.eqb k k'); reflexivity.
Qed.

Lemma keys_update_known {V} (e : list (string * V)) :
  forall d : list (string * V),
    (forall k, k ∈ Dict.keys e -> Dict.mem d k = true) ->
    Dict.keys (Dict.update d e) = Dict.keys d.
Proof.
  unfold Dict.update.
  induction e as [|[k v] e IH]; intros d Hknown; [reflexivity|].
  simpl. rewrite IH.
  - apply keys_set_mem, Hknown. left.
  - intros k' Hin. rewrite mem_set, (Hknown k') by (right; exact Hin).
    apply orb_true_r.
Qed.

Lemma mem_update_written {V} (d e : list (string * V)) k :
  k ∈ Dict.keys e -> Dict.mem (Dict.update d e) k = true.
Proof.
  intros Hin. unfold Dict.mem. rewrite get_update.
  destruct (Dict.last_write e k) eqn:E; [reflexivity|].
  apply last_write_None in E. contradiction.
Qed.

(** Applying the same items twice is applying them once. *)
Lemma update_idem {V} (d e : list (string * V)) :
  NoDup (Dict.keys d) ->
  Dict.update (Dict.update d e) e = Dict.update d e.
Proof.
  intros Hnd. apply dict_ext.
  - apply keys_update_known. intros k Hin. apply mem_update_written, Hin.
  - intros k. rewrite !get_update.
    destruct (Dict.last_write e k); reflexivity.
  - apply NoDup_keys_update, NoDup_keys_update, Hnd.
Qed.

(** X4. [update] is idempotent: after a successful update with ordinary
    keys, the same call again succeeds and changes nothing at all, neither
    the instance, nor the mapping, nor the log (every key is known by
    then). *)
Theorem update_twice_is_update_once {bytes} (w : world bytes)
    self (d : loc) dv sd kwargs :
  w_heap w !! d = Some dv ->
  w_heap w !! inst_dict self = Some sd ->
  d <> inst_dict self ->
  NoDup (Dict.keys dv) ->
  NoDup (Dict.keys sd) ->
  plain_keys (Dict.update dv kwargs) = true ->
  exists w1,
    Config_update self d kwargs w = (Ok self, w1)
    /\ Config_update self d kwargs w1 = (Ok self, w1).
Proof.
  intros Hd Hsd Hne Hnd Hnds Hplain.
  pose proof (Config_update_plain w self d dv sd kwargs Hd Hsd Hne Hplain) as Hrun.
  eexists. split; [exact Hrun|].
  set (items := Dict.update dv kwargs) in *.
  set (w1 := with_log (w_log w ++ update_warnings self sd items)
               (with_heap (<[inst_dict self := Dict.update sd items]>
                             (<[d := items]> (w_heap w))) w)).
  assert (Hd1 : w_heap w1 !! d = Some items).
  { subst w1. simpl. rewrite list_lookup_insert_ne by congruence.
    eapply lookup_store, Hd. }
  assert (Hs1 : w_heap w1 !! inst_dict self = Some (Dict.update sd items)).
  { subst w1. simpl. apply list_lookup_insert_eq. rewrite length_insert.
    eapply lookup_lt_Some, Hsd. }
  assert (Hitems : Dict.update items kwargs = items).
  { subst items. apply update_idem, Hnd. }
  rewrite (Config_update_plain w1 self d items (Dict.update sd items) kwargs
             Hd1 Hs1 Hne) by (rewrite Hitems; exact Hplain).
  rewrite Hitems, (update_idem sd items Hnds).
  rewrite update_warnings_known
    by (intros k Hin; rewrite (mem_update_written sd items k Hin); reflexivity).
  rewrite app_nil_r, (list_insert_id _ _ _ Hd1).
  rewrite (list_insert_id _ _ _ Hs1), world_eta. reflexivity.
Qed.

Lemma update_twice_is_update_once_witness :
  exists w1 : world pydict,
    Config_update {| inst_class := ModelConfig; inst_dict := 0 |} 1
      [("num_labels", VInt 3)]
      (sample_world [[("name", VStr "m"); ("config_type", VStr "model")];
                     [("name", VStr "n")]] [] [])
    = (Ok {| inst_class := ModelConfig; inst_dict := 0 |}, w1)
    /\ Config_update {| inst_class := ModelConfig; inst_dict := 0 |} 1
         [("num_labels", VInt 3)] w1
       = (Ok {| inst_class := ModelConfig; inst_dict := 0 |}, w1).
Proof.
  apply (update_twice_is_update_once
           (sample_world [[("name", VStr "m"); ("config_type", VStr "model")];
                          [("name", VStr "n")]] [] [])
           {| inst_class := ModelConfig; inst_dict := 0 |} 1
           [("name", VStr "n")]
           [("name", VStr "m"); ("config_type", VStr "model")]
           [("num_labels", VInt 3)]).
  - reflexivity.
  - reflexivity.
  - simpl. lia.
  - apply (bool_decide_unpack _). vm_compute. exact I.
  - apply (bool_decide_unpack _). vm_compute. exact I.
  - reflexivity.
Defined.

Lemma set_set {V} (d : list (string * V)) k v v' :
  Dict.set (Dict.set d k v) k v' = Dict.set d k v'.
Proof.
  induction d as [|[k0 v0] d IH]; simpl.
  - rewrite String.eqb_refl. reflexivity.
  - destruct (String.eqb k0 k) eqn:E; simpl; rewrite E; [reflexivity|].
    rewrite IH. reflexivity.
Qed.

Lemma set_comm {V} (d : list (string * V)) k v k1 v1 :
  k <> k1 -> Dict.mem d k = true ->
  Dict.set (Dict.set d k1 v1) k v = Dict.set (Dict.set d k v) k1 v1.
Proof.
  unfold Dict.mem. intros Hne.
  induction d as [|[k0 v0] d IH]; simpl; [discriminate|].
  destruct (String.eqb_spec k0 k) as [->|Hk]; simpl.
  - destruct (String.eqb_spec k k1) as [|_]; [contradiction|]. simpl.
    rewrite String.eqb_refl. reflexivity.
  - intros Hm. destruct (String.eqb_spec k0 k1) as [->|Hk1]; simpl.
    + destruct (String.eqb_spec k1 k); [congruence|]. reflexivity.
    + destruct (String.eqb_spec k0 k); [contradiction|].
      rewrite IH by exact Hm. reflexivity.
Qed.

Lemma set_update_comm {V} (t : list (string * V)) k v :
  k ∉ Dict.keys t ->
  forall a, Dict.mem a k = true ->
            Dict.set (Dict.update a t) k v = Dict.update (Dict.set a k v) t.
Proof.
  unfold Dict.update.
  induction t as [|[k1 v1] t IH]; intros Hnotin a Hm; [reflexivity|].
  simpl in *. apply not_elem_of_cons in Hnotin as [Hne Hnotin].
  rewrite IH by (try exact Hnotin; rewrite mem_set, Hm; apply orb_true_r).
  rewrite set_comm by assumption. reflexivity.
Qed.

Lemma set_after_update {V} (d : list (string * V)) k v :
  NoDup (Dict.keys d) ->
  forall s, Dict.set (Dict.update s d) k v = Dict.update s (Dict.set d k v).
Proof.
  unfold Dict.update.
  induction d as [|[k0 v0] t IH]; intros Hnd s; [reflexivity|].
  inversion Hnd as [|? ? Hnotin Hnd']; subst. simpl.
  destruct (String.eqb_spec k0 k) as [->|Hne]; simpl.
  - pose proof (set_update_comm t k v Hnotin (Dict.set s k v0)) as H.
    unfold Dict.update in H. rewrite H by (rewrite mem_set, String.eqb_refl; reflexivity).
    rewrite set_set. reflexivity.
  - apply IH, Hnd'.
Qed.

(** Applying [d] and then [e] is applying [d] updated by [e]. *)
Lemma update_assoc {V} (e : list (string * V)) :
  forall s d : list (string * V), NoDup (Dict.keys d) ->
    Dict.update (Dict.update s d) e = Dict.update s (Dict.update d e).
Proof.
  induction e as [|[k v] e IH]; intros s d Hnd; [reflexivity|].
  unfold Dict.update at 1 3. simpl.
  change (Dict.update (Dict.set (Dict.update s d) k v) e
          = Dict.update s (Dict.update (Dict.set d k v) e)).
  rewrite set_after_update by exact Hnd.
  apply IH, NoDup_keys_set, Hnd.
Qed.

Lemma plain_keys_set (d : pydict) k (v : value) :
  descriptor_name k = false -> plain_keys d = true ->
  plain_keys (Dict.set d k v) = true.
Proof.
  unfold plain_keys. intros Hk.
  induction d as [|[k0 v0] d IH]; simpl.
  - intros _. rewrite Hk. reflexivity.
  - intros H. apply andb_true_iff in H as [H0 Hd].
    destruct (String.eqb k0 k); simpl; rewrite H0; [exact Hd | apply IH, Hd].
Qed.

Lemma plain_keys_update (e : pydict) :
  forall d, plain_keys d = true -> plain_keys e = true ->
            plain_keys (Dict.update d e) = true.
Proof.
  unfold Dict.update.
  induction e as [|[k v] e IH]; intros d Hd He; [exact Hd|].
  unfold plain_keys in He. simpl in He. apply andb_true_iff in He as [Hk He].
  apply negb_true_iff in Hk. simpl.
  apply IH; [apply plain_keys_set; assumption | exact He].
Qed.

(** X5. Keywords compose with the mapping: [update(d, **kwargs)] leaves the
    instance with the same attributes, in the same order, as [update(d)]
    followed by an update with the keywords alone. *)
Theorem update_with_keywords_is_two_updates {bytes} (w : world bytes)
    self (d e : loc) dv sd kwargs :
  w_heap w !! d = Some dv ->
  w_heap w !! e = Some kwargs ->
  w_heap w !! inst_dict self = Some sd ->
  d <> inst_dict self -> e <> inst_dict self -> d <> e ->
  NoDup (Dict.keys dv) ->
  plain_keys dv = true ->
  plain_keys kwargs = true ->
  exists wA wB wC,
    Config_update self d kwargs w = (Ok self, wA)
    /\ Config_update self d [] w = (Ok self, wB)
    /\ Config_update self e [] wB = (Ok self, wC)
    /\ w_heap wA !! inst_dict self = w_heap wC !! inst_dict self.
Proof.
  intros Hd He Hsd Hds Hes Hde Hnd Hpd Hpk.
  pose proof (Config_update_plain w self d dv sd kwargs Hd Hsd Hds
                (plain_keys_update _ _ Hpd Hpk)) as HA.
  pose proof (Config_update_plain w self d dv sd [] Hd Hsd Hds Hpd) as HB.
  change (Dict.update dv []) with dv in HB.
  set (wB := with_log (w_log w ++ update_warnings self sd dv)
               (with_heap (<[inst_dict self := Dict.update sd dv]>
                             (<[d := dv]> (w_heap w))) w)) in *.
  assert (HeB : w_heap wB !! e = Some kwargs).
  { subst wB. simpl. rewrite !list_lookup_insert_ne by congruence. exact He. }
  assert (HsB : w_heap wB !! inst_dict self = Some (Dict.update sd dv)).
  { subst wB. simpl. apply list_lookup_insert_eq. rewrite length_insert.
    eapply lookup_lt_Some, Hsd. }
  pose proof (Config_update_plain wB self e kwargs (Dict.update sd dv) []
                HeB HsB Hes Hpk) as HC.
  change (Dict.update kwargs []) with kwargs in HC.
  eexists _, _, _. split; [exact HA|]. split; [exact HB|]. split; [exact HC|].
  subst wB. cbn [w_heap with_log with_heap].
  rewrite !list_lookup_insert_eq.
  - rewrite update_assoc by exact Hnd. reflexivity.
  - rewrite !length_insert. eapply lookup_lt_Some, Hsd.
  - rewrite length_insert. eapply lookup_lt_Some, Hsd.
Qed.

Lemma update_with_keywords_is_two_updates_witness :
  exists wA wB wC : world pydict,
    Config_update {| inst_class := ModelConfig; inst_dict := 0 |} 1
      [("name", VStr "k"); ("num_labels", VInt 3)]
      (sample_world [[("name", VStr "m"); ("config_type", VStr "model")];
                     [("id2label", VNone); ("name", VStr "n")];
                     [("name", VStr "k"); ("num_labels", VInt 3)]] [] [])
    = (Ok {| inst_class := ModelConfig; inst_dict := 0 |}, wA)
    /\ Config_update {| inst_class := ModelConfig; inst_dict := 0 |} 1 []
         (sample_world [[("name", VStr "m"); ("config_type", VStr "model")];
                        [("id2label", VNone); ("name", VStr "n")];
                        [("name", VStr "k"); ("num_labels", VInt 3)]] [] [])
       = (Ok {| inst_class := ModelConfig; inst_dict := 0 |}, wB)
    /\ Config_update {| inst_class := ModelConfig; inst_dict := 0 |} 2 [] wB
       = (Ok {| inst_class := ModelConfig; inst_dict := 0 |}, wC)
    /\ w_heap wA !! 0 = w_heap wC !! 0.
Proof.
  apply (update_with_keywords_is_two_updates
           (sample_world [[("name", VStr "m"); ("config_type", VStr "model")];
                          [("id2label", VNone); ("name", VStr "n")];
                          [("name", VStr "k"); ("num_labels", VInt 3)]] [] [])
           {| inst_class := ModelConfig; inst_dict := 0 |} 1 2
           [("id2label", VNone); ("name", VStr "n")]
           [("name", VStr "m"); ("config_type", VStr "model")]
           [("name", VStr "k"); ("num_labels", VInt 3)]).
  - reflexivity.
  - reflexivity.
  - reflexivity.
  - simpl. lia.
  - simpl. lia.
  - lia.
  - apply (bool_decide_unpack _). vm_compute. exact I.
  - reflexivity.
  - reflexivity.
Defined.

(** ** What the operations leave alone *)

Lemma frames_bind {bytes A B X} (obs : world bytes -> X) (m : M A)
    (k : A -> M B) :
  frames obs m -> (forall a, frames obs (k a)) -> frames obs (bind m k).
Proof.
  intros Hm Hk w. unfold bind. specialize (Hm w).
  destruct (m w) as [[a|e] w']; simpl in *.
  - rewrite Hk. exact Hm.
  - exact Hm.
Qed.

Lemma frames_ret {bytes A X} (obs : world bytes -> X) (a : A) :
  frames obs (ret a).
Proof. intros w. reflexivity. Qed.

Lemma frames_raise {bytes A X} (obs : world bytes -> X) e :
  frames obs (@raise bytes A e).
Proof. intros w. reflexivity. Qed.

Lemma frames_lift {bytes A X} (obs : world bytes -> X) (r : result A) :
  frames obs (lift r).
Proof. intros w. reflexivity. Qed.

Lemma frames_deref {bytes X} (obs : world bytes -> X) l :
  frames obs (deref l).
Proof. intros w. unfold deref. destruct (w_heap w !! l); reflexivity. Qed.

Lemma frames_store {bytes X} (obs : world bytes -> X) l d :
  heap_blind obs -> frames obs (store l d).
Proof. intros Hb w. apply Hb. Qed.

Lemma frames_alloc {bytes X} (obs : world bytes -> X) d :
  heap_blind obs -> frames obs (alloc d).
Proof. intros Hb w. apply Hb. Qed.

Lemma frames_dict_update {bytes X} (obs : world bytes -> X) l e :
  heap_blind obs -> frames obs (dict_update l e).
Proof.
  intros Hb. unfold dict_update.
  apply frames_bind; [apply frames_deref | intros d; apply frames_store, Hb].
Qed.

Lemma frames_dataclass_new {bytes X} (obs : world bytes -> X) cls kw :
  heap_blind obs -> frames obs (dataclass_new cls kw).
Proof.
  intros Hb. unfold dataclass_new.
  destruct (forallb (is_field cls) (Dict.keys kw)); [|apply frames_raise].
  apply frames_bind; [apply frames_lift|]. intros d.
  apply frames_bind; [apply frames_alloc, Hb | intros l; apply frames_ret].
Qed.

Lemma frames_from_dict {bytes X} (obs : world bytes -> X) cls l kwargs :
  heap_blind obs -> frames obs (Config_from_dict cls l kwargs).
Proof.
  intros Hb. unfold Config_from_dict.
  apply frames_bind; [apply frames_dict_update, Hb | intros _].
  apply frames_bind; [apply frames_deref | intros items].
  apply frames_dataclass_new, Hb.
Qed.

Lemma heap_blind_log {bytes} : heap_blind (@w_log bytes).
Proof. intros h w. reflexivity. Qed.

Lemma heap_blind_fs {bytes} : heap_blind (@w_fs bytes).
Proof. intros h w. reflexivity. Qed.

Lemma heap_blind_hub_calls {bytes} : heap_blind (@w_hub_calls bytes).
Proof. intros h w. reflexivity. Qed.

Lemma remove_set {V} (d : list (string * V)) k v :
  Dict.remove (Dict.set d k v) k = Dict.remove d k.
Proof.
  induction d as [|[k0 v0] d IH]; simpl.
  - rewrite String.eqb_refl. reflexivity.
  - destruct (String.eqb k0 k) eqn:E; simpl; rewrite E; [reflexivity|].
    rewrite IH. reflexivity.
Qed.

(** ** More on [Config.from_dict] *)

(** X6. The [strict] flag of [from_dict] has no effect: whatever value it
    is given, the outcome and the world afterwards are the same.  And
    [from_dict] never logs, so a key it drops is dropped without a warning,
    and it touches neither the file system nor the hub. *)
Theorem from_dict_ignores_strict_and_is_silent {bytes} (w : world bytes)
    (cls : pyclass) (l : loc) (kwargs : pydict) :
  (forall v v' : value,
     Config_from_dict cls l (Dict.set kwargs "strict" v) w
     = Config_from_dict cls l (Dict.set kwargs "strict" v') w)
  /\ w_log (snd (Config_from_dict cls l kwargs w)) = w_log w
  /\ w_fs (snd (Config_from_dict cls l kwargs w)) = w_fs w
  /\ w_hub_calls (snd (Config_from_dict cls l kwargs w)) = w_hub_calls w.
Proof.
  split; [|split; [|split]].
  - intros v v'. unfold Config_from_dict. rewrite !remove_set. reflexivity.
  - apply (frames_from_dict _ cls l kwargs heap_blind_log).
  - apply (frames_from_dict _ cls l kwargs heap_blind_fs).
  - apply (frames_from_dict _ cls l kwargs heap_blind_hub_calls).
Qed.

Lemma get_In {V} (d : list (string * V)) k v :
  Dict.get d k = Some v -> In (k, v) d.
Proof.
  induction d as [|[k0 v0] d IH]; simpl; [discriminate|].
  destruct (String.eqb_spec k0 k) as [->|Hne]; intros H.
  - injection H as <-. left. reflexivity.
  - right. apply IH, H.
Qed.

(** X7. [from_dict] keeps a key of the mapping when the class has an
    attribute of that name, and the name of a method is one: a mapping (or
    keywords) with a key that the class provides but that is no field makes
    [from_dict] raise [TypeError], since the constructor does not take it. *)
Theorem from_dict_rejects_class_attribute_names {bytes} (w : world bytes)
    (cls : pyclass) (l : loc) dv (kwargs : pydict) k :
  w_heap w !! l = Some dv ->
  Dict.mem (Dict.update dv (Dict.remove kwargs "strict")) k = true ->
  hasattr_class cls k = true ->
  is_field cls k = false ->
  fst (Config_from_dict cls l kwargs w)
  = Raise (TypeError "unexpected keyword argument").
Proof.
  intros Hl Hk Hhas Hfield. unfold Config_from_dict.
  rewrite (bind_ok _ _ _ _ _ (dict_update_ok _ _ _ _ Hl)).
  erewrite bind_ok; cycle 1.
  { apply deref_ok. simpl. eapply lookup_store, Hl. }
  set (items := Dict.update dv (Dict.remove kwargs "strict")) in *.
  unfold dataclass_new.
  assert (Hall : forallb (is_field cls)
                   (Dict.keys (List.filter (fun kv => hasattr_class cls (fst kv)) items))
                 = false).
  { apply not_true_is_false. intros Hall. rewrite forallb_forall in Hall.
    unfold Dict.mem in Hk. destruct (Dict.get items k) as [v|] eqn:E; [|discriminate].
    specialize (Hall k). rewrite Hfield in Hall. discriminate Hall.
    unfold Dict.keys. apply in_map_iff. exists (k, v). split; [reflexivity|].
    apply filter_In. split; [apply get_In, E | exact Hhas]. }
  rewrite Hall. reflexivity.
Qed.

Lemma from_dict_rejects_class_attribute_names_witness :
  fst (Config_from_dict ModelConfig 0 []
         (sample_world [[("name", VStr "m"); ("keys", VList [])]] [] []))
  = Raise (TypeError "unexpected keyword argument").
Proof.
  apply (from_dict_rejects_class_attribute_names
           (sample_world [[("name", VStr "m"); ("keys", VList [])]] [] [])
           ModelConfig 0 [("name", VStr "m"); ("keys", VList [])] [] "keys").
  - reflexivity.
  - reflexivity.
  - reflexivity.
  - reflexivity.
Defined.

Lemma init_fields_missing (fields : list (string * option value)) (kw : pydict) f :
  In (f, None) fields ->
  Dict.get kw f = None ->
  forall acc, init_fields fields kw acc
              = Raise (TypeError "missing required argument").
Proof.
  induction fields as [|[f0 d0] rest IH]; intros Hin Hkw acc; [destruct Hin|].
  cbn [init_fields].
  destruct Hin as [Heq|Hin].
  - injection Heq as -> ->. rewrite Hkw. reflexivity.
  - destruct (match Dict.get kw f0 with Some v => Some v | None => d0 end);
      [apply IH; assumption | reflexivity].
Qed.

(** X8. A field without a default is no attribute of the class, so
    [from_dict] drops its key from the mapping and the constructor then
    misses the argument: for a class with such a field [from_dict] raises
    [TypeError] on every mapping.  The base class [Config], whose [name] has
    no default, is one. *)
Theorem from_dict_fails_for_field_without_default {bytes} (w : world bytes)
    (cls : pyclass) (l : loc) dv (kwargs : pydict) f :
  w_heap w !! l = Some dv ->
  Dict.get (cls_fields cls) f = Some None ->
  hasattr_class cls f = false ->
  exists msg, fst (Config_from_dict cls l kwargs w) = Raise (TypeError msg).
Proof.
  intros Hl Hf Hhas. unfold Config_from_dict.
  rewrite (bind_ok _ _ _ _ _ (dict_update_ok _ _ _ _ Hl)).
  erewrite bind_ok; cycle 1.
  { apply deref_ok. simpl. eapply lookup_store, Hl. }
  unfold dataclass_new.
  destruct (forallb _ _); [|eexists; reflexivity].
  unfold lift, bind at 1.
  rewrite (init_fields_missing _ _ f).
  - eexists. reflexivity.
  - apply get_In, Hf.
  - rewrite get_filter_key, Hhas. reflexivity.
Qed.

Lemma from_dict_fails_for_field_without_default_witness :
  exists msg,
    fst (Config_from_dict Config 0 []
           (sample_world [[("name", VStr "m"); ("config_type", VStr "base")]] [] []))
    = Raise (TypeError msg).
Proof.
  apply (from_dict_fails_for_field_without_default
           (sample_world [[("name", VStr "m"); ("config_type", VStr "base")]] [] [])
           Config 0 [("name", VStr "m"); ("config_type", VStr "base")] [] "name").
  - reflexivity.
  - reflexivity.
  - reflexivity.
Defined.

(** ** More on [Config.load] *)

Lemma Config_load_source {bytes}
    (resolve_pretrained_path : filesys bytes -> string -> string)
    (yaml_load : bytes -> option pydict) (HEZAR_TMP_DIR : string)
    (hub_cache_path : string -> string -> string -> string -> string)
    (w : world bytes) (cls0 : pyclass) (path filename subfolder : string)
    (kwargs : pydict) cpath b w1 m :
  config_source HEZAR_TMP_DIR hub_cache_path w
    (resolve_pretrained_path (w_fs w) path) filename subfolder cpath b w1 ->
  yaml_load b = Some m ->
  Config_load resolve_pretrained_path yaml_load HEZAR_TMP_DIR hub_cache_path
    cls0 path filename subfolder kwargs w
  = load_parsed m kwargs w1.
Proof.
  intros Hsrc Hyaml. unfold Config_load.
  erewrite bind_ok by reflexivity.
  erewrite bind_ok by reflexivity.
  erewrite bind_ok by reflexivity.
  revert Hyaml.
  destruct Hsrc as [b Hfile | b Hnofile Hnodir Hhub Hcache]; intros Hyaml.
  - assert (His : isfile (w_fs w)
                    (path_join (resolve_pretrained_path (w_fs w) path)
                       [subfolder; filename]) = true).
    { unfold isfile, Dict.mem. rewrite Hfile. reflexivity. }
    rewrite His, andb_false_r. cbn [negb].
    rewrite bind_ret.
    rewrite (bind_ok _ _ _ _ _ (OmegaConf_load_ok _ _ _ _ _ Hfile Hyaml)).
    reflexivity.
  - rewrite Hnofile, Hnodir. cbn [negb andb].
    rewrite (bind_ok _ _ _ _ _
               (hf_hub_download_ok _ _ _ _ _ HEZAR_TMP_DIR _ Hhub Hcache)).
    erewrite bind_ok; cycle 1.
    { apply OmegaConf_load_ok with (b := b); [|exact Hyaml].
      simpl. apply get_set_eq. }
    reflexivity.
Qed.

Lemma config_source_keeps_store {bytes} (HEZAR_TMP_DIR : string)
    (hub_cache_path : string -> string -> string -> string -> string)
    (w : world bytes) p filename subfolder cpath b w1 :
  config_source HEZAR_TMP_DIR hub_cache_path w p filename subfolder cpath b w1 ->
  w_heap w1 = w_heap w /\ w_registry w1 = w_registry w /\ w_log w1 = w_log w.
Proof. intros [b' _ | b' _ _ _ _]; repeat split. Qed.

(** X9. [load] passes on the failure of the class lookup and builds
    nothing: when [get_module_config_class] raises for the [name] and
    [config_type] of the file ([ValueError] for a [config_type] outside the
    four kinds it knows, [KeyError] for a name that is not registered),
    [load] raises that same exception and the store is as before. *)
Theorem load_propagates_lookup_failure {bytes}
    (resolve_pretrained_path : filesys bytes -> string -> string)
    (yaml_load : bytes -> option pydict) (HEZAR_TMP_DIR : string)
    (hub_cache_path : string -> string -> string -> string -> string)
    (w : world bytes) (cls0 : pyclass) (path filename subfolder : string)
    (kwargs : pydict) cpath b w1 m (name ct : value) e :
  config_source HEZAR_TMP_DIR hub_cache_path w
    (resolve_pretrained_path (w_fs w) path) filename subfolder cpath b w1 ->
  yaml_load b = Some m ->
  Dict.get m "name" = Some name ->
  Dict.get m "config_type" = Some ct ->
  get_module_config_class (w_registry w) name ct = Raise e ->
  Config_load resolve_pretrained_path yaml_load HEZAR_TMP_DIR hub_cache_path
    cls0 path filename subfolder kwargs w
  = (Raise e, w1)
  /\ w_heap w1 = w_heap w.
Proof.
  intros Hsrc Hyaml Hname Hct Hcls.
  destruct (config_source_keeps_store _ _ _ _ _ _ _ _ _ Hsrc) as (Hheap & Hreg & _).
  split; [|exact Hheap].
  rewrite (Config_load_source _ _ _ _ _ cls0 _ _ _ kwargs _ _ _ _ Hsrc Hyaml).
  unfold load_parsed.
  rewrite (bind_ok _ _ _ _ _ (dict_getitem_ok _ _ _ _ Hname)).
  rewrite (bind_ok _ _ _ _ _ (dict_getitem_ok _ _ _ _ Hct)).
  erewrite bind_raise; [reflexivity|].
  rewrite Hreg, Hcls. reflexivity.
Qed.

Lemma load_propagates_lookup_failure_witness :
  Config_load (fun _ p => p) Some "/tmp/hezar"
    (fun c r s f => path_join c [r; s; f])
    TrainConfig "run" "config.yaml" "" []
    (sample_world [] ["run"] [("run/config.yaml", sample_train_dict)])
  = (Raise (ValueError "Invalid `config_type`" (VStr "train")),
     sample_world [] ["run"] [("run/config.yaml", sample_train_dict)])
  /\ w_heap (sample_world [] ["run"] [("run/config.yaml", sample_train_dict)])
     = w_heap (sample_world [] ["run"] [("run/config.yaml", sample_train_dict)]).
Proof.
  apply (load_propagates_lookup_failure
           (fun _ p => p) Some "/tmp/hezar"
           (fun c r s f => path_join c [r; s; f])
           (sample_world [] ["run"] [("run/config.yaml", sample_train_dict)])
           TrainConfig "run" "config.yaml" "" []
           "run/config.yaml" sample_train_dict
           (sample_world [] ["run"] [("run/config.yaml", sample_train_dict)])
           sample_train_dict (VStr "train") (VStr "train")).
  - apply (source_local "/tmp/hezar" (fun c r s f => path_join c [r; s; f])
             (sample_world [] ["run"] [("run/config.yaml", sample_train_dict)])
             "run" "config.yaml" "" sample_train_dict).
    reflexivity.
  - reflexivity.
  - reflexivity.
  - reflexivity.
  - reflexivity.
Defined.

(** X10. A config file without [name] makes [load] raise [KeyError] for
    [name], also when [config_type] is missing too; a file with [name] and
    without [config_type] raises [KeyError] for [config_type].  In both
    cases no class is looked up and nothing is built. *)
Theorem load_requires_name_and_config_type {bytes}
    (resolve_pretrained_path : filesys bytes -> string -> string)
    (yaml_load : bytes -> option pydict) (HEZAR_TMP_DIR : string)
    (hub_cache_path : string -> string -> string -> string -> string)
    (w : world bytes) (cls0 : pyclass) (path filename subfolder : string)
    (kwargs : pydict) cpath b w1 m :
  config_source HEZAR_TMP_DIR hub_cache_path w
    (resolve_pretrained_path (w_fs w) path) filename subfolder cpath b w1 ->
  yaml_load b = Some m ->
  Dict.mem m "name" && Dict.mem m "config_type" = false ->
  Config_load resolve_pretrained_path yaml_load HEZAR_TMP_DIR hub_cache_path
    cls0 path filename subfolder kwargs w
  = (Raise (KeyError (VStr (if Dict.mem m "name" then "config_type" else "name"))),
     w1).
Proof.
  intros Hsrc Hyaml Hmiss.
  rewrite (Config_load_source _ _ _ _ _ cls0 _ _ _ kwargs _ _ _ _ Hsrc Hyaml).
  unfold load_parsed, Dict.mem in *.
  destruct (Dict.get m "name") as [name|] eqn:Hname.
  - rewrite (bind_ok _ _ _ _ _ (dict_getitem_ok _ _ _ _ Hname)).
    destruct (Dict.get m "config_type") as [ct|] eqn:Hct; [discriminate|].
    erewrite bind_raise; [reflexivity|].
    unfold dict_getitem. rewrite Hct. reflexivity.
  - erewrite bind_raise; [reflexivity|].
    unfold dict_getitem. rewrite Hname. reflexivity.
Qed.

Lemma load_requires_name_and_config_type_witness :
  Config_load (fun _ p => p) Some "/tmp/hezar"
    (fun c r s f => path_join c [r; s; f])
    Config "run" "config.yaml" "" []
    (sample_world [] ["run"] [("run/config.yaml", [("lr", VInt 1)])])
  = (Raise (KeyError (VStr (if Dict.mem [("lr", VInt 1)] "name"
                            then "config_type" else "name"))),
     sample_world [] ["run"] [("run/config.yaml", [("lr", VInt 1)])]).
Proof.
  apply (load_requires_name_and_config_type
           (fun _ p => p) Some "/tmp/hezar"
           (fun c r s f => path_join c [r; s; f])
           (sample_world [] ["run"] [("run/config.yaml", [("lr", VInt 1)])])
           Config "run" "config.yaml" "" []
           "run/config.yaml" [("lr", VInt 1)]
           (sample_world [] ["run"] [("run/config.yaml", [("lr", VInt 1)])])
           [("lr", VInt 1)]).
  - apply (source_local "/tmp/hezar" (fun c r s f => path_join c [r; s; f])
             (sample_world [] ["run"] [("run/config.yaml", [("lr", VInt 1)])])
             "run" "config.yaml" "" [("lr", VInt 1)]).
    reflexivity.
  - reflexivity.
  - reflexivity.
Defined.

Lemma frames_dict_getitem {bytes X} (obs : world bytes -> X) (d : pydict) k :
  frames obs (dict_getitem d k).
Proof.
  unfold dict_getitem. destruct (Dict.get d k); [apply frames_ret | apply frames_raise].
Qed.

Lemma frames_load_parsed {bytes X} (obs : world bytes -> X) config kwargs :
  heap_blind obs -> frames obs (load_parsed config kwargs).
Proof.
  intros Hb. unfold load_parsed.
  apply frames_bind; [apply frames_dict_getitem | intros name].
  apply frames_bind; [apply frames_dict_getitem | intros ct].
  apply frames_bind; [intros w; reflexivity | intros cls].
  apply frames_bind; [apply frames_alloc, Hb | intros l].
  destruct (keyword_collision kwargs);
    [apply frames_raise | apply frames_from_dict, Hb].
Qed.

Lemma frames_OmegaConf_load {bytes X} (obs : world bytes -> X)
    (yaml_load : bytes -> option pydict) path :
  frames obs (OmegaConf_load yaml_load path).
Proof.
  unfold OmegaConf_load. apply frames_bind.
  - intros w. unfold read_file.
    destruct (Dict.get (fs_files (w_fs w)) path); [reflexivity|].
    destruct (isdir (w_fs w) path); reflexivity.
  - intros b. destruct (yaml_load b); [apply frames_ret | apply frames_raise].
Qed.

(** X11. A local file wins over the hub: when the config file exists
    locally, [load] makes no request to the hub, writes no file and logs
    nothing, whatever the file holds and whatever the outcome. *)
Theorem load_local_file_is_read_only {bytes}
    (resolve_pretrained_path : filesys bytes -> string -> string)
    (yaml_load : bytes -> option pydict) (HEZAR_TMP_DIR : string)
    (hub_cache_path : string -> string -> string -> string -> string)
    (w : world bytes) (cls0 : pyclass) (path filename subfolder : string)
    (kwargs : pydict) :
  isfile (w_fs w)
    (path_join (resolve_pretrained_path (w_fs w) path) [subfolder; filename])
  = true ->
  w_hub_calls
    (snd (Config_load resolve_pretrained_path yaml_load HEZAR_TMP_DIR
            hub_cache_path cls0 path filename subfolder kwargs w))
  = w_hub_calls w
  /\ w_fs
       (snd (Config_load resolve_pretrained_path yaml_load HEZAR_TMP_DIR
               hub_cache_path cls0 path filename subfolder kwargs w))
     = w_fs w
  /\ w_log
       (snd (Config_load resolve_pretrained_path yaml_load HEZAR_TMP_DIR
               hub_cache_path cls0 path filename subfolder kwargs w))
     = w_log w.
Proof.
  intros His.
  assert (Hframe : forall X (obs : world bytes -> X), heap_blind obs ->
    obs (snd (Config_load resolve_pretrained_path yaml_load HEZAR_TMP_DIR
                hub_cache_path cls0 path filename subfolder kwargs w))
    = obs w).
  { intros X obs Hb. unfold Config_load.
    erewrite bind_ok by reflexivity.
    erewrite bind_ok by reflexivity.
    erewrite bind_ok by reflexivity.
    rewrite His, andb_false_r. cbn [negb]. rewrite bind_ret.
    apply (frames_bind obs); [apply frames_OmegaConf_load | intros m].
    apply (frames_load_parsed obs m kwargs Hb). }
  split; [|split].
  - apply Hframe, heap_blind_hub_calls.
  - apply Hframe, heap_blind_fs.
  - apply Hframe, heap_blind_log.
Qed.

Lemma load_local_file_is_read_only_witness :
  w_hub_calls
    (snd (Config_load (fun _ p => p) Some "/tmp/hezar"
            (fun c r s f => path_join c [r; s; f])
            Config "hezarai/distilbert" "config.yaml" "" []
            (sample_world [] ["hezarai/distilbert"]
               [("hezarai/distilbert/config.yaml", sample_model_dict)])))
  = w_hub_calls (sample_world [] ["hezarai/distilbert"]
                   [("hezarai/distilbert/config.yaml", sample_model_dict)])
  /\ w_fs
       (snd (Config_load (fun _ p => p) Some "/tmp/hezar"
               (fun c r s f => path_join c [r; s; f])
               Config "hezarai/distilbert" "config.yaml" "" []
               (sample_world [] ["hezarai/distilbert"]
                  [("hezarai/distilbert/config.yaml", sample_model_dict)])))
     = w_fs (sample_world [] ["hezarai/distilbert"]
               [("hezarai/distilbert/config.yaml", sample_model_dict)])
  /\ w_log
       (snd (Config_load (fun _ p => p) Some "/tmp/hezar"
               (fun c r s f => path_join c [r; s; f])
               Config "hezarai/distilbert" "config.yaml" "" []
               (sample_world [] ["hezarai/distilbert"]
                  [("hezarai/distilbert/config.yaml", sample_model_dict)])))
     = w_log (sample_world [] ["hezarai/distilbert"]
                [("hezarai/distilbert/config.yaml", sample_model_dict)]).
Proof.
  apply (load_local_file_is_read_only (fun _ p => p) Some "/tmp/hezar"
           (fun c r s f => path_join c [r; s; f])
           (sample_world [] ["hezarai/distilbert"]
              [("hezarai/distilbert/config.yaml", sample_model_dict)])
           Config "hezarai/distilbert" "config.yaml" "" []).
  reflexivity.
Defined.

(** X12. When the path is neither a local file nor a local directory and
    the hub does not have the file, [load] raises the download error; the
    one request it made is on record and nothing else has changed. *)
Theorem load_hub_miss_raises_after_one_request {bytes}
    (resolve_pretrained_path : filesys bytes -> string -> string)
    (yaml_load : bytes -> option pydict) (HEZAR_TMP_DIR : string)
    (hub_cache_path : string -> string -> string -> string -> string)
    (w : world bytes) (cls0 : pyclass) (path filename subfolder : string)
    (kwargs : pydict) :
  isfile (w_fs w)
    (path_join (resolve_pretrained_path (w_fs w) path) [subfolder; filename])
  = false ->
  isdir (w_fs w) (resolve_pretrained_path (w_fs w) path) = false ->
  hub_lookup (w_hub w) (resolve_pretrained_path (w_fs w) path) subfolder filename
  = None ->
  Config_load resolve_pretrained_path yaml_load HEZAR_TMP_DIR hub_cache_path
    cls0 path filename subfolder kwargs w
  = (Raise (HubDownloadError (resolve_pretrained_path (w_fs w) path)
              subfolder filename),
     with_hub_calls
       (w_hub_calls w
          ++ [(resolve_pretrained_path (w_fs w) path, subfolder, filename)])%list
       w).
Proof.
  intros Hnofile Hnodir Hhub. unfold Config_load.
  erewrite bind_ok by reflexivity.
  erewrite bind_ok by reflexivity.
  erewrite bind_ok by reflexivity.
  rewrite Hnofile, Hnodir. cbn [negb andb].
  erewrite bind_raise; [reflexivity|].
  unfold hf_hub_download, bind. simpl. rewrite Hhub. reflexivity.
Qed.

Lemma load_hub_miss_raises_after_one_request_witness :
  Config_load (fun _ p => p) Some "/tmp/hezar"
    (fun c r s f => path_join c [r; s; f])
    Config "hezarai/unknown" "config.yaml" "" []
    (sample_world [] [] [])
  = (Raise (HubDownloadError "hezarai/unknown" "" "config.yaml"),
     with_hub_calls
       (w_hub_calls (sample_world [] [] [])
          ++ [("hezarai/unknown", "", "config.yaml")])%list
       (sample_world [] [] [])).
Proof.
  apply (load_hub_miss_raises_after_one_request (fun _ p => p) Some "/tmp/hezar"
           (fun c r s f => path_join c [r; s; f])
           (sample_world [] [] [])
           Config "hezarai/unknown" "config.yaml" "" []).
  - reflexivity.
  - reflexivity.
  - reflexivity.
Defined.

(** ** More on [Config.save] *)

Lemma get_filter_value {V} (p : V -> bool) (d : list (string * V)) k :
  NoDup (Dict.keys d) ->
  Dict.get (List.filter (fun kv => p (snd kv)) d) k
  = match Dict.get d k with
    | Some v => if p v then Some v else None
    | None => None
    end.
Proof.
  induction d as [|[k0 v0] d IH]; intros Hnd; [reflexivity|].
  inversion Hnd as [|? ? Hnotin Hnd']; subst. simpl.
  destruct (String.eqb_spec k0 k) as [->|Hne].
  - destruct (p v0); simpl.
    + rewrite String.eqb_refl. reflexivity.
    + rewrite IH by exact Hnd'.
      apply mem_false_keys in Hnotin. unfold Dict.mem in Hnotin.
      destruct (Dict.get d k); [discriminate | reflexivity].
  - destruct (p v0); simpl.
    + destruct (String.eqb_spec k0 k); [contradiction|]. apply IH, Hnd'.
    + apply IH, Hnd'.
Qed.

Lemma Config_save_inv_log {bytes} (yaml_dump : pydict -> result bytes)
    (w : world bytes) (c : instance) d (save_dir filename subfolder : string)
    p w1 :
  w_heap w !! inst_dict c = Some d ->
  Config_save yaml_dump c save_dir filename subfolder w = (Ok p, w1) ->
  w_log w1
  = (w_log w ++ [Info ("Saved config to `"
                         +:+ path_join save_dir [subfolder; filename] +:+ "`")])%list
  /\ w_hub_calls w1 = w_hub_calls w.
Proof.
  intros Hd. unfold Config_save, Config_dict.
  rewrite (bind_ok _ _ _ _ _ (deref_ok _ _ _ Hd)).
  unfold bind, os_makedirs, OmegaConf_save, open_write, logger_info, ret, raise.
  destruct (yaml_dump (List.filter (fun kv => negb (is_none (snd kv))) d))
    as [b|err] eqn:Hdump;
    repeat match goal with
           | |- context [if ?c then _ else _] => destruct c eqn:?
           end;
    intros H; try discriminate; injection H as <- <-; split; reflexivity.
Qed.

(** X13. A successful [save] writes exactly the attributes that are not
    [None]: the file holds the dump of a mapping in which every attribute
    other than [None] has its value and every [None] attribute is absent.
    The instance and the store are left as they were, one info line is
    logged, and the hub is not contacted. *)
Theorem save_writes_attributes_that_are_not_none {bytes}
    (yaml_dump : pydict -> result bytes)
    (w : world bytes) (c : instance) d (save_dir filename subfolder : string)
    p w1 :
  w_heap w !! inst_dict c = Some d ->
  NoDup (Dict.keys d) ->
  Config_save yaml_dump c save_dir filename subfolder w = (Ok p, w1) ->
  exists m b,
    yaml_dump m = Ok b
    /\ p = path_join save_dir [subfolder; filename]
    /\ Dict.get (fs_files (w_fs w1)) p = Some b
    /\ (forall k,
          Dict.get m k
          = match Dict.get d k with
            | Some v => if is_none v then None else Some v
            | None => None
            end)
    /\ w_heap w1 = w_heap w
    /\ w_log w1 = (w_log w ++ [Info ("Saved config to `" +:+ p +:+ "`")])%list
    /\ w_hub_calls w1 = w_hub_calls w.
Proof.
  intros Hd Hnd Hrun.
  destruct (Config_save_inv _ _ _ _ _ _ _ _ _ Hd Hrun)
    as (b & Hdump & -> & Hfile & Hheap & _).
  destruct (Config_save_inv_log _ _ _ _ _ _ _ _ _ Hd Hrun) as (Hlog & Hcalls).
  exists (List.filter (fun kv => negb (is_none (snd kv))) d), b.
  repeat split; try assumption.
  intros k. rewrite (get_filter_value (fun v => negb (is_none v))) by exact Hnd.
  destruct (Dict.get d k) as [v|]; [|reflexivity].
  destruct (is_none v); reflexivity.
Qed.

Lemma save_writes_attributes_that_are_not_none_witness :
  exists m b,
    Ok m = Ok b
    /\ "out/config.yaml" = path_join "out" [""; "config.yaml"]
    /\ Dict.get
         (fs_files
            (w_fs (snd (Config_save Ok {| inst_class := TrainConfig; inst_dict := 0 |}
                          "out" "config.yaml" ""
                          (sample_world [sample_train_dict] [] [])))))
         "out/config.yaml" = Some b
    /\ (forall k,
          Dict.get m k
          = match Dict.get sample_train_dict k with
            | Some v => if is_none v then None else Some v
            | None => None
            end)
    /\ w_heap (snd (Config_save Ok {| inst_class := TrainConfig; inst_dict := 0 |}
                      "out" "config.yaml" ""
                      (sample_world [sample_train_dict] [] [])))
       = w_heap (sample_world [sample_train_dict] [] [])
    /\ w_log (snd (Config_save Ok {| inst_class := TrainConfig; inst_dict := 0 |}
                     "out" "config.yaml" ""
                     (sample_world [sample_train_dict] [] [])))
       = (w_log (sample_world [sample_train_dict] [] [])
            ++ [Info ("Saved config to `" +:+ "out/config.yaml" +:+ "`")])%list
    /\ w_hub_calls
         (snd (Config_save Ok {| inst_class := TrainConfig; inst_dict := 0 |}
                 "out" "config.yaml" ""
                 (sample_world [sample_train_dict] [] [])))
       = w_hub_calls (sample_world [sample_train_dict] [] []).
Proof.
  apply (save_writes_attributes_that_are_not_none Ok
           (sample_world [sample_train_dict] [] [])
           {| inst_class := TrainConfig; inst_dict := 0 |}
           sample_train_dict "out" "config.yaml" "" "out/config.yaml"
           (snd (Config_save Ok {| inst_class := TrainConfig; inst_dict := 0 |}
                   "out" "config.yaml" ""
                   (sample_world [sample_train_dict] [] [])))).
  - reflexivity.
  - apply (bool_decide_unpack _). vm_compute. exact I.
  - vm_compute. reflexivity.
Defined.




(** A regular file in the place of the directory: [makedirs] raises, and
    nothing is created or written.  The directories above the one asked
    for are made with it. *)
Example save_where_a_file_is_in_the_way :
  Config_save Ok {| inst_class := ModelConfig; inst_dict := 0 |}
    "out" "config.yaml" ""
    (sample_world [[("name", VStr "m")]] [] [("out", [])])
  = (Raise (FileExistsError "out/"),
     sample_world [[("name", VStr "m")]] [] [("out", [])])
  /\ fs_dirs (w_fs (snd (Config_save Ok
                           {| inst_class := ModelConfig; inst_dict := 0 |}
                           "runs/a" "config.yaml" "b"
                           (sample_world [[("name", VStr "m")]] [] []))))
     = ["runs"; "runs/a"; "runs/a/b"]
  /\ fst (Config_save Ok {| inst_class := ModelConfig; inst_dict := 0 |}
            "runs/a" "config.yaml" "b"
            (sample_world [[("name", VStr "m")]] [] []))
     = Ok "runs/a/b/config.yaml".
Proof. repeat split; vm_compute; reflexivity. Qed.

(** ** More on the registry lookups *)

(** X15. For a name that [snake_case] leaves as it is and a kind other
    than [metric], the two lookups go together: if either returns a class,
    the key is registered in a registry that both know and the other lookup
    returns the partner class of that same entry. *)
Theorem lookups_agree_on_normalised_names (snake_case : string -> string)
    (R : registries) (name : string) (kind : value) :
  snake_case name = name ->
  eq_str kind ConfigType.METRIC = false ->
  (forall mc, get_module_class snake_case R name kind = Ok mc ->
     exists e, registered_entry R name e /\ module_class e = mc
               /\ get_module_config_class R (VStr name) kind
                  = Ok (config_class e))
  /\ (forall cc, get_module_config_class R (VStr name) kind = Ok cc ->
        exists e, registered_entry R name e /\ config_class e = cc
                  /\ get_module_class snake_case R name kind
                     = Ok (module_class e)).
Proof.
  intros Hsnake Hmetric.
  unfold get_module_class, get_module_config_class, registered_entry.
  rewrite Hsnake, Hmetric.
  destruct (eq_str kind ConfigType.MODEL);
    [|destruct (eq_str kind ConfigType.PREPROCESSOR);
      [|destruct (eq_str kind ConfigType.DATASET);
        [|destruct (eq_str kind ConfigType.EMBEDDING)]]];
    simpl;
    try match goal with
        | |- context [Dict.get ?reg name] =>
            destruct (Dict.get reg name) as [e|] eqn:E
        end;
    split; intros x Hx; try discriminate;
    injection Hx as <-; exists e; auto 10.
Qed.

Lemma lookups_agree_on_normalised_names_witness :
  (forall mc,
     get_module_class sample_snake_case sample_registries
       "distilbert_text_classification" (VStr "model") = Ok mc ->
     exists e, registered_entry sample_registries "distilbert_text_classification" e
               /\ module_class e = mc
               /\ get_module_config_class sample_registries
                    (VStr "distilbert_text_classification") (VStr "model")
                  = Ok (config_class e))
  /\ (forall cc,
        get_module_config_class sample_registries
          (VStr "distilbert_text_classification") (VStr "model") = Ok cc ->
        exists e, registered_entry sample_registries "distilbert_text_classification" e
                  /\ config_class e = cc
                  /\ get_module_class sample_snake_case sample_registries
                       "distilbert_text_classification" (VStr "model")
                     = Ok (module_class e)).
Proof.
  apply (lookups_agree_on_normalised_names sample_snake_case sample_registries
           "distilbert_text_classification" (VStr "model")).
  - reflexivity.
  - reflexivity.
Defined.

(** ** More on [flatten_dict] *)

Lemma set_new {V} (d : list (string * V)) k v :
  Dict.mem d k = false -> Dict.set d k v = (d ++ [(k, v)])%list.
Proof.
  unfold Dict.mem. induction d as [|[k0 v0] d IH]; simpl; [reflexivity|].
  destruct (String.eqb k0 k); [discriminate|].
  intros H. rewrite IH by exact H. reflexivity.
Qed.

Lemma collect_flat_from (d : pydict) :
  Forall (fun kv => is_dict (snd kv) = false) d ->
  forall config : pydict,
    NoDup (Dict.keys config ++ Dict.keys d) ->
    fold_left (collect_step collect_value) d config = (config ++ d)%list.
Proof.
  induction 1 as [|[k v] d Hv Hd IH]; intros config Hnd; simpl.
  - rewrite app_nil_r. reflexivity.
  - assert (Hstep : collect_step collect_value config (k, v)
                    = (config ++ [(k, v)])%list).
    { unfold collect_step. simpl in *.
      assert (Hnew : Dict.mem config k = false).
      { apply mem_false_keys. intros Hin.
        apply NoDup_app in Hnd as (_ & Hdisj & _).
        apply (Hdisj k Hin). left. }
      destruct v; try discriminate; apply set_new, Hnew. }
    rewrite Hstep, IH.
    + rewrite <- app_assoc. reflexivity.
    + unfold Dict.keys in *. rewrite map_app. simpl.
      rewrite <- app_assoc. exact Hnd.
Qed.

Lemma collect_flat (d : pydict) : flat_dict d -> collect d = d.
Proof.
  intros [Hflat Hnd]. rewrite collect_fold.
  apply (collect_flat_from d Hflat []). exact Hnd.
Qed.

Lemma nesting_flat (d : pydict) :
  Forall (fun kv => is_dict (snd kv) = false) d -> nesting (VDict d) = 1%nat.
Proof.
  induction 1 as [|[k v] d Hv _ IH]; [reflexivity|].
  rewrite nesting_cons, IH. simpl in Hv.
  destruct v; try discriminate; reflexivity.
Qed.

(** X17. On an ordinary nested mapping, with room on the stack for its
    nesting, [flatten_dict] is idempotent: flattening the [DictConfig] it
    returns gives that mapping back, keys in the same order. *)
Theorem flatten_dict_idempotent
    (interpolation_grammar : string -> bool)
    (resolve_interpolation : pydict -> string -> result value)
    (structured_config : string -> pydict -> result pydict)
    (depth depth' : nat) (is_config : bool) (dict_config : pydict) :
  ordinary (VDict dict_config) = true ->
  (nesting (VDict dict_config) <= depth)%nat ->
  (0 < depth')%nat ->
  exists out,
    flatten_dict interpolation_grammar resolve_interpolation structured_config
      depth is_config dict_config = Ok out
    /\ flatten_dict interpolation_grammar resolve_interpolation
         structured_config depth' true out = Ok out.
Proof.
  intros Hord Hdepth Hpos. exists (collect dict_config).
  destruct (collect_facts dict_config) as (Hflat & Hnd & _).
  unfold flatten_dict. split.
  - apply flatten_from_ordinary; assumption.
  - rewrite flatten_from_ordinary.
    + rewrite (collect_flat (collect dict_config)); [reflexivity|].
      split; assumption.
    + apply ordinary_items, collect_ordinary, Hord.
    + rewrite (nesting_flat _ Hflat). lia.
Qed.

Lemma flatten_dict_idempotent_witness :
  exists out,
    flatten_dict (fun _ => true) (fun _ _ => Raise InterpolationKeyError)
      (fun _ _ => Raise ValidationError) 3 false
      [("model", VDict [("lr", VFloat "2e-5"); ("layers", VList [VInt 2; VInt 4])]);
       ("train", VDict [("lr", VFloat "1e-3"); ("data", VDict [("path", VStr "x")])])]
    = Ok out
    /\ flatten_dict (fun _ => true) (fun _ _ => Raise InterpolationKeyError)
         (fun _ _ => Raise ValidationError) 1 true out = Ok out.
Proof.
  apply (flatten_dict_idempotent (fun _ => true)
           (fun _ _ => Raise InterpolationKeyError)
           (fun _ _ => Raise ValidationError) 3 1 false
           [("model", VDict [("lr", VFloat "2e-5"); ("layers", VList [VInt 2; VInt 4])]);
            ("train", VDict [("lr", VFloat "1e-3"); ("data", VDict [("path", VStr "x")])])]).
  - reflexivity.
  - simpl. lia.
  - lia.
Defined.

(** ** Handing a config to a constructor *)






(** ** [_build_inner_config] *)

(** X19. With [num_labels] and [id2label] both [None] the model refuses the
    config: [_build_inner_config] raises [ValueError] and leaves the config
    as it is. *)
Theorem build_inner_config_needs_labels {bytes} (w : world bytes)
    (config : instance) sd :
  w_heap w !! inst_dict config = Some sd ->
  Dict.get sd "num_labels" = Some VNone ->
  Dict.get sd "id2label" = Some VNone ->
  DistilBertTextClassification_build_inner_config config w
  = (Raise (ValueError
              "Both `num_labels` and `id2label` are None. Please provide at least one of them!"
              VNone), w).
Proof.
  intros Hsd Hn Hi. unfold DistilBertTextClassification_build_inner_config.
  rewrite (bind_ok _ _ _ _ _ (getattr_instance _ _ _ _ _ Hsd Hn)).
  cbn [is_none].
  erewrite bind_raise; [reflexivity|].
  rewrite (bind_ok _ _ _ _ _ (getattr_instance _ _ _ _ _ Hsd Hi)).
  reflexivity.
Qed.

Lemma build_inner_config_needs_labels_witness :
  DistilBertTextClassification_build_inner_config
    {| inst_class := DistilBertTextClassificationConfig; inst_dict := 0 |}
    (sample_world [[("name", VStr "m"); ("config_type", VStr "model");
                    ("num_labels", VNone); ("id2label", VNone)]] [] [])
  = (Raise (ValueError
              "Both `num_labels` and `id2label` are None. Please provide at least one of them!"
              VNone),
     sample_world [[("name", VStr "m"); ("config_type", VStr "model");
                    ("num_labels", VNone); ("id2label", VNone)]] [] []).
Proof.
  apply (build_inner_config_needs_labels
           (sample_world [[("name", VStr "m"); ("config_type", VStr "model");
                           ("num_labels", VNone); ("id2label", VNone)]] [] [])
           {| inst_class := DistilBertTextClassificationConfig; inst_dict := 0 |}
           [("name", VStr "m"); ("config_type", VStr "model");
            ("num_labels", VNone); ("id2label", VNone)]).
  - reflexivity.
  - reflexivity.
  - reflexivity.
Defined.





(** ** Further edge cases *)

Lemma metric_kind_has_no_config_class_witness :
  get_module_class sample_snake_case
    {| models_registry := []; preprocessors_registry := [];
       datasets_registry := []; embeddings_registry := [];
       metrics_registry :=
         [("seqeval", {| module_class := "Seqeval"; config_class := Config |})] |}
    "Seqeval" (VStr ConfigType.METRIC)
  = Ok "Seqeval"
  /\ get_module_config_class
       {| models_registry := []; preprocessors_registry := [];
          datasets_registry := []; embeddings_registry := [];
          metrics_registry :=
            [("seqeval", {| module_class := "Seqeval"; config_class := Config |})] |}
       (VStr "Seqeval") (VStr ConfigType.METRIC)
     = Raise (ValueError "Invalid `config_type`" (VStr ConfigType.METRIC)).
Proof.
  apply (metric_kind_has_no_config_class sample_snake_case
           {| models_registry := []; preprocessors_registry := [];
              datasets_registry := []; embeddings_registry := [];
              metrics_registry :=
                [("seqeval", {| module_class := "Seqeval"; config_class := Config |})] |}
           "Seqeval" {| module_class := "Seqeval"; config_class := Config |}).
  reflexivity.
Defined.

(** X22. When the config file is not local and the path is no local
    directory, [load] asks the hub once and caches what it gets: whatever
    the file holds and whatever the outcome, afterwards that one request is
    on record, the bytes are in the cache file, and nothing is logged. *)
Theorem load_from_hub_records_and_caches {bytes}
    (resolve_pretrained_path : filesys bytes -> string -> string)
    (yaml_load : bytes -> option pydict) (HEZAR_TMP_DIR : string)
    (hub_cache_path : string -> string -> string -> string -> string)
    (w : world bytes) (cls0 : pyclass) (path filename subfolder : string)
    (kwargs : pydict) b :
  isfile (w_fs w)
    (path_join (resolve_pretrained_path (w_fs w) path) [subfolder; filename])
  = false ->
  isdir (w_fs w) (resolve_pretrained_path (w_fs w) path) = false ->
  hub_lookup (w_hub w) (resolve_pretrained_path (w_fs w) path) subfolder filename
  = Some b ->
  isdir (w_fs w)
    (hub_cache_path HEZAR_TMP_DIR (resolve_pretrained_path (w_fs w) path)
       subfolder filename) = false ->
  w_hub_calls
    (snd (Config_load resolve_pretrained_path yaml_load HEZAR_TMP_DIR
            hub_cache_path cls0 path filename subfolder kwargs w))
  = (w_hub_calls w
       ++ [(resolve_pretrained_path (w_fs w) path, subfolder, filename)])%list
  /\ Dict.get
       (fs_files
          (w_fs (snd (Config_load resolve_pretrained_path yaml_load
                        HEZAR_TMP_DIR hub_cache_path cls0 path filename
                        subfolder kwargs w))))
       (hub_cache_path HEZAR_TMP_DIR (resolve_pretrained_path (w_fs w) path)
          subfolder filename)
     = Some b
  /\ w_log
       (snd (Config_load resolve_pretrained_path yaml_load HEZAR_TMP_DIR
               hub_cache_path cls0 path filename subfolder kwargs w))
     = w_log w.
Proof.
  intros Hnofile Hnodir Hhub Hcache.
  set (w1 := with_fs
               {| fs_dirs := fs_dirs (w_fs w);
                  fs_files :=
                    Dict.set (fs_files (w_fs w))
                      (hub_cache_path HEZAR_TMP_DIR
                         (resolve_pretrained_path (w_fs w) path) subfolder filename)
                      b |}
               (with_hub_calls
                  (w_hub_calls w
                     ++ [(resolve_pretrained_path (w_fs w) path, subfolder, filename)])
                  w)).
  assert (Hframe : forall X (obs : world bytes -> X), heap_blind obs ->
    obs (snd (Config_load resolve_pretrained_path yaml_load HEZAR_TMP_DIR
                hub_cache_path cls0 path filename subfolder kwargs w))
    = obs w1).
  { intros X obs Hb. unfold Config_load.
    erewrite bind_ok by reflexivity.
    erewrite bind_ok by reflexivity.
    erewrite bind_ok by reflexivity.
    rewrite Hnofile, Hnodir. cbn [negb andb].
    rewrite (bind_ok _ _ _ _ _
               (hf_hub_download_ok _ _ _ _ _ HEZAR_TMP_DIR _ Hhub Hcache)).
    fold w1.
    apply (frames_bind obs); [apply frames_OmegaConf_load | intros m].
    apply (frames_load_parsed obs m kwargs Hb). }
  split; [|split].
  - rewrite (Hframe _ _ heap_blind_hub_calls). reflexivity.
  - rewrite (Hframe _ _ heap_blind_fs). simpl. apply get_set_eq.
  - rewrite (Hframe _ _ heap_blind_log). reflexivity.
Qed.

Lemma load_from_hub_records_and_caches_witness :
  w_hub_calls
    (snd (Config_load (fun _ p => p) Some "/tmp/hezar"
            (fun c r s f => path_join c [r; s; f])
            Config "hezarai/distilbert" "config.yaml" "" []
            (sample_world [] [] [])))
  = (w_hub_calls (sample_world [] [] [])
       ++ [("hezarai/distilbert", "", "config.yaml")])%list
  /\ Dict.get
       (fs_files
          (w_fs (snd (Config_load (fun _ p => p) Some "/tmp/hezar"
                        (fun c r s f => path_join c [r; s; f])
                        Config "hezarai/distilbert" "config.yaml" "" []
                        (sample_world [] [] [])))))
       (path_join "/tmp/hezar" ["hezarai/distilbert"; ""; "config.yaml"])
     = Some [("name", VStr "distilbert_text_classification");
             ("config_type", VStr "model")]
  /\ w_log
       (snd (Config_load (fun _ p => p) Some "/tmp/hezar"
               (fun c r s f => path_join c [r; s; f])
               Config "hezarai/distilbert" "config.yaml" "" []
               (sample_world [] [] [])))
     = w_log (sample_world [] [] []).
Proof.
  apply (load_from_hub_records_and_caches (fun _ p => p) Some "/tmp/hezar"
           (fun c r s f => path_join c [r; s; f])
           (sample_world [] [] [])
           Config "hezarai/distilbert" "config.yaml" "" []
           [("name", VStr "distilbert_text_classification");
            ("config_type", VStr "model")]).
  - reflexivity.
  - reflexivity.
  - reflexivity.
  - reflexivity.
Defined.

Lemma bind_congr {bytes A B} (m : @M bytes A) (f g : A -> M B) w :
  (forall a w', f a w' = g a w') -> bind m f w = bind m g w.
Proof.
  intros H. unfold bind. destruct (m w) as [[a|e] w']; [apply H | reflexivity].
Qed.

Lemma update_loop_app {bytes} (dl : loc) (pre rest : pydict) :
  forall (adopted : bool) self (w : world bytes),
    update_loop dl adopted self (pre ++ rest) w
    = bind (update_loop dl adopted self pre)
        (fun self' =>
           update_loop dl (adopted || Dict.mem pre "__dict__") self' rest) w.
Proof.
  induction pre as [|[k v] pre IH]; intros adopted self w.
  - cbn [app update_loop]. rewrite bind_ret.
    unfold Dict.mem. simpl. rewrite orb_false_r. reflexivity.
  - cbn [app update_loop].
    rewrite bind_bind. apply bind_congr. intros known w1.
    rewrite bind_bind. apply bind_congr. intros u w2.
    rewrite bind_bind. apply bind_congr. intros self' w3.
    rewrite bind_bind. apply bind_congr. intros u' w4.
    rewrite IH.
    assert (Hflag : (adopted || String.eqb k "__dict__")
                    || Dict.mem pre "__dict__"
                    = adopted || Dict.mem ((k, v) :: pre) "__dict__").
    { unfold Dict.mem. simpl.
      destruct adopted, (String.eqb k "__dict__"); reflexivity. }
    rewrite Hflag. reflexivity.
Qed.

(** X23. [update] is not atomic: the items are assigned one after the
    other, and when the assignment of one raises (a [__class__] or
    [__weakref__] key does), the call raises with the earlier items already
    assigned to the instance and the later ones not. *)
Theorem update_keeps_assignments_made_before_a_failure {bytes} (w : world bytes)
    self (d : loc) sd (pre rest : pydict) k (v : value) :
  w_heap w !! d = Some (pre ++ (k, v) :: rest)%list ->
  w_heap w !! inst_dict self = Some sd ->
  d <> inst_dict self ->
  plain_keys pre = true ->
  k = "__class__" \/ k = "__weakref__" ->
  exists e w',
    Config_update self d [] w = (Raise e, w')
    /\ w_heap w' !! inst_dict self = Some (Dict.update sd pre).
Proof.
  intros Hd Hsd Hne Hplain Hk.
  unfold Config_update.
  rewrite (bind_ok _ _ _ _ _ (dict_update_ok _ _ _ [] Hd)).
  change (Dict.update (pre ++ (k, v) :: rest) []) with (pre ++ (k, v) :: rest)%list.
  erewrite bind_ok; cycle 1.
  { apply deref_ok. simpl. eapply lookup_store, Hd. }
  rewrite update_loop_app.
  erewrite bind_ok; cycle 1.
  { apply update_loop_plain with (sd := sd); [|exact Hplain].
    simpl. rewrite list_lookup_insert_ne by exact Hne. exact Hsd. }
  set (w1 := with_log _ _).
  assert (Hsd1 : w_heap w1 !! inst_dict self = Some (Dict.update sd pre)).
  { subst w1. simpl. apply list_lookup_insert_eq. rewrite length_insert.
    eapply lookup_lt_Some, Hsd. }
  cbn [update_loop].
  rewrite (bind_ok _ _ _ _ _ (hasattr_ok _ _ _ k Hsd1)).
  set (known := Dict.mem (Dict.update sd pre) k || class_provides (inst_class self) k).
  set (w2 := if known then w1
             else with_log (w_log w1 ++ [Warning (unknown_parameter_message self k)]) w1).
  assert (Hw2 : (if known then ret tt
                 else logger_warning (unknown_parameter_message self k)) w1
                = (Ok tt, w2)).
  { subst w2. destruct known; reflexivity. }
  rewrite (bind_ok _ _ _ _ _ Hw2).
  assert (Hsd2 : w_heap w2 !! inst_dict self = Some (Dict.update sd pre)).
  { subst w2. destruct known; exact Hsd1. }
  destruct Hk as [-> | ->].
  - eexists _, w2. split; [|exact Hsd2].
    erewrite bind_raise; reflexivity.
  - eexists _, w2. split; [|exact Hsd2].
    erewrite bind_raise; reflexivity.
Qed.

Lemma update_keeps_assignments_made_before_a_failure_witness :
  exists e (w' : world pydict),
    Config_update {| inst_class := ModelConfig; inst_dict := 0 |} 1 []
      (sample_world [[("name", VStr "m"); ("config_type", VStr "model")];
                     [("name", VStr "n"); ("__class__", VStr "X");
                      ("config_type", VStr "dataset")]] [] [])
    = (Raise e, w')
    /\ w_heap w' !! 0
       = Some (Dict.update [("name", VStr "m"); ("config_type", VStr "model")]
                 [("name", VStr "n")]).
Proof.
  apply (update_keeps_assignments_made_before_a_failure
           (sample_world [[("name", VStr "m"); ("config_type", VStr "model")];
                          [("name", VStr "n"); ("__class__", VStr "X");
                           ("config_type", VStr "dataset")]] [] [])
           {| inst_class := ModelConfig; inst_dict := 0 |} 1
           [("name", VStr "m"); ("config_type", VStr "model")]
           [("name", VStr "n")] [("config_type", VStr "dataset")]
           "__class__" (VStr "X")).
  - reflexivity.
  - reflexivity.
  - simpl. lia.
  - reflexivity.
  - left. reflexivity.
Defined.

Lemma update_self {V} (d : list (string * V)) :
  NoDup (Dict.keys d) -> Dict.update d d = d.
Proof.
  intros Hnd. apply dict_ext.
  - apply keys_update_known. intros k Hin. apply mem_keys, Hin.
  - intros k. rewrite get_update, last_write_NoDup by exact Hnd.
    destruct (Dict.get d k); reflexivity.
  - apply NoDup_keys_update, Hnd.
Qed.

(** X24. Since [dict()] hands out the attribute dictionary itself and
    [update] first writes the keywords into the mapping it is given,
    [c.update(c.dict(), **kwargs)] stores the keywords on the instance
    before the loop looks at them: every key is known by then, so unknown
    keywords are set without any warning. *)
Theorem update_with_own_dict_sets_keywords_silently {bytes} (w : world bytes)
    self sd kwargs :
  w_heap w !! inst_dict self = Some sd ->
  NoDup (Dict.keys sd) ->
  plain_keys (Dict.update sd kwargs) = true ->
  Config_update self (Config_dict self) kwargs w
  = (Ok self,
     with_heap (<[inst_dict self := Dict.update sd kwargs]> (w_heap w)) w).
Proof.
  intros Hsd Hnd Hplain. unfold Config_update, Config_dict.
  rewrite (bind_ok _ _ _ _ _ (dict_update_ok _ _ _ kwargs Hsd)).
  set (items := Dict.update sd kwargs) in *.
  set (w1 := with_heap (<[inst_dict self := items]> (w_heap w)) w).
  assert (Hs1 : w_heap w1 !! inst_dict self = Some items)
    by (subst w1; simpl; eapply lookup_store, Hsd).
  rewrite (bind_ok _ _ _ _ _ (deref_ok _ _ _ Hs1)).
  rewrite (update_loop_plain (inst_dict self) items self w1 items Hs1 Hplain).
  rewrite update_warnings_known
    by (intros k Hin; apply mem_keys in Hin; rewrite Hin; reflexivity).
  rewrite update_self by (apply NoDup_keys_update, Hnd).
  rewrite app_nil_r, (list_insert_id _ _ _ Hs1), world_eta. reflexivity.
Qed.

Lemma update_with_own_dict_sets_keywords_silently_witness :
  Config_update {| inst_class := ModelConfig; inst_dict := 0 |}
    (Config_dict {| inst_class := ModelConfig; inst_dict := 0 |})
    [("bogus_field", VInt 1)]
    (sample_world [[("name", VStr "m"); ("config_type", VStr "model")]] [] [])
  = (Ok {| inst_class := ModelConfig; inst_dict := 0 |},
     with_heap
       (<[0 := Dict.update [("name", VStr "m"); ("config_type", VStr "model")]
                 [("bogus_field", VInt 1)]]>
          (w_heap (sample_world [[("name", VStr "m"); ("config_type", VStr "model")]]
                     [] [])))
       (sample_world [[("name", VStr "m"); ("config_type", VStr "model")]] [] [])).
Proof.
  apply (update_with_own_dict_sets_keywords_silently
           (sample_world [[("name", VStr "m"); ("config_type", VStr "model")]] [] [])
           {| inst_class := ModelConfig; inst_dict := 0 |}
           [("name", VStr "m"); ("config_type", VStr "model")]
           [("bogus_field", VInt 1)]).
  - reflexivity.
  - apply (bool_decide_unpack _). vm_compute. exact I.
  - reflexivity.
Defined.
